(** * BRDNet training / validation driver ([train_val.py])

    A shallow embedding of the driver script: the argument parser
    ([get_args]), the training epoch ([train]), the validation epoch
    ([val]) and the epoch loop of [main], followed by the properties
    of the driver that are established on it.

    Python floats are IEEE binary64 numbers and are embedded as Rocq's
    primitive floats; Python integers are embedded as [Z].  The deep
    learning framework (tensors, the network, autograd, the optimizer)
    is an interface, [Framework], whose operations the driver calls;
    every call is recorded, in program order, in the event trace of the
    computation.  Two of these calls reject arguments that the command
    line can provide, and then end the run in an exception: the reshape
    of a batch to patches ([RuntimeError]) and the construction of the
    optimizer ([ValueError]). *)

From Stdlib Require Import ZArith String DecimalString List Bool Lia Floats.
From Stdlib Require DecimalPos DecimalZ.
Import ListNotations.

Local Open Scope string_scope.
Local Open Scope list_scope.
Local Open Scope Z_scope.

(** ** Python values *)

(** Conversion performed by Python when an [int] meets a [float] in an
    arithmetic operation: the correctly rounded binary64 value. *)
Definition float_of_Z (z : Z) : float :=
  SF2Prim (binary_normalize prec emax z 0 false).

(** [float('inf')] *)
Definition py_inf : float := infinity.

(** Truth value of a Python [str] (the [type=bool] of an argparse flag
    is the constructor [bool] applied to the flag's text). *)
Definition py_bool_of_str (s : string) : bool :=
  match s with EmptyString => false | _ => true end.

(** [str(z)] for a Python integer. *)
Definition py_str_of_Z (z : Z) : string := NilZero.string_of_int (Z.to_int z).

(** [range(lo, hi)] *)
Definition py_range (lo hi : Z) : list Z :=
  map (fun k => lo + Z.of_nat k) (seq 0 (Z.to_nat (hi - lo))).

(** Truth value of a Python [int]. *)
Definition py_truthy (z : Z) : bool := negb (z =? 0).

(** The uncaught exceptions a run can end in: those raised by the
    driver's own arithmetic and variable reads, and those raised by the
    framework calls it makes ([RuntimeError] by a tensor reshape that
    does not fit, [ValueError] by a constructor that rejects an
    argument). *)
Inductive exn : Type :=
| ZeroDivisionError
| UnboundLocalError
| RuntimeError
| ValueError.

Inductive res (A : Type) : Type :=
| Ok (a : A)
| Raise (e : exn).
Arguments Ok {A} a.
Arguments Raise {A} e.

(** ** The configuration *)

(** The [argparse.Namespace] returned by [get_args]. *)
Record Args : Type := mkArgs {
  mode : string;
  pretrained : string;
  train_path : string;
  val_path : string;
  save_dir : string;
  result_fig : bool;
  transform : bool;
  patch_n : Z;
  patch_size : Z;
  batch_size : Z;
  num_epochs : Z;
  print_iters : Z;
  decay_iters : Z;
  save_interval : Z;
  test_interval : Z;
  lr : float;
  device : string;
  num_workers : Z;
  multi_gpu : bool
}.

(** One command line option together with its text after the [type]
    conversion of its flag ([str], [int] and [float] flags carry the
    converted value; [bool] flags carry the raw text, converted by
    [py_bool_of_str]). *)
Inductive cli_opt : Type :=
| Opt_mode (s : string)
| Opt_pretrained (s : string)
| Opt_train_path (s : string)
| Opt_val_path (s : string)
| Opt_save_dir (s : string)
| Opt_result_fig (s : string)
| Opt_transform (s : string)
| Opt_patch_n (z : Z)
| Opt_patch_size (z : Z)
| Opt_batch_size (z : Z)
| Opt_num_epochs (z : Z)
| Opt_print_iters (z : Z)
| Opt_decay_iters (z : Z)
| Opt_save_interval (z : Z)
| Opt_test_interval (z : Z)
| Opt_lr (x : float)
| Opt_device (s : string)
| Opt_num_workers (z : Z)
| Opt_multi_gpu (s : string).

(** Value of a flag: its last occurrence on the command line, or the
    flag's default. *)
Fixpoint flag_value {A : Type} (sel : cli_opt -> option A) (dflt : A)
  (argv : list cli_opt) : A :=
  match argv with
  | [] => dflt
  | o :: rest =>
      match sel o with
      | Some v => flag_value sel v rest
      | None => flag_value sel dflt rest
      end
  end.

Definition get_args (argv : list cli_opt) : Args :=
  {| mode := flag_value (fun o => match o with Opt_mode s => Some s | _ => None end) "train" argv;
     pretrained := flag_value (fun o => match o with Opt_pretrained s => Some s | _ => None end) "" argv;
     train_path := flag_value (fun o => match o with Opt_train_path s => Some s | _ => None end)
                     "data/image_path/train.txt" argv;
     val_path := flag_value (fun o => match o with Opt_val_path s => Some s | _ => None end)
                   "data/image_path/val.txt" argv;
     save_dir := flag_value (fun o => match o with Opt_save_dir s => Some s | _ => None end) "./ckpt/1" argv;
     result_fig := flag_value (fun o => match o with Opt_result_fig s => Some (py_bool_of_str s) | _ => None end)
                     true argv;
     transform := flag_value (fun o => match o with Opt_transform s => Some (py_bool_of_str s) | _ => None end)
                    false argv;
     patch_n := flag_value (fun o => match o with Opt_patch_n z => Some z | _ => None end) 10 argv;
     patch_size := flag_value (fun o => match o with Opt_patch_size z => Some z | _ => None end) 50 argv;
     batch_size := flag_value (fun o => match o with Opt_batch_size z => Some z | _ => None end) 16 argv;
     num_epochs := flag_value (fun o => match o with Opt_num_epochs z => Some z | _ => None end) 50 argv;
     print_iters := flag_value (fun o => match o with Opt_print_iters z => Some z | _ => None end) 20 argv;
     decay_iters := flag_value (fun o => match o with Opt_decay_iters z => Some z | _ => None end) 3000 argv;
     save_interval := flag_value (fun o => match o with Opt_save_interval z => Some z | _ => None end) 1 argv;
     test_interval := flag_value (fun o => match o with Opt_test_interval z => Some z | _ => None end) 1 argv;
     lr := flag_value (fun o => match o with Opt_lr x => Some x | _ => None end) 0x1.0624dd2f1a9fcp-10%float argv;
     device := flag_value (fun o => match o with Opt_device s => Some s | _ => None end) "cpu" argv;
     num_workers := flag_value (fun o => match o with Opt_num_workers z => Some z | _ => None end) 2 argv;
     multi_gpu := flag_value (fun o => match o with Opt_multi_gpu s => Some (py_bool_of_str s) | _ => None end)
                    false argv |}.

(** [args.device = d] *)
Definition set_device (d : string) (a : Args) : Args :=
  {| mode := mode a; pretrained := pretrained a; train_path := train_path a;
     val_path := val_path a; save_dir := save_dir a; result_fig := result_fig a;
     transform := transform a; patch_n := patch_n a; patch_size := patch_size a;
     batch_size := batch_size a; num_epochs := num_epochs a;
     print_iters := print_iters a; decay_iters := decay_iters a;
     save_interval := save_interval a; test_interval := test_interval a;
     lr := lr a; device := d; num_workers := num_workers a;
     multi_gpu := multi_gpu a |}.

(** The defaults of the flags. *)
Definition default_args : Args :=
  {| mode := "train"; pretrained := "";
     train_path := "data/image_path/train.txt";
     val_path := "data/image_path/val.txt";
     save_dir := "./ckpt/1"; result_fig := true; transform := false;
     patch_n := 10; patch_size := 50; batch_size := 16; num_epochs := 50;
     print_iters := 20; decay_iters := 3000; save_interval := 1;
     test_interval := 1; lr := 0x1.0624dd2f1a9fcp-10%float; device := "cpu";
     num_workers := 2; multi_gpu := false |}.

(** What one option of the command line controls: it gives the
    configuration item of its own flag its value and leaves every
    other item as it is. *)
Definition set_flag (o : cli_opt) (a : Args) : Args :=
  {| mode := match o with Opt_mode s => s | _ => mode a end;
     pretrained := match o with Opt_pretrained s => s | _ => pretrained a end;
     train_path := match o with Opt_train_path s => s | _ => train_path a end;
     val_path := match o with Opt_val_path s => s | _ => val_path a end;
     save_dir := match o with Opt_save_dir s => s | _ => save_dir a end;
     result_fig :=
       match o with Opt_result_fig s => py_bool_of_str s | _ => result_fig a end;
     transform :=
       match o with Opt_transform s => py_bool_of_str s | _ => transform a end;
     patch_n := match o with Opt_patch_n z => z | _ => patch_n a end;
     patch_size := match o with Opt_patch_size z => z | _ => patch_size a end;
     batch_size := match o with Opt_batch_size z => z | _ => batch_size a end;
     num_epochs := match o with Opt_num_epochs z => z | _ => num_epochs a end;
     print_iters := match o with Opt_print_iters z => z | _ => print_iters a end;
     decay_iters := match o with Opt_decay_iters z => z | _ => decay_iters a end;
     save_interval :=
       match o with Opt_save_interval z => z | _ => save_interval a end;
     test_interval :=
       match o with Opt_test_interval z => z | _ => test_interval a end;
     lr := match o with Opt_lr x => x | _ => lr a end;
     device := match o with Opt_device s => s | _ => device a end;
     num_workers := match o with Opt_num_workers z => z | _ => num_workers a end;
     multi_gpu :=
       match o with Opt_multi_gpu s => py_bool_of_str s | _ => multi_gpu a end |}.

(** The configuration with the items that the driver never reads
    blanked: [mode], [result_fig], [transform], [batch_size],
    [decay_iters], [test_interval] and [multi_gpu] occur nowhere in
    [train], [val] and [main], and [device] is only read after it has
    been overwritten. *)
Definition read_items (a : Args) : Args :=
  {| mode := ""; pretrained := pretrained a; train_path := train_path a;
     val_path := val_path a; save_dir := save_dir a; result_fig := false;
     transform := false; patch_n := patch_n a; patch_size := patch_size a;
     batch_size := 0; num_epochs := num_epochs a;
     print_iters := print_iters a; decay_iters := 0;
     save_interval := save_interval a; test_interval := 0;
     lr := lr a; device := ""; num_workers := num_workers a;
     multi_gpu := false |}.

(** ** The framework interface *)

(** What the driver uses of the deep learning framework.  [Params] is
    the network's [state_dict()], [Grads] the gradient buffers of the
    parameters and [OptState] the optimizer's own state (the moment
    estimates of Adam).  The learning rate of the optimizer,
    [optimizer.param_groups[0]['lr']], is kept apart, in the world. *)
Class Framework : Type := {
  Tensor : Type;
  Params : Type;
  Grads : Type;
  OptState : Type;
  (** whether [x.view(-1, 1, p, p)] is a valid reshape of [x]; the
      call raises a [RuntimeError] when it is not *)
  view_ok : Z -> Tensor -> bool;
  (** [x.view(-1, 1, p, p)], when the reshape is valid *)
  view : Z -> Tensor -> Tensor;
  (** [x.to(device)] *)
  to_device : string -> Tensor -> Tensor;
  (** [model(x)], in training mode ([true]) or in evaluation mode *)
  forward : bool -> Params -> Tensor -> Tensor;
  (** [nn.MSELoss()(pred, gt)] *)
  mse_loss : Tensor -> Tensor -> Tensor;
  (** [t.item()] *)
  item : Tensor -> float;
  (** [n / t] for a Python integer [n] *)
  rtruediv : Z -> Tensor -> Tensor;
  (** [torch.log10(t)] *)
  log10 : Tensor -> Tensor;
  (** the gradient buffers after [optimizer.zero_grad()] *)
  no_grads : Grads;
  (** [loss.backward()]: accumulates the gradient of [loss] *)
  backward : Tensor -> Grads -> Grads;
  (** [optimizer.step()] of Adam at a learning rate *)
  adam_step : float -> OptState -> Grads -> Params -> OptState * Params;
  (** the optimizer state built by [optim.Adam(model.parameters(), lr)] *)
  adam_init : Params -> OptState;
  (** the parameters of a fresh [BRDNet()] *)
  brdnet_init : Params;
  (** [torch.load(path)] *)
  torch_load : string -> Params;
  (** no tensor can be viewed as patches of a size that is not
      positive: a size below [-1] is not a dimension, [-1] twice more
      leaves several dimensions to infer, and patches of size [0] hold
      no element, so that the data does not fit or, when there is
      none, the dimension to infer is not determined *)
  view_ok_positive : forall p x, view_ok p x = true -> 0 < p
}.

(** ** The plateau scheduler *)

(** Modelled from the spec: the plateau scheduler is the framework's
    [ReduceLROnPlateau] object that [main] builds; its class belongs to
    the framework and its code is not part of this repository.  The spec describes it as a policy
    that "tracks a running best-metric plateau count", is "mutated once
    per epoch from validation loss" and "reduces the rate when a
    monitored metric stops improving", with factor 0.3, patience 6 and
    floor 1e-7.  The record holds the constructor's arguments (those
    that [main] does not give have the framework's defaults) followed
    by the mutable state. *)
Record Scheduler : Type := mkScheduler {
  s_factor : float;
  s_patience : Z;
  s_min_lr : float;
  s_threshold : float;
  s_cooldown : Z;
  s_eps : float;
  s_best : float;
  s_num_bad_epochs : Z;
  s_cooldown_counter : Z
}.

(** 0.3, 1e-7, 1e-4 and 1e-8 as the binary64 numbers Python reads. *)
Definition factor_0_3 : float := 0x1.3333333333333p-2.
Definition min_lr_1e_7 : float := 0x1.ad7f29abcaf48p-24.
Definition threshold_1e_4 : float := 0x1.a36e2eb1c432dp-14.
Definition eps_1e_8 : float := 0x1.5798ee2308c3ap-27.

(** Modelled from the spec: the scheduler of [main],
    [ReduceLROnPlateau(optimizer, mode='min', factor=0.3, verbose=True,
    patience=6, min_lr=1E-7)], before its first step. *)
Definition ReduceLROnPlateau_init : Scheduler :=
  {| s_factor := factor_0_3; s_patience := 6; s_min_lr := min_lr_1e_7;
     s_threshold := threshold_1e_4; s_cooldown := 0; s_eps := eps_1e_8;
     s_best := py_inf; s_num_bad_epochs := 0; s_cooldown_counter := 0 |}.

(** Modelled from the spec: "improving", for mode [min] with a relative
    threshold: the metric is below the best one scaled by
    [1 - threshold]. *)
Definition is_better (s : Scheduler) (a best : float) : bool :=
  (a <? best * (1 - s_threshold s))%float.

(** Python's [max(a, b)] on floats: [b] when [b > a], else [a]. *)
Definition py_max (a b : float) : float :=
  if (a <? b)%float then b else a.

(** Modelled from the spec: the book-keeping of one scheduler step,
    before the decision to reduce: the running best and the count of
    epochs without improvement ("plateau count"). *)
Definition sched_observe (s : Scheduler) (current : float) : Scheduler :=
  let s1 :=
    if is_better s current (s_best s)
    then {| s_factor := s_factor s; s_patience := s_patience s; s_min_lr := s_min_lr s;
            s_threshold := s_threshold s; s_cooldown := s_cooldown s; s_eps := s_eps s;
            s_best := current; s_num_bad_epochs := 0;
            s_cooldown_counter := s_cooldown_counter s |}
    else {| s_factor := s_factor s; s_patience := s_patience s; s_min_lr := s_min_lr s;
            s_threshold := s_threshold s; s_cooldown := s_cooldown s; s_eps := s_eps s;
            s_best := s_best s; s_num_bad_epochs := s_num_bad_epochs s + 1;
            s_cooldown_counter := s_cooldown_counter s |} in
  if 0 <? s_cooldown_counter s1
  then {| s_factor := s_factor s1; s_patience := s_patience s1; s_min_lr := s_min_lr s1;
          s_threshold := s_threshold s1; s_cooldown := s_cooldown s1; s_eps := s_eps s1;
          s_best := s_best s1; s_num_bad_epochs := 0;
          s_cooldown_counter := s_cooldown_counter s1 - 1 |}
  else s1.

(** Modelled from the spec: the scheduler after a reduction: the
    plateau count starts again and the cooldown begins. *)
Definition sched_after_reduce (s : Scheduler) : Scheduler :=
  {| s_factor := s_factor s; s_patience := s_patience s; s_min_lr := s_min_lr s;
     s_threshold := s_threshold s; s_cooldown := s_cooldown s; s_eps := s_eps s;
     s_best := s_best s; s_num_bad_epochs := 0;
     s_cooldown_counter := s_cooldown s |}.

(** Modelled from the spec: the reduced rate, [max(old * factor,
    min_lr)], which replaces the old one only when it is lower by more
    than [eps]. *)
Definition reduced_lr (s : Scheduler) (old_lr : float) : option float :=
  let new_lr := py_max (old_lr * s_factor s)%float (s_min_lr s) in
  if (s_eps s <? old_lr - new_lr)%float then Some new_lr else None.

(** ** Worlds, events and the driver monad *)

(** Records handed to the logger: the format string of each
    [logger.info] call with the values of its arguments. *)
Inductive log_record : Type :=
| LogDevice (dev : string)
| LogArgs (a : Args)
| LogEpoch (epoch n : Z)
| LogTrainBatch (epoch batch len : Z) (train_loss mean_loss rate : float)
| LogValBatch (epoch batch len : Z)
    (val_loss mean_loss psnr mean_psnr org_psnr mean_org_psnr : float)
| LogMeanPsnr (x : float)
| LogMeanOrgPsnr (x : float)
| LogMeanLoss (x : float)
| LogDone.

Section Driver.

Context {FW : Framework}.

(** A dataloader item: noisy input, ground truth, identifier. *)
Definition Batch : Type := (Tensor * Tensor * string)%type.

(** The mutable objects of a run: the shared [args] namespace, the
    network (parameters, [training] flag, gradient buffers), the
    optimizer (its state and its learning rate), the scheduler, and
    the autograd switch. *)
Record World : Type := mkWorld {
  w_args : Args;
  w_params : Params;
  w_training : bool;
  w_grads : Grads;
  w_opt : OptState;
  w_lr : float;
  w_sched : Scheduler;
  w_grad_enabled : bool
}.

Definition with_args (a : Args) (w : World) : World :=
  mkWorld a (w_params w) (w_training w) (w_grads w) (w_opt w) (w_lr w)
    (w_sched w) (w_grad_enabled w).
Definition with_training (b : bool) (w : World) : World :=
  mkWorld (w_args w) (w_params w) b (w_grads w) (w_opt w) (w_lr w)
    (w_sched w) (w_grad_enabled w).
Definition with_grads (g : Grads) (w : World) : World :=
  mkWorld (w_args w) (w_params w) (w_training w) g (w_opt w) (w_lr w)
    (w_sched w) (w_grad_enabled w).
Definition with_opt_params (o : OptState) (p : Params) (w : World) : World :=
  mkWorld (w_args w) p (w_training w) (w_grads w) o (w_lr w)
    (w_sched w) (w_grad_enabled w).
Definition with_lr (x : float) (w : World) : World :=
  mkWorld (w_args w) (w_params w) (w_training w) (w_grads w) (w_opt w) x
    (w_sched w) (w_grad_enabled w).
Definition with_sched (s : Scheduler) (w : World) : World :=
  mkWorld (w_args w) (w_params w) (w_training w) (w_grads w) (w_opt w) (w_lr w)
    s (w_grad_enabled w).
Definition with_grad_enabled (b : bool) (w : World) : World :=
  mkWorld (w_args w) (w_params w) (w_training w) (w_grads w) (w_opt w) (w_lr w)
    (w_sched w) b.

(** Calls made by the driver, in program order. *)
Inductive event : Type :=
| EMakedirs (path : string)
| EDataset (data_path : string) (n size : Z)
| EDataLoader (data_path : string) (batch : Z) (shuffle : bool) (workers : Z)
| ELog (r : log_record)
| EPrint (s : string)
| EModelTo (dev : string)
| ELoadStateDict (path : string)
| EModelTrain
| EModelEval
| ENoGrad (enter : bool)
| EView (p : Z)
| ETo (dev : string)
| EForward (training grad : bool)
| ELoss (value : Tensor)
| EZeroGrad
| EBackward
| EOptStep
| ESchedStep (metrics : float)
| ESetLr (new_lr : float)
| ESave (sd : Params) (path : string).

(** A computation of the driver: from a world to a result or an
    uncaught exception, the world it leaves and the calls it made. *)
Definition M (A : Type) : Type := World -> res A * World * list event.

Definition ret {A} (a : A) : M A := fun w => (Ok a, w, []).

Definition bind {A B} (m : M A) (k : A -> M B) : M B :=
  fun w =>
    match m w with
    | (Ok a, w1, t1) => let '(r, w2, t2) := k a w1 in (r, w2, t1 ++ t2)
    | (Raise e, w1, t1) => (Raise e, w1, t1)
    end.

Definition raise {A} (e : exn) : M A := fun w => (Raise e, w, []).
Definition emit (ev : event) : M unit := fun w => (Ok tt, w, [ev]).
Definition get : M World := fun w => (Ok w, w, []).
Definition modify (f : World -> World) : M unit := fun w => (Ok tt, f w, []).

(** Runs [m] and then [final], whether [m] returned or raised (the
    exit of a [with] block). *)
Definition finally {A} (m : M A) (final : M unit) : M A :=
  fun w =>
    let '(r, w1, t1) := m w in
    let '(_, w2, t2) := final w1 in
    (r, w2, t1 ++ t2).

Notation "x <- m ;; k" := (bind m (fun x => k))
  (at level 61, m at next level, right associativity).
Notation "' pat <- m ;; k" := (bind m (fun x => match x with pat => k end))
  (at level 61, pat pattern, m at next level, right associativity).
Notation "m ;; k" := (bind m (fun _ => k))
  (at level 61, right associativity).

(** [a % b] on Python integers. *)
Definition py_mod (a b : Z) : M Z :=
  if b =? 0 then raise ZeroDivisionError else ret (a mod b).

(** [x / n] for a float [x] and a Python integer [n]. *)
Definition py_truediv (x : float) (n : Z) : M float :=
  if n =? 0 then raise ZeroDivisionError else ret (x / float_of_Z n)%float.

(** Reading a local variable that a loop may have left unbound. *)
Definition read_local {A} (v : option A) : M A :=
  match v with
  | Some a => ret a
  | None => raise UnboundLocalError
  end.

Definition logger_info (r : log_record) : M unit := emit (ELog r).

(** [for i, x in enumerate(xs)]: runs [body] on every item with its
    index and the loop-carried locals; returns the locals and the loop
    variable [i], unbound when the loop body never ran. *)
Fixpoint for_enumerate {X S} (body : Z -> X -> S -> M S)
  (i : Z) (last : option Z) (xs : list X) (s : S) : M (S * option Z) :=
  match xs with
  | [] => ret (s, last)
  | x :: rest =>
      s' <- body i x s ;;
      for_enumerate body (i + 1) (Some i) rest s'
  end.

(** ** Framework calls *)

Definition tensor_view (p : Z) (x : Tensor) : M Tensor :=
  emit (EView p) ;;
  if view_ok p x then ret (view p x) else raise RuntimeError.

Definition tensor_to (dev : string) (x : Tensor) : M Tensor :=
  emit (ETo dev) ;; ret (to_device dev x).

Definition call_model (x : Tensor) : M Tensor :=
  w <- get ;;
  emit (EForward (w_training w) (w_grad_enabled w)) ;;
  ret (forward (w_training w) (w_params w) x).

Definition loss_func (pred gt : Tensor) : M Tensor :=
  let value := mse_loss pred gt in
  emit (ELoss value) ;; ret value.

Definition model_train : M unit :=
  emit EModelTrain ;; modify (with_training true).

Definition model_eval : M unit :=
  emit EModelEval ;; modify (with_training false).

Definition optimizer_zero_grad : M unit :=
  emit EZeroGrad ;; modify (with_grads no_grads).

Definition loss_backward (loss : Tensor) : M unit :=
  emit EBackward ;;
  modify (fun w => with_grads (backward loss (w_grads w)) w).

Definition optimizer_step : M unit :=
  emit EOptStep ;;
  modify (fun w =>
            let '(o, p) := adam_step (w_lr w) (w_opt w) (w_grads w) (w_params w) in
            with_opt_params o p w).

(** [with torch.no_grad(): body] *)
Definition with_no_grad {A} (body : M A) : M A :=
  w <- get ;;
  finally
    (emit (ENoGrad true) ;; modify (with_grad_enabled false) ;; body)
    (fun w' => (Ok tt, with_grad_enabled (w_grad_enabled w) w', [ENoGrad false])).

(** [torch.save(model.state_dict(), path)] *)
Definition torch_save (path : string) : M unit :=
  w <- get ;; emit (ESave (w_params w) path).

(** ** The training epoch *)

Definition the_args : M Args := w <- get ;; ret (w_args w).

Definition len {X} (xs : list X) : Z := Z.of_nat (List.length xs).

(** Body of the [for] loop of [train]; the loop-carried local is
    [total_loss]. *)
Definition train_body (epoch n : Z) (batch_i : Z) (b : Batch)
  (total_loss : float) : M float :=
  let '(inp_data, gt_data, _) := b in
  args <- the_args ;;
  '(inp_data, gt_data) <-
    (if py_truthy (patch_size args)
     then inp' <- tensor_view (patch_size args) inp_data ;;
          gt' <- tensor_view (patch_size args) gt_data ;;
          ret (inp', gt')
     else ret (inp_data, gt_data)) ;;
  inp_data <- tensor_to (device args) inp_data ;;
  gt_data <- tensor_to (device args) gt_data ;;
  pred <- call_model inp_data ;;
  loss <- loss_func pred gt_data ;;
  optimizer_zero_grad ;;
  loss_backward loss ;;
  optimizer_step ;;
  let total_loss := (total_loss + item loss)%float in
  r <- py_mod batch_i (print_iters args) ;;
  (if r =? 0
   then mean <- py_truediv total_loss (batch_i + 1) ;;
        w <- get ;;
        logger_info (LogTrainBatch epoch (batch_i + 1) n (item loss) mean (w_lr w))
   else ret tt) ;;
  ret total_loss.

Definition train (dataloader : list Batch) (epoch : Z) : M float :=
  modify (fun w => with_args (set_device "cpu" (w_args w)) w) ;;
  let total_loss := 0%float in
  model_train ;;
  '(total_loss, batch_i) <-
    for_enumerate (train_body epoch (len dataloader)) 0 None dataloader total_loss ;;
  emit (EPrint "") ;;
  batch_i <- read_local batch_i ;;
  py_truediv total_loss (batch_i + 1).

(** ** The validation epoch *)

(** [10 * torch.log10(1 / mse).item()] *)
Definition psnr_of (mse : Tensor) : float :=
  (float_of_Z 10 * item (log10 (rtruediv 1 mse)))%float.

(** Body of the [for] loop of [val]; the loop-carried locals are
    [total_loss], [total_psnr] and [total_org_psnr]. *)
Definition val_body (epoch n : Z) (batch_i : Z) (b : Batch)
  (totals : float * float * float) : M (float * float * float) :=
  let '(inp_data, gt_data, _) := b in
  let '(total_loss, total_psnr, total_org_psnr) := totals in
  args <- the_args ;;
  inp_data <- tensor_view (patch_size args) inp_data ;;
  gt_data <- tensor_view (patch_size args) gt_data ;;
  pred <- call_model inp_data ;;
  loss <- loss_func pred gt_data ;;
  org_mse <- loss_func inp_data gt_data ;;
  let psnr := psnr_of loss in
  let org_psnr := psnr_of org_mse in
  let total_loss := (total_loss + item loss)%float in
  let total_psnr := (total_psnr + psnr)%float in
  let total_org_psnr := (total_org_psnr + org_psnr)%float in
  r <- py_mod batch_i (print_iters args) ;;
  (if r =? 0
   then mean <- py_truediv total_loss (batch_i + 1) ;;
        mean_psnr <- py_truediv total_psnr (batch_i + 1) ;;
        mean_org_psnr <- py_truediv total_org_psnr (batch_i + 1) ;;
        logger_info (LogValBatch epoch (batch_i + 1) n (item loss) mean
                       psnr mean_psnr org_psnr mean_org_psnr)
   else ret tt) ;;
  ret (total_loss, total_psnr, total_org_psnr).

Definition val (dataloader : list Batch) (epoch : Z) : M float :=
  modify (fun w => with_args (set_device "cpu" (w_args w)) w) ;;
  let totals := (0, 0, 0)%float in
  model_eval ;;
  '(totals, _) <-
    with_no_grad
      (for_enumerate (val_body epoch (len dataloader)) 0 None dataloader totals) ;;
  let '(total_loss, total_psnr, total_org_psnr) := totals in
  mean_psnr <- py_truediv total_psnr (len dataloader) ;;
  logger_info (LogMeanPsnr mean_psnr) ;;
  mean_org_psnr <- py_truediv total_org_psnr (len dataloader) ;;
  logger_info (LogMeanOrgPsnr mean_org_psnr) ;;
  mean_loss <- py_truediv total_loss (len dataloader) ;;
  logger_info (LogMeanLoss mean_loss) ;;
  py_truediv total_loss (len dataloader).

(** ** The epoch loop *)

(** Modelled from the spec: one step of the plateau scheduler,
    [lr_scheduler.step(v_loss)]: the book-keeping, then, once the
    plateau count exceeds the patience, the reduction of the
    optimizer's learning rate. *)
Definition lr_scheduler_step (metrics : float) : M unit :=
  emit (ESchedStep metrics) ;;
  w <- get ;;
  let s := sched_observe (w_sched w) metrics in
  if s_patience s <? s_num_bad_epochs s
  then match reduced_lr s (w_lr w) with
       | Some new_lr => emit (ESetLr new_lr) ;; modify (with_lr new_lr)
       | None => ret tt
       end ;;
       modify (with_sched (sched_after_reduce s))
  else modify (with_sched s).

Definition best_path (save_dir : string) : string :=
  (save_dir ++ "/model_best.pth")%string.

Definition checkpoint_path (save_dir : string) (epoch : Z) : string :=
  (save_dir ++ "/model_checkpoint_" ++ py_str_of_Z epoch ++ ".pth")%string.

(** Body of the [for epoch in range(1, args.num_epochs + 1)] loop of
    [main]; the loop-carried local is [best_loss].  [train_loader]
    gives the batches of the shuffled training loader in the order of
    the given epoch. *)
Definition epoch_body (train_loader : Z -> list Batch) (val_loader : list Batch)
  (epoch : Z) (best_loss : float) : M float :=
  args <- the_args ;;
  logger_info (LogEpoch epoch (num_epochs args)) ;;
  t_loss <- train (train_loader epoch) epoch ;;
  v_loss <- val val_loader epoch ;;
  lr_scheduler_step v_loss ;;
  best_loss <-
    (if (v_loss <? best_loss)%float
     then args <- the_args ;;
          torch_save (best_path (save_dir args)) ;;
          ret v_loss
     else ret best_loss) ;;
  args <- the_args ;;
  r <- py_mod epoch (save_interval args) ;;
  (if r =? 0
   then args <- the_args ;;
        torch_save (checkpoint_path (save_dir args) epoch)
   else ret tt) ;;
  ret best_loss.

(** The loop itself, over the epochs of the range; it ends with the
    value of [best_loss]. *)
Fixpoint epoch_loop (train_loader : Z -> list Batch) (val_loader : list Batch)
  (epochs : list Z) (best_loss : float) : M float :=
  match epochs with
  | [] => ret best_loss
  | epoch :: rest =>
      best_loss' <- epoch_body train_loader val_loader epoch best_loss ;;
      epoch_loop train_loader val_loader rest best_loss'
  end.

(** [optim.Adam(model.parameters(), rate)]: the constructor checks its
    arguments and raises a [ValueError] unless [0.0 <= rate] (a
    negative rate and NaN are rejected). *)
Definition optim_Adam (rate : float) : M unit :=
  if (0 <=? rate)%float then ret tt else raise ValueError.

(** The objects [main] builds before the epoch loop (the optimizer
    state is not used when [optim_Adam] rejects the rate: [main] ends
    there). *)
Definition initial_world (args : Args) : World :=
  let params :=
    if (pretrained args =? "")%string then brdnet_init
    else torch_load (pretrained args) in
  {| w_args := args; w_params := params; w_training := true;
     w_grads := no_grads; w_opt := adam_init params; w_lr := lr args;
     w_sched := ReduceLROnPlateau_init; w_grad_enabled := true |}.

(** [main], on a command line, given whether the save directory exists
    and what the two dataloaders yield. *)
Definition main_body (save_dir_exists : bool)
  (train_loader : Z -> list Batch) (val_loader : list Batch) : M unit :=
  args <- the_args ;;
  (if save_dir_exists then ret tt else emit (EMakedirs (save_dir args))) ;;
  let device := "cpu" in
  logger_info (LogDevice device) ;;
  logger_info (LogArgs args) ;;
  emit (EDataset (train_path args) (patch_n args) (patch_size args)) ;;
  emit (EDataset (val_path args) (patch_n args) (patch_size args)) ;;
  emit (EDataLoader (train_path args) 1 true (num_workers args)) ;;
  emit (EDataLoader (val_path args) 1 false (num_workers args)) ;;
  (if (pretrained args =? "")%string then ret tt
   else emit (ELoadStateDict (pretrained args))) ;;
  emit (EModelTo device) ;;
  optim_Adam (lr args) ;;
  let best_loss := py_inf in
  epoch_loop train_loader val_loader (py_range 1 (num_epochs args + 1)) best_loss ;;
  logger_info LogDone.

Definition main (argv : list cli_opt) (save_dir_exists : bool)
  (train_loader : Z -> list Batch) (val_loader : list Batch)
  : res unit * World * list event :=
  main_body save_dir_exists train_loader val_loader
    (initial_world (get_args argv)).

(** ** Observations on runs *)

Definition result {A} (run : res A * World * list event) : res A := fst (fst run).
Definition world {A} (run : res A * World * list event) : World := snd (fst run).
Definition trace {A} (run : res A * World * list event) : list event := snd run.

(** Sum of Python floats, accumulated from [0.0] in list order. *)
Definition fsum (xs : list float) : float := fold_left PrimFloat.add xs 0%float.

(** The observations [f] makes on the events of a trace, in order. *)
Fixpoint extract {A} (f : event -> option A) (t : list event) : list A :=
  match t with
  | [] => []
  | e :: rest =>
      match f e with
      | Some a => a :: extract f rest
      | None => extract f rest
      end
  end.

(** The values returned by the calls of the loss function. *)
Definition loss_values : list event -> list Tensor :=
  extract (fun e => match e with ELoss v => Some v | _ => None end).

(** Kinds of the calls that act on tensors, the network or the
    optimizer. *)
Inductive call_kind : Type :=
| KModelTrain | KModelEval | KNoGrad
| KView | KTo | KForward | KLoss | KZeroGrad | KBackward | KOptStep.

Definition kind_of (e : event) : option call_kind :=
  match e with
  | EModelTrain => Some KModelTrain
  | EModelEval => Some KModelEval
  | ENoGrad _ => Some KNoGrad
  | EView _ => Some KView
  | ETo _ => Some KTo
  | EForward _ _ => Some KForward
  | ELoss _ => Some KLoss
  | EZeroGrad => Some KZeroGrad
  | EBackward => Some KBackward
  | EOptStep => Some KOptStep
  | _ => None
  end.

Definition call_kinds : list event -> list call_kind := extract kind_of.

(** The calls of one training batch, in order; the two reshapes are
    made only when [patch_size] is non-zero. *)
Definition train_batch_kinds (patch_size : Z) : list call_kind :=
  (if patch_size =? 0 then [] else [KView; KView]) ++
  [KTo; KTo; KForward; KLoss; KZeroGrad; KBackward; KOptStep].

(** The mean losses logged at the end of the validation epochs. *)
Definition mean_losses : list event -> list float :=
  extract (fun e => match e with ELog (LogMeanLoss v) => Some v | _ => None end).

(** The lower of the best loss so far and a new loss, as the
    comparison [<] of Python floats sees it. *)
Definition lower (best v : float) : float :=
  if (v <? best)%float then v else best.

(** The least of the given losses and [+inf]. *)
Definition running_best (vs : list float) : float :=
  fold_left lower vs py_inf.

(** The paths of the checkpoints written. *)
Definition saved_paths : list event -> list string :=
  extract (fun e => match e with ESave _ p => Some p | _ => None end).

(** The per-batch quantities of the validation epoch, for a network
    with parameters [p] and patches of size [ps]. *)
Definition val_loss (ps : Z) (p : Params) (b : Batch) : Tensor :=
  let '(inp_data, gt_data, _) := b in
  mse_loss (forward false p (view ps inp_data)) (view ps gt_data).

Definition val_org_mse (ps : Z) (b : Batch) : Tensor :=
  let '(inp_data, gt_data, _) := b in
  mse_loss (view ps inp_data) (view ps gt_data).

(** Both reshapes of a batch to patches of size [ps] are valid. *)
Definition reshapes (ps : Z) (b : Batch) : bool :=
  let '(inp_data, gt_data, _) := b in
  view_ok ps inp_data && view_ok ps gt_data.

(** The reshapes that [train] makes of a batch are valid: it makes
    none when [ps] is zero. *)
Definition train_reshapes (ps : Z) (b : Batch) : bool :=
  if py_truthy ps then reshapes ps b else true.

(** The loop variable after [for i, x in enumerate(xs)] started at
    index [i]: the index of the last item, or what it was before. *)
Definition last_index (i : Z) (last : option Z) {X} (xs : list X) : option Z :=
  match xs with
  | [] => last
  | _ => Some (i + len xs - 1)
  end.

(** The world in which the loop of [train] starts. *)
Definition train_entry (w : World) : World :=
  with_training true (with_args (set_device "cpu" (w_args w)) w).

(** The world in which the loop of [val] starts, inside the
    [torch.no_grad()] block. *)
Definition val_entry (w : World) : World :=
  with_grad_enabled false
    (with_training false (with_args (set_device "cpu" (w_args w)) w)).

(** The metrics fed to the scheduler and the learning rates it set. *)
Definition sched_metrics : list event -> list float :=
  extract (fun e => match e with ESchedStep v => Some v | _ => None end).

Definition set_lrs : list event -> list float :=
  extract (fun e => match e with ESetLr x => Some x | _ => None end).

(** The best metric among [vs], as the scheduler [s] compares them,
    starting from [best], and the number of the most recent
    consecutive metrics that failed to improve on the best one before
    them, starting from [run]. *)
Fixpoint plateau (s : Scheduler) (best : float) (run : Z) (vs : list float)
  : float * Z :=
  match vs with
  | [] => (best, run)
  | v :: rest =>
      if is_better s v best then plateau s v 0 rest
      else plateau s best (run + 1) rest
  end.

(** Number of consecutive epochs, up to the last one, in which the
    monitored loss failed to improve. *)
Definition stagnant_epochs (vs : list float) : Z :=
  snd (plateau ReduceLROnPlateau_init py_inf 0 vs).

(** A computation keeps an invariant of the world and makes only
    calls of a given kind, however it ends. *)
Definition keeps {A} (I : World -> Prop) (E : event -> Prop) (m : M A) : Prop :=
  forall w, I w -> I (world (m w)) /\ Forall E (trace (m w)).

(** The calls a training epoch may make, moving data to [dev] only. *)
Definition train_event (dev : string) (e : event) : Prop :=
  match e with
  | EModelTrain | EPrint _ | EView _ | EForward _ _ | ELoss _
  | EZeroGrad | EBackward | EOptStep | ELog (LogTrainBatch _ _ _ _ _ _) => True
  | ETo d => d = dev
  | _ => False
  end.

(** The calls a validation epoch may make: the network is only run in
    evaluation mode and without gradient tracking. *)
Definition val_event (e : event) : Prop :=
  match e with
  | EModelEval | ENoGrad _ | EView _ | EForward false false | ELoss _
  | ELog (LogValBatch _ _ _ _ _ _ _ _ _) | ELog (LogMeanPsnr _)
  | ELog (LogMeanOrgPsnr _) | ELog (LogMeanLoss _) => True
  | _ => False
  end.

(** The body of the training loop keeps the configuration, the
    learning rate, the scheduler and the autograd switch. *)
Definition train_inv (a : Args) (rate : float) (s : Scheduler) (g : bool)
  (w : World) : Prop :=
  w_args w = a /\ w_lr w = rate /\ w_sched w = s /\ w_grad_enabled w = g.

(** The calls made for one validation batch. *)
Definition val_batch_event (e : event) : Prop :=
  match e with
  | EView _ | EForward false false | ELoss _
  | ELog (LogValBatch _ _ _ _ _ _ _ _ _) => True
  | _ => False
  end.

(** The world [val] leaves, however it ends. *)
Definition val_exit (w : World) : World :=
  with_training false (with_args (set_device "cpu" (w_args w)) w).

(** Data and model are only ever placed on the device ["cpu"]. *)
Definition placed_on_cpu (e : event) : Prop :=
  match e with
  | ETo d | EModelTo d => d = "cpu"
  | _ => True
  end.

(** The calls [main] makes before the epoch loop. *)
Definition setup_events (args : Args) (save_dir_exists : bool) : list event :=
  (if save_dir_exists then [] else [EMakedirs (save_dir args)]) ++
  [ELog (LogDevice "cpu"); ELog (LogArgs args);
   EDataset (train_path args) (patch_n args) (patch_size args);
   EDataset (val_path args) (patch_n args) (patch_size args);
   EDataLoader (train_path args) 1 true (num_workers args);
   EDataLoader (val_path args) 1 false (num_workers args)] ++
  (if (pretrained args =? "")%string then []
   else [ELoadStateDict (pretrained args)]) ++
  [EModelTo "cpu"].

(** The scheduler of [main] after the metrics [hist]: its settings are
    those of [ReduceLROnPlateau_init], its best metric is the best of
    [hist], and its plateau count is at most the number of the most
    recent consecutive metrics that failed to improve. *)
Definition sched_inv (hist : list float) (s : Scheduler) : Prop :=
  s = {| s_factor := factor_0_3; s_patience := 6; s_min_lr := min_lr_1e_7;
         s_threshold := threshold_1e_4; s_cooldown := 0; s_eps := eps_1e_8;
         s_best := fst (plateau ReduceLROnPlateau_init py_inf 0 hist);
         s_num_bad_epochs := s_num_bad_epochs s;
         s_cooldown_counter := 0 |} /\
  0 <= s_num_bad_epochs s <= stagnant_epochs hist.

(** Every learning rate set in the trace [t], which follows the
    metrics [hist], is set right after a scheduler step, after more
    than six consecutive epochs without improvement, and is not below
    the floor. *)
Definition lr_set_justified (hist : list float) (t : list event) : Prop :=
  forall pre x post,
    t = pre ++ ESetLr x :: post ->
    (exists pre' v, pre = pre' ++ [ESchedStep v]) /\
    6 < stagnant_epochs (hist ++ sched_metrics pre) /\
    (x <? min_lr_1e_7)%float = false.

(** Each learning rate of [xs] is the one before it (the first: [old])
    scaled by the factor 0.3 and held at the floor 1e-7. *)
Fixpoint decays (old : float) (xs : list float) : Prop :=
  match xs with
  | [] => True
  | x :: rest => x = py_max (old * factor_0_3)%float min_lr_1e_7 /\ decays x rest
  end.

(** What a part of a run does to the scheduler and to the learning
    rate, when it starts in the world [w] after the metrics [hist]. *)
Definition sched_summary (hist : list float) (w : World)
  {A} (run : res A * World * list event) : Prop :=
  sched_inv (hist ++ sched_metrics (trace run)) (w_sched (world run)) /\
  lr_set_justified hist (trace run) /\
  w_lr (world run) = last (set_lrs (trace run)) (w_lr w) /\
  decays (w_lr w) (set_lrs (trace run)).

(** The entries and exits of [torch.no_grad()] blocks. *)
Definition no_grad_switches : list event -> list bool :=
  extract (fun e => match e with ENoGrad b => Some b | _ => None end).

(** The network is run in training mode with the autograd switch at
    [g], or not at all. *)
Definition forward_in_training (g : bool) (e : event) : Prop :=
  match e with
  | EForward training grad => training = true /\ grad = g
  | _ => True
  end.

(** The two ways in which [main] runs the network. *)
Definition forward_mode_consistent (e : event) : Prop :=
  match e with
  | EForward training grad => training = grad
  | _ => True
  end.

(** The records logged for training batches: epoch, batch number,
    number of batches, loss of the batch, running mean, learning
    rate. *)
Definition train_logs : list event -> list (Z * Z * Z * float * float * float) :=
  extract (fun e =>
             match e with
             | ELog (LogTrainBatch e k n l m r) => Some (e, k, n, l, m, r)
             | _ => None
             end).

(** What a record of the training log says, for a loop that starts at
    batch index [i] with the running total [tl]. *)
Definition train_log_ok (epoch n every : Z) (rate : float) (i : Z) (tl : float)
  (losses : list float) (rec : Z * Z * Z * float * float * float) : Prop :=
  let '(e, k, n', l, m, r) := rec in
  e = epoch /\ n' = n /\ i < k <= i + Z.of_nat (List.length losses) /\
  (k - 1) mod every = 0 /\ r = rate /\
  nth_error losses (Z.to_nat (k - 1 - i)) = Some l /\
  m = (fold_left PrimFloat.add (firstn (Z.to_nat (k - i)) losses) tl /
       float_of_Z k)%float.

(** The records logged for validation batches. *)
Definition val_logs : list event -> list log_record :=
  extract (fun e =>
             match e with
             | ELog (LogValBatch e k n l m p mp op mop) =>
                 Some (LogValBatch e k n l m p mp op mop)
             | _ => None
             end).

(** What a record of the validation log says, for a loop over the
    batches [bs] that starts at batch index [i] with the running
    totals [tl], [tp] and [top], on a network with parameters
    [params] and patches of size [ps]. *)
Definition val_log_ok (epoch n every ps : Z) (params : Params) (i : Z)
  (tl tp top : float) (bs : list Batch) (rec : log_record) : Prop :=
  match rec with
  | LogValBatch e k n' l m p mp op mop =>
      e = epoch /\ n' = n /\ i < k <= i + len bs /\ (k - 1) mod every = 0 /\
      (exists b, nth_error bs (Z.to_nat (k - 1 - i)) = Some b /\
                 l = item (val_loss ps params b) /\
                 p = psnr_of (val_loss ps params b) /\
                 op = psnr_of (val_org_mse ps b)) /\
      m = (fold_left PrimFloat.add
             (map (fun b => item (val_loss ps params b))
                (firstn (Z.to_nat (k - i)) bs)) tl / float_of_Z k)%float /\
      mp = (fold_left PrimFloat.add
              (map (fun b => psnr_of (val_loss ps params b))
                 (firstn (Z.to_nat (k - i)) bs)) tp / float_of_Z k)%float /\
      mop = (fold_left PrimFloat.add
               (map (fun b => psnr_of (val_org_mse ps b))
                  (firstn (Z.to_nat (k - i)) bs)) top / float_of_Z k)%float
  | _ => False
  end.

(** Each loss of [vs] is strictly below the one before it, the first
    one below [prev]: the loss improves in every epoch. *)
Fixpoint strictly_falling (prev : float) (vs : list float) : bool :=
  match vs with
  | [] => true
  | v :: rest => (v <? prev)%float && strictly_falling v rest
  end.

(** A run with the never-read items of the configuration blanked, in
    the args object and in the record of it that [main] logs. *)
Definition blank_world (w : World) : World := with_args (read_items (w_args w)) w.

Definition blank_event (e : event) : event :=
  match e with
  | ELog (LogArgs a) => ELog (LogArgs (read_items a))
  | _ => e
  end.

Definition blank_run {A} (run : res A * World * list event)
  : res A * World * list event :=
  (result run, blank_world (world run), map blank_event (trace run)).

(** Two worlds that differ at most in never-read items of the
    configuration, and, for [same_device], not in [device]. *)
Definition same_read (w w' : World) : Prop := blank_world w = blank_world w'.

Definition same_device (w w' : World) : Prop :=
  same_read w w' /\ device (w_args w) = device (w_args w').

(** Two computations that, from worlds related by [R], end alike, make
    the same calls up to the never-read items, and leave worlds
    related by [R']. *)
Definition sim {A} (R R' : World -> World -> Prop) (m m' : M A) : Prop :=
  forall w w', R w w' ->
    result (m w) = result (m' w') /\
    R' (world (m w)) (world (m' w')) /\
    map blank_event (trace (m w)) = map blank_event (trace (m' w')).

(** Dataloaders are only ever built with batch size 1. *)
Definition loader_batch_one (e : event) : Prop :=
  match e with
  | EDataLoader _ b _ _ => b = 1
  | _ => True
  end.

End Driver.

(** ** A scalar instance of the framework

    A one-parameter linear network on scalars, used to run the driver
    on concrete inputs.  A tensor is a dual number: a value and its
    derivative with respect to the parameter, so that [backward] can
    accumulate a gradient; every reshape to patches of a positive size
    is valid; the optimizer step is a plain gradient step, and [log10] is taken from the binary exponent only (2101 is
    the bias of the exponent that [frshiftexp] returns). *)

Definition log2_10 : float := 0x1.34413509f79ffp-2.

(** The scalar tensor of a Python integer, digit by digit (exact below
    [2^53]). *)
Fixpoint scalar_of_pos (p : positive) : float :=
  match p with
  | xH => 1
  | xO q => 2 * scalar_of_pos q
  | xI q => 2 * scalar_of_pos q + 1
  end%float.

Definition scalar_of_Z (z : Z) : float :=
  match z with
  | Z0 => 0
  | Zpos p => scalar_of_pos p
  | Zneg p => - scalar_of_pos p
  end%float.

#[export] Instance scalar_fw : Framework := {|
  Tensor := float * float;
  Params := float;
  Grads := float;
  OptState := unit;
  view_ok := fun p _ => 0 <? p;
  view := fun _ x => x;
  to_device := fun _ x => x;
  forward := fun _ theta x => (theta * fst x, fst x)%float;
  mse_loss := fun p g =>
    let d := (fst p - fst g)%float in (d * d, 2 * d * snd p)%float;
  item := fun x => fst x;
  rtruediv := fun n x => (scalar_of_Z n / fst x, 0)%float;
  log10 := fun x =>
    ((of_uint63 (snd (frshiftexp (fst x))) - 2101) * log2_10, 0)%float;
  no_grads := 0%float;
  backward := fun l g => (g + snd l)%float;
  adam_step := fun rate o g theta => (o, theta - rate * g)%float;
  adam_init := fun _ => tt;
  brdnet_init := 0%float;
  torch_load := fun _ => 1%float;
  view_ok_positive := fun p _ => proj1 (Z.ltb_lt 0 p)
|}.

Definition sample (x y : float) : Batch := ((x, 0%float), (y, 0%float), "id").

Definition loader2 : list Batch := [sample 1 2; sample 2 4].

(** A validation set whose only batch has a NaN target. *)
Definition nan_loader : list Batch := [sample 1 nan].

Definition scalar_world (argv : list cli_opt) : World :=
  initial_world (get_args argv).

(** The first epoch of a run with the default configuration. *)
Definition first_epoch : res float * World * list event :=
  epoch_loop (fun _ => loader2) loader2 [1] py_inf (scalar_world []).

(** A run of nine epochs at the rate 3e-7, too small for the
    validation loss to improve by the scheduler's threshold. *)
Definition plateau_run : res unit * World * list event :=
  main [Opt_lr 0x1.421f5f40d8376p-22; Opt_num_epochs 9] true
    (fun _ => loader2) loader2.

(** * Properties of the driver *)

Section Properties.

Context {FW : Framework}.

(** ** Runs of the monad *)

Lemma bind_ok {A B} (m : M A) (k : A -> M B) w a w1 t1 :
  m w = (Ok a, w1, t1) ->
  bind m k w = (result (k a w1), world (k a w1), t1 ++ trace (k a w1)).
Proof.
  intros H. unfold bind. rewrite H.
  destruct (k a w1) as [[r w2] t2]. reflexivity.
Qed.

Lemma bind_raise {A B} (m : M A) (k : A -> M B) w e w1 t1 :
  m w = (Raise e, w1, t1) -> bind m k w = (Raise e, w1, t1).
Proof. intros H. unfold bind. rewrite H. reflexivity. Qed.

Lemma trace_run {A} (r : res A) w t : trace (r, w, t) = t.
Proof. reflexivity. Qed.

Lemma result_run {A} (r : res A) w t : result (r, w, t) = r.
Proof. reflexivity. Qed.

Lemma world_run {A} (r : res A) w t : world (r, w, t) = w.
Proof. reflexivity. Qed.

Lemma run_eta {A} (x : res A * World * list event) :
  x = (result x, world x, trace x).
Proof. destruct x as [[r w] t]. reflexivity. Qed.

(** ** The order of Python floats *)

Lemma SFltb_trans x y z :
  SFltb x y = true -> SFltb y z = true -> SFltb x z = true.
Proof.
  unfold SFltb, SFcompare.
  destruct x as [sx|sx| |sx mx ex], y as [sy|sy| |sy my ey], z as [sz|sz| |sz mz ez];
    try destruct sx; try destruct sy; try destruct sz;
    try discriminate; try reflexivity.
  all: try (destruct (Z.compare_spec ex ey); try discriminate).
  all: try (destruct (Z.compare_spec ey ez); try discriminate).
  all: try (destruct (Z.compare_spec ex ez); try reflexivity; try lia).
  all: subst; rewrite ?Pos.compare_cont_spec in *; simpl in *.
  all: try (destruct (Pos.compare_spec mx my); try discriminate).
  all: try (destruct (Pos.compare_spec my mz); try discriminate).
  all: try (destruct (Pos.compare_spec mx mz); try reflexivity; try lia).
  all: try lia.
Qed.

Lemma ltb_trans (x y z : float) :
  (x <? y)%float = true -> (y <? z)%float = true -> (x <? z)%float = true.
Proof. rewrite !ltb_spec. apply SFltb_trans. Qed.

Lemma ltb_irrefl (x : float) : (x <? x)%float = false.
Proof.
  rewrite ltb_spec. unfold SFltb, SFcompare.
  destruct (Prim2SF x) as [s|s| |s m e]; try destruct s; try reflexivity;
    rewrite Z.compare_refl, Pos.compare_cont_refl; reflexivity.
Qed.

Lemma lower_bound_kept best v u :
  (u <? best)%float = false -> (u <? lower best v)%float = false.
Proof.
  unfold lower. intros H. destruct (v <? best)%float eqn:Hv; [|exact H].
  destruct (u <? v)%float eqn:Hu; [|reflexivity].
  rewrite (ltb_trans _ _ _ Hu Hv) in H. discriminate.
Qed.

Lemma lower_below_new best v : (v <? lower best v)%float = false.
Proof.
  unfold lower. destruct (v <? best)%float eqn:Hv; [apply ltb_irrefl | exact Hv].
Qed.

Lemma fold_lower_min vs : forall best,
  In (fold_left lower vs best) (best :: vs) /\
  (forall u, (u <? best)%float = false -> (u <? fold_left lower vs best)%float = false) /\
  (forall u, In u vs -> (u <? fold_left lower vs best)%float = false).
Proof.
  induction vs as [|v vs IH]; intros best; simpl.
  - split; [left; reflexivity|]. split; [auto | intros u []].
  - destruct (IH (lower best v)) as (H1 & H2 & H3). split; [|split].
    + destruct H1 as [H1|H1]; [|right; right; exact H1].
      rewrite <- H1. unfold lower. destruct (v <? best)%float; [right|]; left; reflexivity.
    + intros u Hu. apply H2, lower_bound_kept, Hu.
    + intros u [->|Hu]; [apply H2, lower_below_new | apply H3, Hu].
Qed.

(** ** Observations distribute over concatenation *)

Lemma extract_app {A} (f : event -> option A) t1 t2 :
  extract f (t1 ++ t2) = extract f t1 ++ extract f t2.
Proof.
  induction t1 as [|e t1 IH]; simpl; [reflexivity|].
  destruct (f e); simpl; rewrite IH; reflexivity.
Qed.

Lemma extract_none {A} (f : event -> option A) t :
  Forall (fun e => f e = None) t -> extract f t = [].
Proof.
  induction 1 as [|e t He _ IH]; simpl; [reflexivity|].
  rewrite He. exact IH.
Qed.

Lemma extract_In {A} (f : event -> option A) t a :
  In a (extract f t) <-> exists e, In e t /\ f e = Some a.
Proof.
  induction t as [|e t IH]; simpl.
  - split; [tauto | intros (e & [] & _)].
  - destruct (f e) as [b|] eqn:Hf; simpl; rewrite IH; split.
    + intros [->|(e' & Hin & He')]; [exists e; auto | exists e'; auto].
    + intros (e' & [->|Hin] & He'); [left; congruence | right; exists e'; auto].
    + intros (e' & Hin & He'). exists e'; auto.
    + intros (e' & [->|Hin] & He'); [congruence | exists e'; auto].
Qed.

Lemma loss_values_app t1 t2 :
  loss_values (t1 ++ t2) = loss_values t1 ++ loss_values t2.
Proof. apply extract_app. Qed.

Lemma call_kinds_app t1 t2 :
  call_kinds (t1 ++ t2) = call_kinds t1 ++ call_kinds t2.
Proof. apply extract_app. Qed.

Lemma mean_losses_app t1 t2 :
  mean_losses (t1 ++ t2) = mean_losses t1 ++ mean_losses t2.
Proof. apply extract_app. Qed.

Lemma sched_metrics_app t1 t2 :
  sched_metrics (t1 ++ t2) = sched_metrics t1 ++ sched_metrics t2.
Proof. apply extract_app. Qed.

Lemma set_lrs_app t1 t2 : set_lrs (t1 ++ t2) = set_lrs t1 ++ set_lrs t2.
Proof. apply extract_app. Qed.

Lemma saved_paths_app t1 t2 :
  saved_paths (t1 ++ t2) = saved_paths t1 ++ saved_paths t2.
Proof. apply extract_app. Qed.

(** ** One training batch *)

Ltac unfold_calls :=
  unfold the_args, tensor_view, tensor_to, call_model, loss_func,
    optimizer_zero_grad, loss_backward, optimizer_step, py_mod, py_truediv,
    logger_info, py_truthy, model_train, model_eval, read_local, torch_save.

(** The reshapes of a batch, as [train] makes them: none when
    [patch_size] is zero, else both are valid or the first invalid one
    raises. *)
Lemma train_reshape_run ps inp gt id w :
  train_reshapes ps (inp, gt, id) = true ->
  (if py_truthy ps
   then bind (tensor_view ps inp) (fun inp' =>
        bind (tensor_view ps gt) (fun gt' => ret (inp', gt')))
   else ret (inp, gt)) w =
  (Ok (if ps =? 0 then (inp, gt) else (view ps inp, view ps gt)), w,
   if ps =? 0 then [] else [EView ps; EView ps]).
Proof.
  unfold train_reshapes, reshapes, py_truthy, tensor_view.
  destruct (ps =? 0); cbn; [reflexivity|].
  intros H. apply andb_prop in H. destruct H as [H1 H2].
  unfold bind at 1. cbn. rewrite H1. cbn. rewrite H2. reflexivity.
Qed.

Lemma train_reshape_fails ps inp gt id w :
  train_reshapes ps (inp, gt, id) = false ->
  exists t,
    (if py_truthy ps
     then bind (tensor_view ps inp) (fun inp' =>
          bind (tensor_view ps gt) (fun gt' => ret (inp', gt')))
     else ret (inp, gt)) w = (Raise RuntimeError, w, t) /\
    Forall (fun e => e = EView ps) t.
Proof.
  unfold train_reshapes, reshapes, py_truthy, tensor_view.
  destruct (ps =? 0); cbn; [discriminate|].
  intros H. unfold bind at 1. cbn.
  destruct (view_ok ps inp); cbn.
  - cbn in H. rewrite H. cbn. eexists. split; [reflexivity | repeat constructor].
  - eexists. split; [reflexivity | repeat constructor].
Qed.

Lemma train_body_ok epoch n i b tl w :
  print_iters (w_args w) <> 0 -> i + 1 <> 0 ->
  train_reshapes (patch_size (w_args w)) b = true ->
  exists L w' t,
    train_body epoch n i b tl w = (Ok (tl + item L)%float, w', t) /\
    loss_values t = [L] /\
    call_kinds t = train_batch_kinds (patch_size (w_args w)) /\
    w_args w' = w_args w.
Proof.
  intros Hp Hi Hv. destruct b as [[inp gt] id].
  apply Z.eqb_neq in Hp, Hi.
  unfold train_body, train_batch_kinds.
  unfold the_args. unfold bind at 1 2. cbn [get ret fst snd app].
  unfold bind at 1. rewrite (train_reshape_run _ _ _ _ w Hv).
  unfold tensor_to, call_model, loss_func, optimizer_zero_grad, loss_backward,
    optimizer_step, py_mod, py_truediv, logger_info.
  cbn. rewrite Hp, Hi.
  destruct (patch_size (w_args w) =? 0) eqn:Hps; cbn;
    destruct (adam_step _ _ _ _) as [o p] eqn:Ha;
    destruct (i mod print_iters (w_args w) =? 0); cbn; rewrite ?Ha; cbn;
    eexists _, _, _; repeat split; reflexivity.
Qed.

Lemma train_body_zero_print_iters epoch n i b tl w :
  print_iters (w_args w) = 0 ->
  train_reshapes (patch_size (w_args w)) b = true ->
  exists w' t,
    train_body epoch n i b tl w = (Raise ZeroDivisionError, w', t) /\
    call_kinds t = train_batch_kinds (patch_size (w_args w)).
Proof.
  intros Hp Hv. destruct b as [[inp gt] id].
  unfold train_body, train_batch_kinds.
  unfold the_args. unfold bind at 1 2. cbn [get ret fst snd app].
  unfold bind at 1. rewrite (train_reshape_run _ _ _ _ w Hv).
  unfold tensor_to, call_model, loss_func, optimizer_zero_grad, loss_backward,
    optimizer_step, py_mod, py_truediv, logger_info.
  cbn. rewrite Hp.
  destruct (patch_size (w_args w) =? 0) eqn:Hps; cbn;
    destruct (adam_step _ _ _ _) as [o p] eqn:Ha; cbn;
    eexists _, _; split; reflexivity.
Qed.

Lemma train_body_bad_reshape epoch n i b tl w :
  train_reshapes (patch_size (w_args w)) b = false ->
  exists t,
    train_body epoch n i b tl w = (Raise RuntimeError, w, t) /\
    Forall (fun e => e = EView (patch_size (w_args w))) t.
Proof.
  intros Hv. destruct b as [[inp gt] id].
  unfold train_body.
  unfold the_args. unfold bind at 1 2. cbn [get ret fst snd app].
  destruct (train_reshape_fails _ _ _ _ w Hv) as (t & Hrun & Ht).
  unfold bind at 1. rewrite Hrun. exists t. split; [reflexivity | exact Ht].
Qed.

(** ** The loop of [train] *)

Lemma last_index_cons {X} i last (x : X) xs :
  last_index i last (x :: xs) = last_index (i + 1) (Some i) xs.
Proof.
  unfold last_index, len. destruct xs as [|y ys].
  - simpl. f_equal. lia.
  - rewrite !length_cons, !Nat2Z.inj_succ. f_equal. lia.
Qed.

Lemma train_loop_ok epoch n bs : forall i last tl w,
  0 <= i -> print_iters (w_args w) <> 0 ->
  forallb (train_reshapes (patch_size (w_args w))) bs = true ->
  exists w' t,
    for_enumerate (train_body epoch n) i last bs tl w =
      (Ok (fold_left PrimFloat.add (map item (loss_values t)) tl,
           last_index i last bs), w', t) /\
    List.length (loss_values t) = List.length bs /\
    call_kinds t =
      concat (repeat (train_batch_kinds (patch_size (w_args w))) (List.length bs)) /\
    w_args w' = w_args w.
Proof.
  induction bs as [|b bs IH]; intros i last tl w Hi Hp Hv.
  - exists w, []. repeat split; reflexivity.
  - cbn [forallb] in Hv. apply andb_prop in Hv. destruct Hv as [Hv Hvs].
    destruct (train_body_ok epoch n i b tl w Hp ltac:(lia) Hv)
      as (L & w1 & t1 & Hrun & HL & HK & HA).
    destruct (IH (i + 1) (Some i) (tl + item L)%float w1 ltac:(lia)
                ltac:(rewrite HA; exact Hp) ltac:(rewrite HA; exact Hvs))
      as (w2 & t2 & Hrun2 & HL2 & HK2 & HA2).
    exists w2, (t1 ++ t2). simpl for_enumerate.
    rewrite (bind_ok _ _ _ _ _ _ Hrun), Hrun2. unfold result, world, trace; cbn [fst snd].
    rewrite loss_values_app, call_kinds_app, HL.
    split; [|split; [|split]].
    + cbn [app map fold_left]. rewrite last_index_cons. reflexivity.
    + rewrite length_app, HL2. reflexivity.
    + rewrite HK, HK2, HA. reflexivity.
    + congruence.
Qed.


Lemma train_loop_zero_print_iters epoch n b bs i last tl w :
  print_iters (w_args w) = 0 ->
  train_reshapes (patch_size (w_args w)) b = true ->
  exists w' t,
    for_enumerate (train_body epoch n) i last (b :: bs) tl w =
      (Raise ZeroDivisionError, w', t) /\
    call_kinds t = train_batch_kinds (patch_size (w_args w)).
Proof.
  intros Hp Hv.
  destruct (train_body_zero_print_iters epoch n i b tl w Hp Hv) as (w1 & t1 & Hrun & HK).
  exists w1, t1. split; [|exact HK].
  simpl for_enumerate. apply bind_raise. exact Hrun.
Qed.

(** ** [train] as a whole *)

Lemma train_unfold dataloader epoch w :
  train dataloader epoch w =
  match for_enumerate (train_body epoch (len dataloader)) 0 None dataloader 0%float
          (train_entry w) with
  | (Ok (total_loss, batch_i), w1, t1) =>
      match batch_i with
      | Some i =>
          if i + 1 =? 0
          then (Raise ZeroDivisionError, w1, EModelTrain :: t1 ++ [EPrint ""])
          else (Ok (total_loss / float_of_Z (i + 1))%float, w1,
                EModelTrain :: t1 ++ [EPrint ""])
      | None => (Raise UnboundLocalError, w1, EModelTrain :: t1 ++ [EPrint ""])
      end
  | (Raise e, w1, t1) => (Raise e, w1, EModelTrain :: t1)
  end.
Proof.
  unfold train, train_entry. unfold_calls. unfold bind at 1 2. cbn.
  unfold bind at 1.
  destruct (for_enumerate _ _ _ _ _ _) as [[[[tl bi]|e] w1] t1]; [|reflexivity].
  cbn. destruct bi as [i|]; cbn; [|reflexivity].
  destruct (i + 1 =? 0); reflexivity.
Qed.


(** ** The validation epoch *)

Lemma val_unfold dataloader epoch w :
  val dataloader epoch w =
  let n := len dataloader in
  match for_enumerate (val_body epoch n) 0 None dataloader (0, 0, 0)%float
          (val_entry w) with
  | (Ok ((total_loss, total_psnr, total_org_psnr), _), w1, t1) =>
      let w2 := with_grad_enabled (w_grad_enabled w) w1 in
      if n =? 0
      then (Raise ZeroDivisionError, w2,
            [EModelEval; ENoGrad true] ++ t1 ++ [ENoGrad false])
      else (Ok (total_loss / float_of_Z n)%float, w2,
            [EModelEval; ENoGrad true] ++ t1 ++
            [ENoGrad false;
             ELog (LogMeanPsnr (total_psnr / float_of_Z n));
             ELog (LogMeanOrgPsnr (total_org_psnr / float_of_Z n));
             ELog (LogMeanLoss (total_loss / float_of_Z n))])
  | (Raise e, w1, t1) =>
      (Raise e, with_grad_enabled (w_grad_enabled w) w1,
       [EModelEval; ENoGrad true] ++ t1 ++ [ENoGrad false])
  end.
Proof.
  unfold val, val_entry, with_no_grad, finally. unfold_calls.
  unfold bind at 1 2. cbn. unfold bind at 1 2. cbn.
  destruct (for_enumerate _ _ _ _ _ _) as [[[[[[tl tp] top] bi]|e] w1] t1]; cbn; [|reflexivity].
  destruct (len dataloader =? 0); cbn.
  - rewrite app_nil_r. reflexivity.
  - rewrite <- app_assoc. reflexivity.
Qed.

Lemma val_body_ok epoch n i b tl tp top w :
  print_iters (w_args w) <> 0 -> i + 1 <> 0 -> w_training w = false ->
  reshapes (patch_size (w_args w)) b = true ->
  exists t,
    val_body epoch n i b (tl, tp, top) w =
      (Ok (tl + item (val_loss (patch_size (w_args w)) (w_params w) b),
           tp + psnr_of (val_loss (patch_size (w_args w)) (w_params w) b),
           top + psnr_of (val_org_mse (patch_size (w_args w)) b))%float, w, t).
Proof.
  intros Hp Hi Ht Hv. destruct b as [[inp gt] id].
  apply Z.eqb_neq in Hp, Hi.
  unfold reshapes in Hv. apply andb_prop in Hv. destruct Hv as [Hv1 Hv2].
  unfold val_body, val_loss, val_org_mse. unfold_calls.
  unfold bind at 1. cbn. rewrite Hv1. cbn. rewrite Hv2. cbn.
  rewrite Hp, Hi, Ht. cbn.
  destruct (i mod print_iters (w_args w) =? 0); cbn; eexists; reflexivity.
Qed.

Lemma val_body_bad_reshape epoch n i b totals w :
  reshapes (patch_size (w_args w)) b = false ->
  exists t,
    val_body epoch n i b totals w = (Raise RuntimeError, w, t) /\
    Forall (fun e => e = EView (patch_size (w_args w))) t.
Proof.
  intros Hv. destruct b as [[inp gt] id]. destruct totals as [[tl tp] top].
  unfold reshapes in Hv.
  unfold val_body. unfold_calls. unfold bind at 1. cbn.
  destruct (view_ok (patch_size (w_args w)) inp); cbn.
  - cbn in Hv. rewrite Hv. cbn. eexists. split; [reflexivity | repeat constructor].
  - eexists. split; [reflexivity | repeat constructor].
Qed.

Lemma val_loop_ok epoch n bs : forall i last tl tp top w,
  0 <= i -> print_iters (w_args w) <> 0 -> w_training w = false ->
  forallb (reshapes (patch_size (w_args w))) bs = true ->
  exists t,
    for_enumerate (val_body epoch n) i last bs (tl, tp, top) w =
      (Ok (fold_left PrimFloat.add
             (map (fun b => item (val_loss (patch_size (w_args w)) (w_params w) b)) bs) tl,
           fold_left PrimFloat.add
             (map (fun b => psnr_of (val_loss (patch_size (w_args w)) (w_params w) b)) bs) tp,
           fold_left PrimFloat.add
             (map (fun b => psnr_of (val_org_mse (patch_size (w_args w)) b)) bs) top,
           last_index i last bs), w, t).
Proof.
  induction bs as [|b bs IH]; intros i last tl tp top w Hi Hp Ht Hv.
  - exists []. reflexivity.
  - cbn [forallb] in Hv. apply andb_prop in Hv. destruct Hv as [Hv Hvs].
    destruct (val_body_ok epoch n i b tl tp top w Hp ltac:(lia) Ht Hv) as (t1 & Hrun).
    edestruct (IH (i + 1) (Some i)) as (t2 & Hrun2);
      [| exact Hp | exact Ht | exact Hvs |]; [lia|].
    exists (t1 ++ t2). simpl for_enumerate.
    rewrite (bind_ok _ _ _ _ _ _ Hrun), Hrun2. unfold result, world, trace; cbn [fst snd].
    cbn [map fold_left]. rewrite last_index_cons. reflexivity.
Qed.

(** ** Invariants and admissible calls *)

Lemma keeps_ret {A} I E (a : A) : keeps I E (ret a).
Proof. intros w Hw. split; [exact Hw | constructor]. Qed.

Lemma keeps_raise {A} I E e : keeps I E (@raise _ A e).
Proof. intros w Hw. split; [exact Hw | constructor]. Qed.

Lemma keeps_emit I (E : event -> Prop) ev : E ev -> keeps I E (emit ev).
Proof. intros He w Hw. split; [exact Hw | repeat constructor; exact He]. Qed.

Lemma keeps_modify (I : World -> Prop) E f :
  (forall w, I w -> I (f w)) -> keeps I E (modify f).
Proof. intros Hf w Hw. split; [apply Hf, Hw | constructor]. Qed.

Lemma keeps_bind {A B} I E (m : M A) (k : A -> M B) :
  keeps I E m -> (forall a, keeps I E (k a)) -> keeps I E (bind m k).
Proof.
  intros Hm Hk w Hw. destruct (Hm w Hw) as [H1 H2].
  unfold bind. destruct (m w) as [[[a|e] w1] t1]; unfold world, trace in *; cbn [fst snd] in *.
  - destruct (Hk a w1 H1) as [H3 H4].
    destruct (k a w1) as [[r w2] t2]; unfold world, trace in *; cbn [fst snd] in *.
    split; [exact H3 | apply Forall_app; split; assumption].
  - split; assumption.
Qed.

Lemma keeps_bind_get {B} (I : World -> Prop) E (k : World -> M B) :
  (forall w0, I w0 -> keeps I E (k w0)) -> keeps I E (bind get k).
Proof.
  intros Hk w Hw. destruct (Hk w Hw w Hw) as [H1 H2].
  unfold bind, get. destruct (k w w) as [[r w2] t2]; unfold world, trace in *; cbn [fst snd] in *.
  split; assumption.
Qed.

Lemma keeps_bind_args {B} (I : World -> Prop) E (k : Args -> M B) :
  (forall w0, I w0 -> keeps I E (k (w_args w0))) -> keeps I E (bind the_args k).
Proof.
  intros Hk w Hw. destruct (Hk w Hw w Hw) as [H1 H2].
  unfold the_args, bind, get, ret.
  destruct (k (w_args w) w) as [[r w2] t2]; unfold world, trace in *; cbn [fst snd app] in *.
  split; assumption.
Qed.

Lemma keeps_for_enumerate {X S} I E (body : Z -> X -> S -> M S) xs :
  (forall i x s, keeps I E (body i x s)) ->
  forall i last s, keeps I E (for_enumerate body i last xs s).
Proof.
  intros Hb. induction xs as [|x xs IH]; intros i last s; simpl.
  - apply keeps_ret.
  - apply keeps_bind; [apply Hb | intros s'; apply IH].
Qed.

Lemma keeps_py_mod I E a b : keeps I E (py_mod a b).
Proof. unfold py_mod. destruct (b =? 0); [apply keeps_raise | apply keeps_ret]. Qed.

Lemma keeps_py_truediv I E x n : keeps I E (py_truediv x n).
Proof. unfold py_truediv. destruct (n =? 0); [apply keeps_raise | apply keeps_ret]. Qed.

Lemma keeps_weaken {A} (I : World -> Prop) (E E' : event -> Prop) (m : M A) :
  (forall e, E e -> E' e) -> keeps I E m -> keeps I E' m.
Proof.
  intros HE Hm w Hw. destruct (Hm w Hw) as [H1 H2].
  split; [exact H1 | eapply Forall_impl; [exact HE | exact H2]].
Qed.

Lemma keeps_tensor_view I (E : event -> Prop) p x :
  E (EView p) -> keeps I E (tensor_view p x).
Proof.
  intros He. unfold tensor_view.
  apply keeps_bind; [apply keeps_emit, He | intros _].
  destruct (view_ok p x); [apply keeps_ret | apply keeps_raise].
Qed.

Ltac keeps_step :=
  first
    [ apply keeps_ret | apply keeps_raise | apply keeps_py_mod | apply keeps_py_truediv
    | apply keeps_tensor_view
    | apply keeps_bind_args; intros ? ?
    | apply keeps_bind_get; intros ? ?
    | apply keeps_emit
    | apply keeps_modify; intros ? ?
    | apply keeps_bind; [|intros ?] ].

Lemma train_body_keeps a rate s g epoch n i b tl :
  keeps (train_inv a rate s g) (train_event (device a)) (train_body epoch n i b tl).
Proof.
  destruct b as [[inp gt] id]. unfold train_body.
  apply keeps_bind_args; intros w0 (Ha & _). rewrite Ha.
  unfold tensor_to, call_model, loss_func, optimizer_zero_grad,
    loss_backward, optimizer_step, logger_info.
  apply keeps_bind.
  { destruct (py_truthy (patch_size a)); repeat keeps_step; exact I. }
  intros [inp' gt'].
  repeat keeps_step; try exact I; try reflexivity;
    try (match goal with H : train_inv _ _ _ _ _ |- _ => exact H end).
  - destruct (adam_step _ _ _ _). assumption.
  - match goal with |- keeps _ _ (if ?c then _ else _) => destruct c end;
      repeat keeps_step; exact I.
Qed.

Ltac forall_events :=
  repeat first
    [ assumption | apply Forall_nil | apply Forall_cons; [exact I|]
    | apply Forall_app; split ].

Lemma train_frame dataloader epoch w :
  let run := train dataloader epoch w in
  train_inv (set_device "cpu" (w_args w)) (w_lr w) (w_sched w) (w_grad_enabled w)
    (world run) /\
  Forall (train_event "cpu") (trace run).
Proof.
  cbv zeta. rewrite train_unfold.
  destruct (keeps_for_enumerate _ _ _ dataloader
              (train_body_keeps (set_device "cpu" (w_args w)) (w_lr w) (w_sched w)
                 (w_grad_enabled w) epoch (len dataloader))
              0 None 0%float (train_entry w)) as [HI HE].
  { repeat split. }
  destruct (for_enumerate _ _ _ _ _ _) as [[[[tl bi]|e] w1] t1];
    unfold world, trace in *; cbn [fst snd device set_device] in *.
  - assert (HT : Forall (train_event "cpu") (EModelTrain :: t1 ++ [EPrint ""])).
    { constructor; [exact I|]. apply Forall_app. split; [exact HE|].
      repeat constructor. }
    destruct bi as [i|]; [destruct (i + 1 =? 0)|]; split; assumption.
  - split; [exact HI|]. constructor; [exact I | exact HE].
Qed.

Lemma val_body_keeps w0 epoch n i b totals :
  w_training w0 = false -> w_grad_enabled w0 = false ->
  keeps (eq w0) val_batch_event (val_body epoch n i b totals).
Proof.
  intros Ht Hg. destruct b as [[inp gt] id]. destruct totals as [[tl tp] top].
  unfold val_body.
  apply keeps_bind_args; intros w1 <-.
  unfold call_model, loss_func, logger_info.
  repeat keeps_step; try exact I; try reflexivity.
  - subst. rewrite Ht, Hg. exact I.
  - match goal with |- keeps _ _ (if ?c then _ else _) => destruct c end;
      repeat keeps_step; exact I.
Qed.

Lemma val_batch_event_val_event e : val_batch_event e -> val_event e.
Proof.
  destruct e as [| | | r | | | | | | | | | [|] [|] | | | | | | |]; simpl; try tauto.
  destruct r; simpl; tauto.
Qed.

Lemma val_batch_events_no_mean_loss t :
  Forall val_batch_event t -> mean_losses t = [].
Proof.
  intros H. apply extract_none. eapply Forall_impl; [|exact H].
  intros e He. destruct e as [| | | r | | | | | | | | | | | | | | | |]; simpl in *; try tauto.
  destruct r; simpl in *; tauto.
Qed.

Lemma val_frame dataloader epoch w :
  let run := val dataloader epoch w in
  world run = val_exit w /\
  Forall val_event (trace run) /\
  mean_losses (trace run) =
    match result run with Ok v => [v] | Raise _ => [] end.
Proof.
  cbv zeta. rewrite val_unfold. cbv zeta.
  destruct (keeps_for_enumerate _ _ _ dataloader
              (fun i b s => val_body_keeps (val_entry w) epoch (len dataloader) i b s
                              eq_refl eq_refl)
              0 None (0, 0, 0)%float (val_entry w) eq_refl) as [HI HE].
  destruct (for_enumerate _ _ _ _ _ _) as [[[[[[tl tp] top] bi]|e] w1] t1];
    unfold world, trace, result in *; cbn [fst snd] in *; subst w1.
  - assert (HL := val_batch_events_no_mean_loss _ HE).
    apply (Forall_impl _ val_batch_event_val_event) in HE.
    destruct (len dataloader =? 0); cbn [fst snd].
    + split; [reflexivity|]. split.
      * forall_events.
      * rewrite !mean_losses_app, HL. reflexivity.
    + split; [reflexivity|]. split.
      * forall_events.
      * rewrite !mean_losses_app, HL. reflexivity.
  - assert (HL := val_batch_events_no_mean_loss _ HE).
    apply (Forall_impl _ val_batch_event_val_event) in HE.
    split; [reflexivity|]. split.
    + forall_events.
    + rewrite !mean_losses_app, HL. reflexivity.
Qed.

(** ** One epoch *)

Lemma lr_scheduler_step_run v w :
  lr_scheduler_step v w =
  let s := sched_observe (w_sched w) v in
  if s_patience s <? s_num_bad_epochs s
  then match reduced_lr s (w_lr w) with
       | Some x =>
           (Ok tt, with_sched (sched_after_reduce s) (with_lr x w),
            [ESchedStep v; ESetLr x])
       | None => (Ok tt, with_sched (sched_after_reduce s) w, [ESchedStep v])
       end
  else (Ok tt, with_sched s w, [ESchedStep v]).
Proof.
  unfold lr_scheduler_step. unfold bind at 1. cbn.
  destruct (s_patience _ <? s_num_bad_epochs _); [|reflexivity].
  destruct (reduced_lr _ _); reflexivity.
Qed.

Lemma lr_scheduler_step_ok v w : result (lr_scheduler_step v w) = Ok tt.
Proof.
  rewrite lr_scheduler_step_run. cbv zeta.
  destruct (s_patience _ <? s_num_bad_epochs _); [|reflexivity].
  destruct (reduced_lr _ _); reflexivity.
Qed.

Lemma lr_scheduler_step_args v w :
  w_args (world (lr_scheduler_step v w)) = w_args w /\
  w_params (world (lr_scheduler_step v w)) = w_params w.
Proof.
  rewrite lr_scheduler_step_run. cbv zeta.
  destruct (s_patience _ <? s_num_bad_epochs _); [|split; reflexivity].
  destruct (reduced_lr _ _); split; reflexivity.
Qed.

Lemma epoch_body_unfold train_loader val_loader epoch best w :
  epoch_body train_loader val_loader epoch best w =
  let r1 := train (train_loader epoch) epoch w in
  let log := ELog (LogEpoch epoch (num_epochs (w_args w))) in
  match result r1 with
  | Raise x => (Raise x, world r1, log :: trace r1)
  | Ok _ =>
      let r2 := val val_loader epoch (world r1) in
      match result r2 with
      | Raise x => (Raise x, world r2, log :: trace r1 ++ trace r2)
      | Ok v =>
          let r3 := lr_scheduler_step v (world r2) in
          let w3 := world r3 in
          let t_best :=
            if (v <? best)%float
            then [ESave (w_params w3) (best_path (save_dir (w_args w3)))]
            else [] in
          let best' := if (v <? best)%float then v else best in
          if save_interval (w_args w3) =? 0
          then (Raise ZeroDivisionError, w3,
                log :: trace r1 ++ trace r2 ++ trace r3 ++ t_best)
          else (Ok best', w3,
                log :: trace r1 ++ trace r2 ++ trace r3 ++ t_best ++
                if epoch mod save_interval (w_args w3) =? 0
                then [ESave (w_params w3)
                        (checkpoint_path (save_dir (w_args w3)) epoch)]
                else [])
      end
  end.
Proof.
  unfold epoch_body.
  assert (Hok := lr_scheduler_step_ok).
  revert Hok.
  generalize lr_scheduler_step as STEP.
  generalize (val val_loader epoch) as VAL.
  generalize (train (train_loader epoch) epoch) as TR.
  intros TR VAL STEP Hok.
  unfold the_args, logger_info. unfold bind at 1. cbn.
  unfold bind at 1. unfold bind at 1. cbv zeta.
  destruct (TR w) as [[[tloss|x] w1] t1];
    unfold result, world, trace; cbn [fst snd]; [|reflexivity].
  unfold bind at 1.
  destruct (VAL w1) as [[[v|x] w2] t2]; cbn [fst snd]; [|reflexivity].
  unfold bind at 1.
  specialize (Hok v w2). unfold result in Hok.
  destruct (STEP v w2) as [[r3 w3] t3]; cbn [fst snd] in *. subst r3.
  unfold torch_save, py_mod.
  destruct (v <? best)%float; cbn;
    destruct (save_interval (w_args w3) =? 0); cbn;
    try destruct (epoch mod save_interval (w_args w3) =? 0); cbn;
    rewrite ?app_nil_r; reflexivity.
Qed.

Lemma train_trace_silent dev t :
  Forall (train_event dev) t ->
  mean_losses t = [] /\ sched_metrics t = [] /\ set_lrs t = [] /\
  saved_paths t = [].
Proof.
  intros H. repeat split; apply extract_none; (eapply Forall_impl; [|exact H]);
    intros e He; destruct e as [| | | r | | | | | | | | | | | | | | | |];
    simpl in *; try tauto; destruct r; simpl in *; tauto.
Qed.

Lemma val_trace_silent t :
  Forall val_event t ->
  sched_metrics t = [] /\ set_lrs t = [] /\ saved_paths t = [].
Proof.
  intros H. repeat split; apply extract_none; (eapply Forall_impl; [|exact H]);
    intros e He; destruct e as [| | | r | | | | | | | | | | | | | | | |];
    simpl in *; try tauto; destruct r; simpl in *; tauto.
Qed.

Lemma lr_scheduler_step_trace v w :
  mean_losses (trace (lr_scheduler_step v w)) = [] /\
  sched_metrics (trace (lr_scheduler_step v w)) = [v] /\
  saved_paths (trace (lr_scheduler_step v w)) = [].
Proof.
  rewrite lr_scheduler_step_run. cbv zeta.
  destruct (s_patience _ <? s_num_bad_epochs _); [|repeat split].
  destruct (reduced_lr _ _); repeat split.
Qed.

Lemma epoch_body_summary train_loader val_loader epoch best w :
  let run := epoch_body train_loader val_loader epoch best w in
  let dir := save_dir (w_args w) in
  let every := save_interval (w_args w) in
  match mean_losses (trace run) with
  | [] =>
      sched_metrics (trace run) = [] /\ saved_paths (trace run) = [] /\
      set_lrs (trace run) = [] /\ exists x, result run = Raise x
  | [v] =>
      sched_metrics (trace run) = [v] /\
      saved_paths (trace run) =
        (if (v <? best)%float then [best_path dir] else []) ++
        (if every =? 0 then []
         else if epoch mod every =? 0 then [checkpoint_path dir epoch] else []) /\
      result run =
        (if every =? 0 then Raise ZeroDivisionError
         else Ok (if (v <? best)%float then v else best))
  | _ => False
  end.
Proof.
  cbv zeta. rewrite epoch_body_unfold. cbv zeta.
  destruct (train_frame (train_loader epoch) epoch w) as [(HA1 & _) HE1].
  destruct (train_trace_silent _ _ HE1) as (M1 & S1 & L1 & P1).
  set (r1 := train (train_loader epoch) epoch w) in *.
  destruct (result r1) as [tloss|x].
  2:{ rewrite !trace_run, !result_run.
      change (?e :: trace r1) with ([e] ++ trace r1).
      rewrite mean_losses_app, M1, sched_metrics_app, S1, saved_paths_app, P1,
        set_lrs_app, L1.
      cbn. eauto. }
  destruct (val_frame val_loader epoch (world r1)) as (HW2 & HE2 & M2).
  destruct (val_trace_silent _ HE2) as (S2 & L2 & P2).
  set (r2 := val val_loader epoch (world r1)) in *.
  destruct (result r2) as [v|x].
  2:{ rewrite !trace_run, !result_run.
      change (?e :: trace r1 ++ trace r2) with ([e] ++ trace r1 ++ trace r2).
      rewrite !mean_losses_app, M1, M2, !sched_metrics_app, S1, S2,
        !saved_paths_app, P1, P2, !set_lrs_app, L1, L2.
      cbn. eauto. }
  destruct (lr_scheduler_step_trace v (world r2)) as (M3 & S3 & P3).
  destruct (lr_scheduler_step_args v (world r2)) as (HA3 & _).
  set (r3 := lr_scheduler_step v (world r2)) in *.
  assert (HA : w_args (world r3) = set_device "cpu" (w_args w)).
  { rewrite HA3, HW2. unfold val_exit, with_training, with_args. cbn [w_args].
    rewrite HA1. reflexivity. }
  rewrite HA. cbn [save_dir save_interval set_device].
  destruct (save_interval (w_args w) =? 0);
    rewrite !trace_run, !result_run;
    match goal with
    | |- context [?e :: trace r1 ++ ?rest] =>
        change (e :: trace r1 ++ rest) with ([e] ++ trace r1 ++ rest)
    end;
    rewrite !mean_losses_app, M1, M2, M3, !sched_metrics_app, S1, S2, S3,
      !saved_paths_app, P1, P2, P3;
    cbn [app mean_losses extract];
    destruct (v <? best)%float; try destruct (epoch mod _ =? 0);
    cbn; repeat split; reflexivity.
Qed.

Lemma lr_scheduler_step_keeps (I : World -> Prop) (E : event -> Prop) v :
  (forall w x, I w -> I (with_lr x w)) ->
  (forall w s, I w -> I (with_sched s w)) ->
  (forall u, E (ESchedStep u)) -> (forall x, E (ESetLr x)) ->
  keeps I E (lr_scheduler_step v).
Proof.
  intros Hlr Hs E1 E2. unfold lr_scheduler_step.
  apply keeps_bind; [apply keeps_emit, E1 | intros _].
  apply keeps_bind_get; intros w0 _.
  destruct (s_patience _ <? s_num_bad_epochs _).
  - apply keeps_bind; [|intros _; apply keeps_modify; auto].
    destruct (reduced_lr _ _); [|apply keeps_ret].
    apply keeps_bind; [apply keeps_emit, E2 | intros _; apply keeps_modify; auto].
  - apply keeps_modify; auto.
Qed.

Lemma epoch_body_keeps (I : World -> Prop) (E : event -> Prop)
  train_loader val_loader epoch best :
  (forall dl ep, keeps I E (train dl ep)) ->
  (forall dl ep, keeps I E (val dl ep)) ->
  (forall w x, I w -> I (with_lr x w)) ->
  (forall w s, I w -> I (with_sched s w)) ->
  (forall a b, E (ELog (LogEpoch a b))) ->
  (forall u, E (ESchedStep u)) -> (forall x, E (ESetLr x)) ->
  (forall sd p, E (ESave sd p)) ->
  keeps I E (epoch_body train_loader val_loader epoch best).
Proof.
  intros Ht Hv Hlr Hs E1 E2 E3 E4. unfold epoch_body.
  apply keeps_bind_args; intros w0 _.
  apply keeps_bind; [apply keeps_emit, E1 | intros _].
  apply keeps_bind; [apply Ht | intros t_loss].
  apply keeps_bind; [apply Hv | intros v_loss].
  apply keeps_bind; [apply lr_scheduler_step_keeps; assumption | intros _].
  unfold torch_save.
  apply keeps_bind.
  { destruct (v_loss <? best)%float; repeat keeps_step; apply E4. }
  intros best'. repeat keeps_step.
  match goal with |- keeps _ _ (if ?c then _ else _) => destruct c end;
    repeat keeps_step; apply E4.
Qed.

Lemma epoch_loop_keeps (I : World -> Prop) (E : event -> Prop)
  train_loader val_loader epochs :
  (forall epoch best, keeps I E (epoch_body train_loader val_loader epoch best)) ->
  forall best, keeps I E (epoch_loop train_loader val_loader epochs best).
Proof.
  intros Hb. induction epochs as [|e es IH]; intros best; simpl.
  - apply keeps_ret.
  - apply keeps_bind; [apply Hb | intros b; apply IH].
Qed.

(** ** [main] *)

Lemma main_body_unfold save_dir_exists train_loader val_loader w :
  main_body save_dir_exists train_loader val_loader w =
  let args := w_args w in
  let loop :=
    epoch_loop train_loader val_loader (py_range 1 (num_epochs args + 1)) py_inf w in
  if (0 <=? lr args)%float
  then match result loop with
       | Ok _ =>
           (Ok tt, world loop,
            setup_events args save_dir_exists ++ trace loop ++ [ELog LogDone])
       | Raise x =>
           (Raise x, world loop, setup_events args save_dir_exists ++ trace loop)
       end
  else (Raise ValueError, w, setup_events args save_dir_exists).
Proof.
  unfold main_body, setup_events, the_args, logger_info, optim_Adam.
  generalize (epoch_loop train_loader val_loader) as LOOP. intros LOOP.
  generalize (py_range 1) as RANGE. intros RANGE.
  unfold bind at 1. cbn.
  destruct save_dir_exists; cbn;
    destruct (pretrained (w_args w) =? "")%string eqn:Hp; cbn;
    destruct (0 <=? lr (w_args w))%float; cbn; try reflexivity;
    unfold bind at 1;
    destruct (LOOP _ _ _) as [[[b|x] w1] t1];
    unfold result, world, trace; cbn [fst snd app]; reflexivity.
Qed.

Lemma main_unfold argv save_dir_exists train_loader val_loader :
  main argv save_dir_exists train_loader val_loader =
  let args := get_args argv in
  let loop :=
    epoch_loop train_loader val_loader (py_range 1 (num_epochs args + 1)) py_inf
      (initial_world args) in
  if (0 <=? lr args)%float
  then match result loop with
       | Ok _ =>
           (Ok tt, world loop,
            setup_events args save_dir_exists ++ trace loop ++ [ELog LogDone])
       | Raise x =>
           (Raise x, world loop, setup_events args save_dir_exists ++ trace loop)
       end
  else (Raise ValueError, initial_world args, setup_events args save_dir_exists).
Proof. unfold main. apply main_body_unfold. Qed.

Lemma main_trace_forall (P : event -> Prop) argv save_dir_exists
  train_loader val_loader :
  Forall P (setup_events (get_args argv) save_dir_exists) ->
  Forall P (trace (epoch_loop train_loader val_loader
                     (py_range 1 (num_epochs (get_args argv) + 1)) py_inf
                     (initial_world (get_args argv)))) ->
  P (ELog LogDone) ->
  Forall P (trace (main argv save_dir_exists train_loader val_loader)).
Proof.
  intros Hs Hl Hd. rewrite main_unfold. cbv zeta.
  destruct (0 <=? lr (get_args argv))%float; [|exact Hs].
  destruct (result _); rewrite trace_run;
    repeat first [ exact Hs | exact Hl | apply Forall_app; split
                 | apply Forall_cons; [exact Hd|] | apply Forall_nil ].
Qed.

Lemma train_event_on_cpu e : train_event "cpu" e -> placed_on_cpu e.
Proof. destruct e; simpl; tauto. Qed.

Lemma val_event_on_cpu e : val_event e -> placed_on_cpu e.
Proof. destruct e; simpl; tauto. Qed.

Lemma setup_events_on_cpu args save_dir_exists :
  Forall placed_on_cpu (setup_events args save_dir_exists).
Proof.
  unfold setup_events.
  destruct save_dir_exists, (pretrained args =? "")%string;
    repeat constructor.
Qed.

Lemma epoch_loop_on_cpu train_loader val_loader epochs best w :
  Forall placed_on_cpu (trace (epoch_loop train_loader val_loader epochs best w)).
Proof.
  apply (epoch_loop_keeps (fun _ => True) placed_on_cpu); [|exact I].
  intros epoch b. apply epoch_body_keeps; try (intros; exact I).
  - intros dl ep w0 _. split; [exact I|].
    eapply Forall_impl; [apply train_event_on_cpu | apply train_frame].
  - intros dl ep w0 _. split; [exact I|].
    eapply Forall_impl; [apply val_event_on_cpu | apply val_frame].
Qed.

Lemma epoch_loop_args train_loader val_loader epochs best w :
  set_device "cpu" (w_args (world (epoch_loop train_loader val_loader epochs best w))) =
  set_device "cpu" (w_args w).
Proof.
  apply (epoch_loop_keeps (fun w' => set_device "cpu" (w_args w') = set_device "cpu" (w_args w))
           (fun _ => True)); [|reflexivity].
  intros epoch b. apply epoch_body_keeps; try (intros; exact I); try (intros; assumption).
  - intros dl ep w0 H0. split; [|apply Forall_forall; intros; exact I].
    destruct (train_frame dl ep w0) as [(HA & _) _]. rewrite HA, <- H0. reflexivity.
  - intros dl ep w0 H0. split; [|apply Forall_forall; intros; exact I].
    destruct (val_frame dl ep w0) as (HW & _). rewrite HW, <- H0. reflexivity.
Qed.

Lemma flag_value_last {A} (sel : cli_opt -> option A) dflt argv o v :
  sel o = Some v -> flag_value sel dflt (argv ++ [o]) = v.
Proof.
  intros H. revert dflt. induction argv as [|o' argv IH]; intros dflt; simpl.
  - rewrite H. reflexivity.
  - destruct (sel o'); apply IH.
Qed.

(** C2 (amended): after argument parsing no field of the configuration
    other than [device] is ever modified: [train] and [val] each
    overwrite [args.device] with ['cpu'] and leave every other field
    as it was, and so does a whole run of [main]. *)
Theorem config_modified_only_in_device dataloader epoch w
  argv save_dir_exists train_loader val_loader :
  w_args (world (train dataloader epoch w)) = set_device "cpu" (w_args w) /\
  w_args (world (val dataloader epoch w)) = set_device "cpu" (w_args w) /\
  set_device "cpu" (w_args (world (main argv save_dir_exists train_loader val_loader))) =
    set_device "cpu" (get_args argv).
Proof.
  split; [|split].
  - apply train_frame.
  - destruct (val_frame dataloader epoch w) as (HW & _). rewrite HW. reflexivity.
  - rewrite main_unfold. cbv zeta.
    assert (H := epoch_loop_args train_loader val_loader
                   (py_range 1 (num_epochs (get_args argv) + 1)) py_inf
                   (initial_world (get_args argv))).
    destruct (0 <=? lr (get_args argv))%float; [|reflexivity].
    destruct (result _); rewrite world_run; exact H.
Qed.


(** ** The epoch loop *)

Lemma In_mean_losses v t : In (ELog (LogMeanLoss v)) t <-> In v (mean_losses t).
Proof.
  unfold mean_losses. rewrite extract_In. split.
  - intros H. exists (ELog (LogMeanLoss v)). split; [exact H | reflexivity].
  - intros (e & Hin & He).
    destruct e as [| | | r | | | | | | | | | | | | | | | |]; try discriminate.
    destruct r; try discriminate. injection He as ->. exact Hin.
Qed.

Lemma bind_inv_ok {A B} (m : M A) (k : A -> M B) w b w' t :
  bind m k w = (Ok b, w', t) ->
  exists a w1 t1 t2,
    m w = (Ok a, w1, t1) /\ k a w1 = (Ok b, w', t2) /\ t = t1 ++ t2.
Proof.
  unfold bind. destruct (m w) as [[[a|e] w1] t1]; [|discriminate].
  destruct (k a w1) as [[r w2] t2] eqn:Hk. intros H. injection H as -> -> <-.
  exists a, w1, t1, t2. repeat split. exact Hk.
Qed.

Lemma epoch_body_ok_inv train_loader val_loader epoch best w best' w' t :
  epoch_body train_loader val_loader epoch best w = (Ok best', w', t) ->
  exists v, mean_losses t = [v] /\ best' = lower best v.
Proof.
  intros H. assert (S := epoch_body_summary train_loader val_loader epoch best w).
  cbv zeta in S. rewrite H, trace_run, result_run in S.
  destruct (mean_losses t) as [|v [|v' l]].
  - destruct S as (_ & _ & _ & x & Hx). discriminate.
  - destruct S as (_ & _ & Hr). exists v. split; [reflexivity|].
    destruct (save_interval (w_args w) =? 0); [discriminate|].
    injection Hr as ->. reflexivity.
  - destruct S.
Qed.

Lemma epoch_loop_ok_inv train_loader val_loader epochs :
  forall best w best' w' t,
  epoch_loop train_loader val_loader epochs best w = (Ok best', w', t) ->
  best' = fold_left lower (mean_losses t) best /\
  List.length (mean_losses t) = List.length epochs.
Proof.
  induction epochs as [|e es IH]; intros best w best' w' t H; simpl in H.
  - injection H as -> -> <-. split; reflexivity.
  - apply bind_inv_ok in H. destruct H as (b1 & w1 & t1 & t2 & H1 & H2 & ->).
    apply epoch_body_ok_inv in H1. destruct H1 as (v & Hv & ->).
    apply IH in H2. destruct H2 as (-> & Hlen).
    rewrite mean_losses_app, Hv. simpl. split; [reflexivity | rewrite Hlen; reflexivity].
Qed.

Lemma best_path_not_checkpoint_path dir epoch :
  best_path dir <> checkpoint_path dir epoch.
Proof.
  unfold best_path, checkpoint_path. induction dir as [|c dir IH]; simpl.
  - discriminate.
  - intros H. injection H as H. exact (IH H).
Qed.

Lemma epoch_loop_save_dir train_loader val_loader epochs best w :
  save_dir (w_args (world (epoch_loop train_loader val_loader epochs best w))) =
  save_dir (w_args w).
Proof.
  change (save_dir (set_device "cpu"
            (w_args (world (epoch_loop train_loader val_loader epochs best w)))) =
          save_dir (set_device "cpu" (w_args w))).
  rewrite epoch_loop_args. reflexivity.
Qed.

(** C1: in the epoch loop, an epoch whose validation completes with
    mean loss [v] writes the best-model checkpoint [model_best.pth] if
    and only if [v] is strictly less than the running best of the mean
    validation losses of all previous epochs; the running best starts
    at [+inf], is [+inf] or one of those losses, and none of them is
    below it. *)
Theorem best_checkpoint_iff_strict_improvement
  train_loader val_loader epochs epoch w0 best w t v :
  epoch_loop train_loader val_loader epochs py_inf w0 = (Ok best, w, t) ->
  In (ELog (LogMeanLoss v))
    (trace (epoch_body train_loader val_loader epoch best w)) ->
  let previous := mean_losses t in
  (In (save_dir (w_args w0) ++ "/model_best.pth")%string
      (saved_paths (trace (epoch_body train_loader val_loader epoch best w))) <->
   (v <? running_best previous)%float = true) /\
  List.length previous = List.length epochs /\
  In (running_best previous) (py_inf :: previous) /\
  (forall u, In u previous -> (u <? running_best previous)%float = false).
Proof.
  intros Hloop Hv previous. subst previous.
  destruct (epoch_loop_ok_inv _ _ _ _ _ _ _ _ Hloop) as (Hbest & Hlen).
  assert (Hdir : save_dir (w_args w) = save_dir (w_args w0)).
  { rewrite <- (epoch_loop_save_dir train_loader val_loader epochs py_inf w0).
    rewrite Hloop. reflexivity. }
  destruct (fold_lower_min (mean_losses t) py_inf) as (Hin & _ & Hmin).
  fold (running_best (mean_losses t)) in *.
  split; [|split; [exact Hlen | split; [exact Hin | exact Hmin]]].
  assert (S := epoch_body_summary train_loader val_loader epoch best w).
  cbv zeta in S. apply In_mean_losses in Hv.
  destruct (mean_losses (trace (epoch_body train_loader val_loader epoch best w)))
    as [|v1 [|v2 l]]; [destruct Hv | | destruct S].
  destruct Hv as [->|[]]. destruct S as (_ & Hsaved & _).
  rewrite Hsaved, Hdir, <- Hbest. change (save_dir (w_args w0) ++ "/model_best.pth")%string
    with (best_path (save_dir (w_args w0))).
  destruct (v <? best)%float.
  - split; [reflexivity | intros _; left; reflexivity].
  - split; [|discriminate]. simpl. intros Hin'.
    destruct (save_interval (w_args w) =? 0); [destruct Hin'|].
    destruct (epoch mod save_interval (w_args w) =? 0); [|destruct Hin'].
    destruct Hin' as [Heq|[]]. symmetry in Heq.
    destruct (best_path_not_checkpoint_path _ _ Heq).
Qed.

(** C8: an epoch that reaches its checkpoint phase (its validation
    completed) and whose number is a multiple of [save_interval]
    writes the periodic checkpoint [model_checkpoint_<epoch>.pth]
    under the save directory, whatever the best loss so far and the
    validation loss of the epoch are. *)
Theorem periodic_checkpoint_every_save_interval
  train_loader val_loader epoch best w v :
  In (ELog (LogMeanLoss v))
    (trace (epoch_body train_loader val_loader epoch best w)) ->
  1 <= epoch ->
  (save_interval (w_args w) | epoch) ->
  In (save_dir (w_args w) ++ "/model_checkpoint_" ++ py_str_of_Z epoch ++ ".pth")%string
    (saved_paths (trace (epoch_body train_loader val_loader epoch best w))).
Proof.
  intros Hv Hpos Hdiv.
  assert (Hne : save_interval (w_args w) <> 0).
  { intros H0. rewrite H0 in Hdiv. apply Z.divide_0_l in Hdiv. lia. }
  assert (Hmod : epoch mod save_interval (w_args w) = 0).
  { apply Z.mod_divide; assumption. }
  assert (S := epoch_body_summary train_loader val_loader epoch best w).
  cbv zeta in S. apply In_mean_losses in Hv.
  destruct (mean_losses (trace (epoch_body train_loader val_loader epoch best w)))
    as [|v1 [|v2 l]]; [destruct Hv | | destruct S].
  destruct S as (_ & Hsaved & _). rewrite Hsaved.
  apply Z.eqb_neq in Hne. rewrite Hne, Hmod. simpl (0 =? 0).
  apply in_or_app. right. left. reflexivity.
Qed.

(** ** The plateau scheduler *)

Lemma plateau_snoc s vs : forall best run v,
  plateau s best run (vs ++ [v]) =
  if is_better s v (fst (plateau s best run vs))
  then (v, 0)
  else (fst (plateau s best run vs), snd (plateau s best run vs) + 1).
Proof.
  induction vs as [|u vs IH]; intros best run v; simpl.
  - destruct (is_better s v best); reflexivity.
  - destruct (is_better s u best); apply IH.
Qed.

Lemma reduced_lr_not_below_floor s old_lr x :
  reduced_lr s old_lr = Some x -> (x <? s_min_lr s)%float = false.
Proof.
  unfold reduced_lr, py_max. intros H.
  destruct (s_eps s <? _)%float; [|discriminate]. injection H as <-.
  destruct (old_lr * s_factor s <? s_min_lr s)%float eqn:Hm;
    [apply ltb_irrefl | exact Hm].
Qed.

Lemma lr_set_justified_none hist t :
  set_lrs t = [] -> lr_set_justified hist t.
Proof.
  intros H pre x post ->. unfold set_lrs in H.
  rewrite extract_app in H. simpl in H.
  destruct (extract _ pre); discriminate.
Qed.

Lemma lr_set_justified_app hist t1 t2 :
  lr_set_justified hist t1 ->
  lr_set_justified (hist ++ sched_metrics t1) t2 ->
  lr_set_justified hist (t1 ++ t2).
Proof.
  intros H1 H2 pre x post Heq.
  apply app_eq_app in Heq. destruct Heq as (l & [[-> Hl]|[-> Hl]]).
  - destruct l as [|e l]; simpl in Hl.
    + destruct (H2 [] x post (eq_sym Hl)) as ((pre' & v & Hp) & _).
      destruct pre'; discriminate.
    + injection Hl as <- ->.
      destruct (H1 pre x l eq_refl) as (Hp & Hs & Hx). auto.
  - destruct (H2 l x post Hl) as ((pre' & v & ->) & Hs & Hx).
    split; [exists (t1 ++ pre'), v; rewrite app_assoc; reflexivity|].
    split; [|exact Hx].
    rewrite sched_metrics_app, app_assoc. exact Hs.
Qed.

Lemma lr_scheduler_step_sched hist v w :
  sched_inv hist (w_sched w) ->
  let run := lr_scheduler_step v w in
  sched_inv (hist ++ [v]) (w_sched (world run)) /\
  lr_set_justified hist (trace run) /\
  sched_metrics (trace run) = [v] /\
  w_lr (world run) = last (set_lrs (trace run)) (w_lr w) /\
  decays (w_lr w) (set_lrs (trace run)).
Proof.
  intros (Hs & Hlo & Hhi). cbv zeta. rewrite lr_scheduler_step_run. cbv zeta.
  unfold stagnant_epochs in *.
  set (P := plateau ReduceLROnPlateau_init py_inf 0 hist) in *.
  assert (HP : plateau ReduceLROnPlateau_init py_inf 0 (hist ++ [v]) =
               if is_better ReduceLROnPlateau_init v (fst P)
               then (v, 0) else (fst P, snd P + 1)) by apply plateau_snoc.
  destruct (w_sched w) as [f p m th cd ep best bad cc] eqn:Hw.
  cbn [s_num_bad_epochs] in *. injection Hs as -> -> -> -> -> -> -> ->.
  unfold sched_inv, stagnant_epochs, sched_observe. rewrite HP.
  change (is_better {| s_factor := factor_0_3; s_patience := 6; s_min_lr := min_lr_1e_7;
                       s_threshold := threshold_1e_4; s_cooldown := 0; s_eps := eps_1e_8;
                       s_best := fst P; s_num_bad_epochs := bad;
                       s_cooldown_counter := 0 |} v)
    with (is_better ReduceLROnPlateau_init v).
  cbn [s_best].
  destruct (is_better ReduceLROnPlateau_init v (fst P)) eqn:Hb; cbn.
  - split; [split; [reflexivity | lia]|].
    split; [apply lr_set_justified_none; reflexivity | repeat split].
  - destruct (6 <? bad + 1) eqn:Hbad.
    + apply Z.ltb_lt in Hbad.
      destruct (reduced_lr _ _) as [x|] eqn:Hr; cbn.
      * split; [split; [reflexivity | lia]|].
        split; [|split; [reflexivity | split; [reflexivity | split; [|exact I]]]];
          [|unfold reduced_lr in Hr; cbn in Hr;
            match type of Hr with (if ?c then _ else _) = _ => destruct c end;
            [injection Hr as <-; reflexivity | discriminate]].
        intros pre y post Heq.
        destruct pre as [|e1 [|e2 pre]]; try discriminate.
        -- injection Heq as He Hx Hp. subst e1 y post.
           split; [exists [], v; reflexivity|].
           split; [|apply (reduced_lr_not_below_floor _ _ _ Hr)].
           cbn [sched_metrics extract]. unfold stagnant_epochs.
           rewrite HP. cbn [snd]. lia.
        -- injection Heq as _ _ Heq. destruct pre; discriminate.
      * split; [split; [reflexivity | lia]|].
        split; [apply lr_set_justified_none; reflexivity | repeat split].
    + apply Z.ltb_ge in Hbad. cbn.
      split; [split; [reflexivity | lia]|].
      split; [apply lr_set_justified_none; reflexivity | repeat split].
Qed.

Lemma last_default_irrelevant {A} (a : A) l d d' :
  last (a :: l) d = last (a :: l) d'.
Proof.
  revert a. induction l as [|b l IH]; intros a; [reflexivity|].
  change (last (b :: l) d = last (b :: l) d'). apply IH.
Qed.

Lemma last_cons {A} (a : A) l d : last (a :: l) d = last l a.
Proof.
  destruct l as [|b l]; [reflexivity|].
  change (last (b :: l) d = last (b :: l) a). apply last_default_irrelevant.
Qed.

Lemma last_app_default {A} (l1 l2 : list A) d :
  last (l1 ++ l2) d = last l2 (last l1 d).
Proof.
  revert d. induction l1 as [|a l1 IH]; intros d; [reflexivity|].
  rewrite <- app_comm_cons, !last_cons. apply IH.
Qed.

Lemma decays_app old xs ys :
  decays old xs -> decays (last xs old) ys -> decays old (xs ++ ys).
Proof.
  revert old. induction xs as [|x xs IH]; intros old Hx Hy; [exact Hy|].
  destruct Hx as [H1 H2]. split; [exact H1|]. apply IH; [exact H2|].
  rewrite last_cons in Hy. exact Hy.
Qed.

Lemma sched_summary_quiet hist w {A} (r : res A) w' t :
  sched_inv hist (w_sched w) ->
  w_sched w' = w_sched w -> w_lr w' = w_lr w ->
  sched_metrics t = [] -> set_lrs t = [] ->
  sched_summary hist w (r, w', t).
Proof.
  intros Hi Hs Hl H1 H3. unfold sched_summary.
  rewrite trace_run, world_run, H1, H3, app_nil_r, Hs, Hl.
  split; [exact Hi|]. split; [apply lr_set_justified_none, H3|].
  split; [reflexivity | exact I].
Qed.

Lemma sched_summary_seq hist w {A B} (r1 : res A * World * list event)
  (r2 : res B * World * list event) (r : res B) :
  sched_summary hist w r1 ->
  sched_summary (hist ++ sched_metrics (trace r1)) (world r1) r2 ->
  sched_summary hist w (r, world r2, trace r1 ++ trace r2).
Proof.
  intros (I1 & J1 & L1 & D1) (I2 & J2 & L2 & D2).
  unfold sched_summary. rewrite trace_run, world_run.
  rewrite sched_metrics_app, set_lrs_app, app_assoc.
  split; [exact I2|]. split; [apply lr_set_justified_app; assumption|].
  split; [rewrite last_app_default, <- L1; exact L2|].
  apply decays_app; [exact D1 | rewrite <- L1; exact D2].
Qed.

Lemma lr_scheduler_step_summary hist v w :
  sched_inv hist (w_sched w) ->
  sched_summary hist w (lr_scheduler_step v w).
Proof.
  intros Hi. destruct (lr_scheduler_step_sched hist v w Hi) as (I1 & J1 & M1 & L1 & D1).
  unfold sched_summary. rewrite M1. auto.
Qed.

Lemma epoch_body_sched hist train_loader val_loader epoch best w :
  sched_inv hist (w_sched w) ->
  sched_summary hist w (epoch_body train_loader val_loader epoch best w).
Proof.
  intros Hi. rewrite epoch_body_unfold. cbv zeta.
  destruct (train_frame (train_loader epoch) epoch w) as [(_ & HL1 & HS1 & _) HE1].
  destruct (train_trace_silent _ _ HE1) as (_ & S1 & L1 & _).
  set (r1 := train (train_loader epoch) epoch w) in *.
  set (log := ELog (LogEpoch epoch (num_epochs (w_args w)))).
  destruct (result r1) as [tloss|x].
  2:{ apply sched_summary_quiet; assumption. }
  destruct (val_frame val_loader epoch (world r1)) as (HW2 & HE2 & _).
  destruct (val_trace_silent _ HE2) as (S2 & L2 & _).
  set (r2 := val val_loader epoch (world r1)) in *.
  assert (HS2 : w_sched (world r2) = w_sched w) by (rewrite HW2; exact HS1).
  assert (HL2 : w_lr (world r2) = w_lr w) by (rewrite HW2; exact HL1).
  assert (Q : forall r : res unit,
            sched_summary hist w (r, world r2, [log] ++ trace r1 ++ trace r2)).
  { intros r. apply sched_summary_quiet; try assumption.
    - rewrite !sched_metrics_app, S1, S2. reflexivity.
    - rewrite !set_lrs_app, L1, L2. reflexivity. }
  destruct (result r2) as [v|x]; [|apply (Q (Raise x))].
  assert (Hi2 : sched_inv (hist ++ sched_metrics ([log] ++ trace r1 ++ trace r2))
                  (w_sched (world r2))).
  { rewrite !sched_metrics_app, S1, S2, app_nil_r, HS2. exact Hi. }
  assert (T := lr_scheduler_step_summary _ v (world r2) Hi2).
  set (r3 := lr_scheduler_step v (world r2)) in *.
  assert (R : forall (r : res float) tail,
            sched_metrics tail = [] -> set_lrs tail = [] ->
            sched_summary hist w
              (r, world r3, log :: trace r1 ++ trace r2 ++ trace r3 ++ tail)).
  { intros r tail Ht1 Ht2.
    assert (T' : sched_summary (hist ++ sched_metrics ([log] ++ trace r1 ++ trace r2))
                   (world r2) (r, world r3, trace r3 ++ tail)).
    { apply (sched_summary_seq _ _ r3 (r, world r3, tail) r T).
      apply sched_summary_quiet; try reflexivity; try assumption. apply T. }
    assert (U := sched_summary_seq hist w (Ok tt, world r2, [log] ++ trace r1 ++ trace r2)
                   (r, world r3, trace r3 ++ tail) r (Q (Ok tt)) T').
    rewrite world_run, !trace_run in U.
    rewrite <- !app_assoc in U. exact U. }
  destruct (save_interval (w_args (world r3)) =? 0).
  - apply R; destruct (v <? best)%float; reflexivity.
  - apply R; destruct (v <? best)%float;
      destruct (epoch mod save_interval (w_args (world r3)) =? 0); reflexivity.
Qed.

Lemma epoch_loop_sched train_loader val_loader epochs : forall hist best w,
  sched_inv hist (w_sched w) ->
  sched_summary hist w (epoch_loop train_loader val_loader epochs best w).
Proof.
  induction epochs as [|e es IH]; intros hist best w Hi; simpl.
  - apply sched_summary_quiet; auto.
  - assert (B := epoch_body_sched hist train_loader val_loader e best w Hi).
    unfold bind.
    destruct (epoch_body train_loader val_loader e best w) as [[[b1|x] w1] t1] eqn:Hb;
      [|exact B].
    assert (L := IH (hist ++ sched_metrics t1) b1 w1 (proj1 B)).
    destruct (epoch_loop train_loader val_loader es b1 w1) as [[r w2] t2] eqn:Hl.
    apply (sched_summary_seq hist w (Ok b1, w1, t1) (r, w2, t2) r B L).
Qed.

Lemma epoch_loop_metrics train_loader val_loader epochs : forall best w,
  sched_metrics (trace (epoch_loop train_loader val_loader epochs best w)) =
  mean_losses (trace (epoch_loop train_loader val_loader epochs best w)).
Proof.
  induction epochs as [|e es IH]; intros best w; simpl; [reflexivity|].
  assert (S := epoch_body_summary train_loader val_loader e best w). cbv zeta in S.
  unfold bind.
  destruct (epoch_body train_loader val_loader e best w) as [[[b1|x] w1] t1] eqn:Hb;
    rewrite trace_run in S.
  - specialize (IH b1 w1).
    destruct (epoch_loop train_loader val_loader es b1 w1) as [[r w2] t2].
    rewrite trace_run in *. rewrite sched_metrics_app, mean_losses_app, IH. f_equal.
    destruct (mean_losses t1) as [|v [|v' l]]; [apply S | apply S | destruct S].
  - rewrite trace_run.
    destruct (mean_losses t1) as [|v [|v' l]]; [apply S | apply S | destruct S].
Qed.

Lemma setup_events_quiet args save_dir_exists :
  sched_metrics (setup_events args save_dir_exists) = [] /\
  set_lrs (setup_events args save_dir_exists) = [] /\
  mean_losses (setup_events args save_dir_exists) = [].
Proof.
  unfold setup_events.
  destruct save_dir_exists, (pretrained args =? "")%string; repeat split.
Qed.

Lemma sched_inv_initial : sched_inv [] ReduceLROnPlateau_init.
Proof. split; [reflexivity | unfold stagnant_epochs; simpl; lia]. Qed.

(** C5 (amended): the scheduler is fed exactly the mean validation
    losses, one per epoch; the learning rate changes only where the
    scheduler sets it, right after one of its steps, and then the
    monitored loss has failed to improve, as the scheduler measures
    improvement (a loss below the best one so far by more than the
    relative threshold 1e-4), for more than [patience = 6] consecutive
    epochs, and the new rate is not below the floor 1e-7; each new
    rate is the one before it scaled by the factor 0.3 and held at the
    floor. *)
Theorem lr_reduced_only_on_plateau argv save_dir_exists train_loader val_loader :
  let run := main argv save_dir_exists train_loader val_loader in
  sched_metrics (trace run) = mean_losses (trace run) /\
  (forall pre x post,
     trace run = pre ++ ESetLr x :: post ->
     (exists pre' v, pre = pre' ++ [ESchedStep v]) /\
     6 < stagnant_epochs (sched_metrics pre) /\
     (x <? min_lr_1e_7)%float = false) /\
  w_lr (world run) = last (set_lrs (trace run)) (lr (get_args argv)) /\
  decays (lr (get_args argv)) (set_lrs (trace run)).
Proof.
  cbv zeta. rewrite main_unfold. cbv zeta.
  set (args := get_args argv).
  destruct (setup_events_quiet args save_dir_exists) as (Q1 & Q2 & Q3).
  assert (L := epoch_loop_sched train_loader val_loader
                 (py_range 1 (num_epochs args + 1)) [] py_inf (initial_world args)
                 sched_inv_initial).
  assert (Hm := epoch_loop_metrics train_loader val_loader
                  (py_range 1 (num_epochs args + 1)) py_inf (initial_world args)).
  set (loop := epoch_loop train_loader val_loader (py_range 1 (num_epochs args + 1))
                 py_inf (initial_world args)) in *.
  assert (S : forall (r : res unit) tail,
            sched_metrics tail = [] -> set_lrs tail = [] ->
            sched_summary [] (initial_world args)
              (r, world loop, setup_events args save_dir_exists ++ trace loop ++ tail)).
  { intros r tail T1 T2.
    assert (P : sched_summary [] (initial_world args)
                  (Ok tt, initial_world args, setup_events args save_dir_exists)).
    { apply sched_summary_quiet; try reflexivity; try assumption.
      apply sched_inv_initial. }
    assert (L' : sched_summary ([] ++ sched_metrics (setup_events args save_dir_exists))
                   (initial_world args) (r, world loop, trace loop ++ tail)).
    { rewrite Q1. apply (sched_summary_seq _ _ loop (r, world loop, tail) r L).
      apply sched_summary_quiet; try reflexivity; try assumption. apply L. }
    exact (sched_summary_seq _ _ _ _ r P L'). }
  assert (M : forall tail, mean_losses tail = [] -> sched_metrics tail = [] ->
            sched_metrics (setup_events args save_dir_exists ++ trace loop ++ tail) =
            mean_losses (setup_events args save_dir_exists ++ trace loop ++ tail)).
  { intros tail T1 T2.
    rewrite !sched_metrics_app, !mean_losses_app, Q1, Q3, Hm, T1, T2. reflexivity. }
  destruct (0 <=? lr args)%float.
  2:{ rewrite trace_run, world_run, Q1, Q2, Q3.
      split; [reflexivity|]. split; [|split; [reflexivity | exact I]].
      intros pre x post Heq.
      assert (Hx : In x (set_lrs (setup_events args save_dir_exists))).
      { apply extract_In. exists (ESetLr x).
        split; [rewrite Heq; apply in_or_app; right; left; reflexivity | reflexivity]. }
      rewrite Q2 in Hx. destruct Hx. }
  destruct (result loop) as [b|x]; rewrite trace_run, world_run.
  - destruct (S (Ok tt) [ELog LogDone] eq_refl eq_refl) as (_ & J & W & D).
    rewrite trace_run, world_run in *.
    split; [apply M; reflexivity|]. split; [exact J|]. split; [exact W | exact D].
  - destruct (S (Raise x) [] eq_refl eq_refl) as (_ & J & W & D).
    rewrite trace_run, world_run, !app_nil_r in *.
    split; [|split; [exact J | split; [exact W | exact D]]].
    specialize (M [] eq_refl eq_refl). rewrite !app_nil_r in M. exact M.
Qed.

(** C4 (amended): for every non-empty training dataloader, when
    [args.print_iters] is non-zero and the reshapes of every batch to
    patches are valid (none is made when [args.patch_size] is zero),
    [train] returns the mean loss over the epoch: the sum of the
    per-batch loss values, one per batch of the dataloader, divided by
    the number of batches. *)
Theorem train_returns_mean_loss dataloader epoch w :
  dataloader <> [] ->
  print_iters (w_args w) <> 0 ->
  forallb (train_reshapes (patch_size (w_args w))) dataloader = true ->
  let run := train dataloader epoch w in
  result run =
    Ok (fsum (map item (loss_values (trace run))) / float_of_Z (len dataloader))%float /\
  List.length (loss_values (trace run)) = List.length dataloader.
Proof.
  intros Hne Hp Hv run. subst run.
  rewrite train_unfold.
  destruct (train_loop_ok epoch (len dataloader) dataloader 0 None 0%float
              (train_entry w) ltac:(lia) Hp Hv) as (w1 & t1 & Hrun & HL & _ & _).
  rewrite Hrun. unfold last_index.
  destruct dataloader as [|b bs]; [congruence|].
  assert (Hn : (0 + len (b :: bs) - 1 + 1 =? 0) = false).
  { apply Z.eqb_neq. unfold len. rewrite length_cons, Nat2Z.inj_succ. lia. }
  rewrite Hn. unfold result, trace; cbn [fst snd].
  change (EModelTrain :: t1 ++ [EPrint ""]) with ([EModelTrain] ++ t1 ++ [EPrint ""]).
  rewrite !loss_values_app.
  change (loss_values [EModelTrain]) with (@nil Tensor).
  change (loss_values [EPrint ""]) with (@nil Tensor).
  rewrite app_nil_r. cbn [app].
  split; [|exact HL].
  replace (0 + len (b :: bs) - 1 + 1) with (len (b :: bs)) by lia. reflexivity.
Qed.

(** C6 (amended): [val] computes the PSNR of every validation batch
    as [10 * log10(1 / mse)], for the model output and for the raw
    noisy input, and, for every non-empty validation dataloader, when
    [args.print_iters] is non-zero and the reshapes of every batch to
    patches of size [args.patch_size] are valid, it logs the means of
    both and returns the mean validation loss of the epoch: the sum of
    the per-batch MSE losses divided by the number of batches. *)
Theorem val_psnr_and_mean_loss dataloader epoch w :
  dataloader <> [] ->
  print_iters (w_args w) <> 0 ->
  forallb (reshapes (patch_size (w_args w))) dataloader = true ->
  let ps := patch_size (w_args w) in
  let n := float_of_Z (len dataloader) in
  let mean_loss :=
    (fsum (map (fun b => item (val_loss ps (w_params w) b)) dataloader) / n)%float in
  let mean_psnr :=
    (fsum (map (fun b => float_of_Z 10 *
                         item (log10 (rtruediv 1 (val_loss ps (w_params w) b))))
             dataloader) / n)%float in
  let mean_org_psnr :=
    (fsum (map (fun b => float_of_Z 10 *
                         item (log10 (rtruediv 1 (val_org_mse ps b))))
             dataloader) / n)%float in
  let run := val dataloader epoch w in
  result run = Ok mean_loss /\
  exists t,
    trace run =
      t ++ [ELog (LogMeanPsnr mean_psnr);
            ELog (LogMeanOrgPsnr mean_org_psnr);
            ELog (LogMeanLoss mean_loss)].
Proof.
  intros Hne Hp Hv ps n mean_loss mean_psnr mean_org_psnr run.
  subst run. rewrite val_unfold. cbv zeta.
  destruct (val_loop_ok epoch (len dataloader) dataloader 0 None 0%float 0%float 0%float
              (val_entry w) ltac:(lia) Hp eq_refl Hv) as (t1 & Hrun).
  rewrite Hrun.
  assert (Hn : (len dataloader =? 0) = false).
  { apply Z.eqb_neq. unfold len. destruct dataloader; [congruence|].
    rewrite length_cons, Nat2Z.inj_succ. lia. }
  rewrite Hn. unfold result, trace; cbn [fst snd].
  split; [reflexivity|].
  exists ([EModelEval; ENoGrad true] ++ t1 ++ [ENoGrad false]).
  rewrite <- !app_assoc. reflexivity.
Qed.

Lemma views_silent ps t :
  Forall (fun e => e = EView ps) t ->
  loss_values t = [] /\ train_logs t = [] /\ val_logs t = [].
Proof.
  induction 1 as [|e t -> _ IH]; [repeat split | exact IH].
Qed.




(** C10: on an empty dataloader both [train] and [val] end in an
    uncaught exception instead of returning a value: [train] reads the
    loop variable that the loop never bound, and [val] divides by the
    length of the dataloader, which is zero. *)
Theorem empty_dataloader_raises epoch w :
  result (train [] epoch w) = Raise UnboundLocalError /\
  trace (train [] epoch w) = [EModelTrain; EPrint ""] /\
  result (val [] epoch w) = Raise ZeroDivisionError /\
  trace (val [] epoch w) = [EModelEval; ENoGrad true; ENoGrad false].
Proof.
  rewrite train_unfold, val_unfold. cbv zeta.
  unfold for_enumerate, ret, len. cbn [List.length Z.of_nat Z.eqb].
  repeat split.
Qed.

(** * Further properties of the driver *)

(** ** Error and edge behaviour of [train] and [val] *)

Lemma val_body_zero_print_iters epoch n i b totals w :
  print_iters (w_args w) = 0 ->
  reshapes (patch_size (w_args w)) b = true ->
  exists t, val_body epoch n i b totals w = (Raise ZeroDivisionError, w, t) /\
            val_logs t = [].
Proof.
  intros Hp Hv. destruct b as [[inp gt] id]. destruct totals as [[tl tp] top].
  unfold reshapes in Hv. apply andb_prop in Hv. destruct Hv as [Hv1 Hv2].
  unfold val_body. unfold_calls.
  unfold bind at 1. cbn. rewrite Hv1. cbn. rewrite Hv2. cbn. rewrite Hp. cbn.
  eexists. split; reflexivity.
Qed.

(** X1: with [print_iters = 0] and a non-empty dataloader whose first
    batch can be reshaped, [train] ends in a [ZeroDivisionError] after
    it has processed exactly one batch, optimizer step included. *)
Theorem train_zero_print_iters_one_step dataloader epoch w :
  dataloader <> [] ->
  print_iters (w_args w) = 0 ->
  forallb (train_reshapes (patch_size (w_args w))) (firstn 1 dataloader) = true ->
  result (train dataloader epoch w) = Raise ZeroDivisionError /\
  call_kinds (trace (train dataloader epoch w)) =
    KModelTrain :: train_batch_kinds (patch_size (w_args w)).
Proof.
  intros Hne Hp Hv. rewrite train_unfold.
  destruct dataloader as [|b bs]; [congruence|].
  cbn [firstn forallb] in Hv. rewrite andb_true_r in Hv.
  destruct (train_loop_zero_print_iters epoch (len (b :: bs)) b bs 0 None 0%float
              (train_entry w) Hp Hv) as (w1 & t1 & Hrun & HK).
  rewrite Hrun, result_run, trace_run. split; [reflexivity|].
  change (EModelTrain :: t1) with ([EModelTrain] ++ t1).
  rewrite call_kinds_app, HK. reflexivity.
Qed.

(** X2: with [print_iters = 0] and a non-empty dataloader whose first
    batch can be reshaped, [val] ends in a [ZeroDivisionError] on its
    first batch, before any mean is logged; the [torch.no_grad()]
    block is left and the autograd switch is as it was before the
    call. *)
Theorem val_zero_print_iters_raises dataloader epoch w :
  dataloader <> [] ->
  print_iters (w_args w) = 0 ->
  forallb (reshapes (patch_size (w_args w))) (firstn 1 dataloader) = true ->
  result (val dataloader epoch w) = Raise ZeroDivisionError /\
  mean_losses (trace (val dataloader epoch w)) = [] /\
  w_grad_enabled (world (val dataloader epoch w)) = w_grad_enabled w /\
  exists t, trace (val dataloader epoch w) =
            [EModelEval; ENoGrad true] ++ t ++ [ENoGrad false].
Proof.
  intros Hne Hp Hv.
  destruct (val_frame dataloader epoch w) as (HW & _ & HM).
  rewrite HW. rewrite HM. clear HW HM.
  rewrite val_unfold. cbv zeta.
  destruct dataloader as [|b bs]; [congruence|].
  cbn [firstn forallb] in Hv. rewrite andb_true_r in Hv.
  simpl for_enumerate.
  destruct (val_body_zero_print_iters epoch (len (b :: bs)) 0 b (0, 0, 0)%float
              (val_entry w) Hp Hv) as (t1 & Hrun & _).
  rewrite (bind_raise _ _ _ _ _ _ Hrun), result_run, trace_run.
  repeat split. exists t1. reflexivity.
Qed.

(** ** Edge behaviour of [main] *)

Lemma py_range_nil lo hi : hi <= lo -> py_range lo hi = [].
Proof.
  intros H. unfold py_range.
  replace (Z.to_nat (hi - lo)) with 0%nat by lia. reflexivity.
Qed.

Lemma py_range_cons lo hi :
  lo < hi -> py_range lo hi = lo :: py_range (lo + 1) hi.
Proof.
  intros H. unfold py_range.
  replace (Z.to_nat (hi - lo)) with (S (Z.to_nat (hi - (lo + 1)))) by lia.
  cbn [seq map]. f_equal; [lia|].
  rewrite <- seq_shift, map_map. apply map_ext. intros k. lia.
Qed.

Lemma py_range_length lo hi : List.length (py_range lo hi) = Z.to_nat (hi - lo).
Proof. unfold py_range. rewrite length_map, length_seq. reflexivity. Qed.

Lemma py_range_In lo hi e : In e (py_range lo hi) -> lo <= e < hi.
Proof.
  unfold py_range. rewrite in_map_iff. intros (k & <- & Hk).
  apply in_seq in Hk. lia.
Qed.




(** X5: with [save_interval = 0] and at least one epoch, [main] never
    returns: the first epoch ends in an exception (at the latest the
    [ZeroDivisionError] of [epoch % save_interval]), so at most one
    validation completes and no periodic checkpoint is written. *)
Theorem main_zero_save_interval argv save_dir_exists train_loader val_loader :
  1 <= num_epochs (get_args argv) ->
  save_interval (get_args argv) = 0 ->
  let run := main argv save_dir_exists train_loader val_loader in
  (exists x, result run = Raise x) /\
  (List.length (mean_losses (trace run)) <= 1)%nat /\
  (forall p, In p (saved_paths (trace run)) ->
             p = best_path (save_dir (get_args argv))) /\
  (mean_losses (trace run) <> [] -> result run = Raise ZeroDivisionError).
Proof.
  intros Hn Hs. cbv zeta. rewrite main_unfold. cbv zeta.
  destruct (setup_events_quiet (get_args argv) save_dir_exists) as (_ & _ & Q3).
  assert (Q4 : saved_paths (setup_events (get_args argv) save_dir_exists) = []).
  { unfold setup_events.
    destruct save_dir_exists, (pretrained (get_args argv) =? "")%string; reflexivity. }
  destruct (0 <=? lr (get_args argv))%float.
  2:{ rewrite result_run, trace_run, Q3, Q4.
      split; [eauto|]. split; [simpl; lia|]. split; [intros p []|]. congruence. }
  rewrite py_range_cons by lia. simpl epoch_loop.
  set (w0 := initial_world (get_args argv)).
  assert (S := epoch_body_summary train_loader val_loader 1 py_inf w0).
  cbv zeta in S.
  change (save_interval (w_args w0)) with (save_interval (get_args argv)) in S.
  change (save_dir (w_args w0)) with (save_dir (get_args argv)) in S.
  rewrite Hs in S. cbn [Z.eqb] in S.
  destruct (epoch_body train_loader val_loader 1 py_inf w0) as [[r1 w1] t1] eqn:Hb.
  rewrite trace_run, result_run in S.
  assert (Hr : exists x, r1 = Raise x /\
                         (mean_losses t1 <> [] -> x = ZeroDivisionError)).
  { destruct (mean_losses t1) as [|v [|v' l]].
    - destruct S as (_ & _ & _ & x & Hx). exists x. split; [exact Hx | congruence].
    - destruct S as (_ & _ & Hx). exists ZeroDivisionError. split; [exact Hx | reflexivity].
    - destruct S. }
  destruct Hr as (x & -> & Hx).
  rewrite (bind_raise _ _ _ _ _ _ Hb), !result_run, !trace_run. cbv iota.
  rewrite ?result_run, ?trace_run.
  rewrite mean_losses_app, saved_paths_app, Q3, Q4. cbn [app].
  split; [exists x; reflexivity|].
  destruct (mean_losses t1) as [|v [|v' l]]; [| |destruct S].
  - destruct S as (_ & -> & _). split; [simpl; lia|].
    split; [intros p []|]. intros H. congruence.
  - destruct S as (_ & -> & _). split; [simpl; lia|]. split.
    + intros p Hp. rewrite app_nil_r in Hp.
      destruct (v <? py_inf)%float; [destruct Hp as [<-|[]]; reflexivity | destruct Hp].
    + intros _. rewrite Hx; [reflexivity | discriminate].
Qed.

(** ** Checkpoints *)

Lemma epoch_body_args train_loader val_loader epoch best w :
  set_device "cpu"
    (w_args (world (epoch_body train_loader val_loader epoch best w))) =
  set_device "cpu" (w_args w).
Proof.
  apply (epoch_body_keeps
           (fun w' => set_device "cpu" (w_args w') = set_device "cpu" (w_args w))
           (fun _ => True)); try (intros; exact I); try (intros; assumption);
    try reflexivity.
  - intros dl ep w0 H0. split; [|apply Forall_forall; intros; exact I].
    destruct (train_frame dl ep w0) as [(HA & _) _]. rewrite HA, <- H0. reflexivity.
  - intros dl ep w0 H0. split; [|apply Forall_forall; intros; exact I].
    destruct (val_frame dl ep w0) as (HW & _). rewrite HW, <- H0. reflexivity.
Qed.

Lemma py_range_In_iff lo hi e : In e (py_range lo hi) <-> lo <= e < hi.
Proof.
  split; [apply py_range_In|]. intros H. unfold py_range.
  apply in_map_iff. exists (Z.to_nat (e - lo)). split; [lia|].
  apply in_seq. lia.
Qed.

Lemma epoch_loop_saved_paths train_loader val_loader a0 epochs :
  forall best w p,
  set_device "cpu" (w_args w) = set_device "cpu" a0 ->
  In p (saved_paths (trace (epoch_loop train_loader val_loader epochs best w))) ->
  p = best_path (save_dir a0) \/
  exists e, In e epochs /\ save_interval a0 <> 0 /\
            e mod save_interval a0 = 0 /\
            p = checkpoint_path (save_dir a0) e.
Proof.
  induction epochs as [|e es IH]; intros best w p Ha Hp; simpl in Hp;
    [destruct Hp|].
  assert (Hd : save_dir (w_args w) = save_dir a0)
    by exact (f_equal save_dir Ha).
  assert (Hi : save_interval (w_args w) = save_interval a0)
    by exact (f_equal save_interval Ha).
  assert (S := epoch_body_summary train_loader val_loader e best w). cbv zeta in S.
  assert (A := epoch_body_args train_loader val_loader e best w).
  rewrite Hd, Hi in S. rewrite Ha in A.
  assert (H1 : forall q,
            In q (saved_paths (trace (epoch_body train_loader val_loader e best w))) ->
            q = best_path (save_dir a0) \/
            (save_interval a0 <> 0 /\ e mod save_interval a0 = 0 /\
             q = checkpoint_path (save_dir a0) e)).
  { intros q Hq.
    destruct (mean_losses (trace (epoch_body train_loader val_loader e best w)))
      as [|v [|v' l]]; [| |destruct S].
    - destruct S as (_ & S & _). rewrite S in Hq. destruct Hq.
    - destruct S as (_ & S & _). rewrite S in Hq. apply in_app_or in Hq.
      destruct Hq as [Hq|Hq].
      + destruct (v <? best)%float; [destruct Hq as [<-|[]]; auto | destruct Hq].
      + destruct (save_interval a0 =? 0) eqn:H0; [destruct Hq|].
        apply Z.eqb_neq in H0.
        destruct (e mod save_interval a0 =? 0) eqn:Hm; [|destruct Hq].
        apply Z.eqb_eq in Hm. destruct Hq as [<-|[]]. auto. }
  unfold bind in Hp.
  destruct (epoch_body train_loader val_loader e best w) as [[[b1|x] w1] t1];
    rewrite ?trace_run, ?world_run in *.
  - destruct (epoch_loop train_loader val_loader es b1 w1) as [[r w2] t2] eqn:Hl.
    rewrite trace_run, saved_paths_app in Hp. apply in_app_or in Hp.
    destruct Hp as [Hp|Hp].
    + destruct (H1 p Hp) as [->|(H0 & Hm & ->)]; [auto|].
      right. exists e. repeat split; auto. left; reflexivity.
    + assert (Hp' : In p (saved_paths
                            (trace (epoch_loop train_loader val_loader es b1 w1))))
        by (rewrite Hl; exact Hp).
      destruct (IH b1 w1 p A Hp') as [->|(e' & He' & H0 & Hm & ->)]; [auto|].
      right. exists e'. repeat split; auto. right; exact He'.
  - destruct (H1 p Hp) as [->|(H0 & Hm & ->)]; [auto|].
    right. exists e. repeat split; auto. left; reflexivity.
Qed.

(** X6: the only files [main] ever writes are [model_best.pth] and
    the periodic checkpoints [model_checkpoint_<e>.pth] of epochs [e]
    of the run that are multiples of a non-zero [save_interval], all
    under the save directory given on the command line. *)
Theorem main_writes_only_checkpoints argv save_dir_exists train_loader val_loader p :
  In p (saved_paths (trace (main argv save_dir_exists train_loader val_loader))) ->
  p = (save_dir (get_args argv) ++ "/model_best.pth")%string \/
  exists e,
    1 <= e <= num_epochs (get_args argv) /\
    save_interval (get_args argv) <> 0 /\
    e mod save_interval (get_args argv) = 0 /\
    p = (save_dir (get_args argv) ++ "/model_checkpoint_" ++
         py_str_of_Z e ++ ".pth")%string.
Proof.
  rewrite main_unfold. cbv zeta. intros Hp.
  assert (Q4 : saved_paths (setup_events (get_args argv) save_dir_exists) = []).
  { unfold setup_events.
    destruct save_dir_exists, (pretrained (get_args argv) =? "")%string; reflexivity. }
  assert (Hp' : In p (saved_paths
                        (trace (epoch_loop train_loader val_loader
                                  (py_range 1 (num_epochs (get_args argv) + 1)) py_inf
                                  (initial_world (get_args argv)))))).
  { destruct (0 <=? lr (get_args argv))%float;
      [|rewrite trace_run, Q4 in Hp; destruct Hp].
    destruct (result _); rewrite trace_run, !saved_paths_app, Q4 in Hp;
      cbn [app] in Hp; [|exact Hp].
    apply in_app_or in Hp. destruct Hp as [Hp|[]]. exact Hp. }
  destruct (epoch_loop_saved_paths _ _ (get_args argv) _ py_inf
              (initial_world (get_args argv)) p eq_refl Hp')
    as [->|(e & He & H0 & Hm & ->)]; [left; reflexivity|].
  right. exists e. apply py_range_In in He. repeat split; auto; lia.
Qed.

Lemma not_saved_by_train_or_val t :
  Forall (train_event "cpu") t \/ Forall val_event t ->
  forall sd p, ~ In (ESave sd p) t.
Proof.
  intros [H|H] sd p Hin; rewrite Forall_forall in H; exact (H _ Hin).
Qed.

(** X7: every checkpoint written in an epoch, best or periodic, holds
    the parameters as the training of that epoch left them: validation
    and the scheduler step do not change them, and they are still the
    parameters of the model when the epoch ends. *)
Theorem checkpoints_hold_trained_parameters
  train_loader val_loader epoch best w sd p :
  In (ESave sd p) (trace (epoch_body train_loader val_loader epoch best w)) ->
  sd = w_params (world (train (train_loader epoch) epoch w)) /\
  sd = w_params (world (epoch_body train_loader val_loader epoch best w)).
Proof.
  rewrite epoch_body_unfold. cbv zeta.
  destruct (train_frame (train_loader epoch) epoch w) as [_ HE1].
  assert (N1 := not_saved_by_train_or_val _ (or_introl HE1)).
  set (r1 := train (train_loader epoch) epoch w) in *.
  destruct (result r1) as [tloss|x].
  2:{ rewrite trace_run. intros [H|H]; [discriminate | destruct (N1 _ _ H)]. }
  destruct (val_frame val_loader epoch (world r1)) as (HW2 & HE2 & _).
  assert (N2 := not_saved_by_train_or_val _ (or_intror HE2)).
  set (r2 := val val_loader epoch (world r1)) in *.
  destruct (result r2) as [v|x].
  2:{ rewrite trace_run. intros [H|H]; [discriminate|].
      apply in_app_or in H. destruct H as [H|H];
        [destruct (N1 _ _ H) | destruct (N2 _ _ H)]. }
  destruct (lr_scheduler_step_args v (world r2)) as (_ & HP3).
  assert (N3 : ~ In (ESave sd p) (trace (lr_scheduler_step v (world r2)))).
  { rewrite lr_scheduler_step_run. cbv zeta.
    destruct (s_patience _ <? s_num_bad_epochs _);
      [destruct (reduced_lr _ _)|]; rewrite trace_run; simpl;
      intuition discriminate. }
  set (r3 := lr_scheduler_step v (world r2)) in *.
  assert (HP : w_params (world r3) = w_params (world r1)).
  { rewrite HP3, HW2. reflexivity. }
  assert (K : forall tail,
            (forall sd' p', In (ESave sd' p') tail -> sd' = w_params (world r3)) ->
            In (ESave sd p)
              (ELog (LogEpoch epoch (num_epochs (w_args w))) ::
               trace r1 ++ trace r2 ++ trace r3 ++ tail) ->
            sd = w_params (world r3)).
  { intros tail Ht [H|H]; [discriminate|].
    apply in_app_or in H. destruct H as [H|H]; [destruct (N1 _ _ H)|].
    apply in_app_or in H. destruct H as [H|H]; [destruct (N2 _ _ H)|].
    apply in_app_or in H. destruct H as [H|H]; [destruct (N3 H)|].
    exact (Ht _ _ H). }
  destruct (save_interval (w_args (world r3)) =? 0);
    rewrite trace_run, world_run; intros H;
    (assert (E : sd = w_params (world r3));
     [ revert H; apply K; intros sd' p' H';
       repeat (apply in_app_or in H'; destruct H' as [H'|H']);
       destruct (v <? best)%float;
       try destruct (epoch mod save_interval (w_args (world r3)) =? 0);
       simpl in H'; intuition congruence
     | split; [rewrite E; exact HP | exact E] ]).
Qed.


(** ** Runs of [main] that end normally, and runs that cannot *)

Lemma epoch_loop_ok_checkpoints train_loader val_loader a0 epochs :
  forall best w best' w' t,
  set_device "cpu" (w_args w) = set_device "cpu" a0 ->
  epoch_loop train_loader val_loader epochs best w = (Ok best', w', t) ->
  forall e, In e epochs ->
    save_interval a0 <> 0 /\
    (e mod save_interval a0 = 0 ->
     In (checkpoint_path (save_dir a0) e) (saved_paths t)).
Proof.
  induction epochs as [|e0 es IH]; intros best w best' w' t Ha H e He;
    [destruct He|].
  simpl in H. apply bind_inv_ok in H.
  destruct H as (b1 & w1 & t1 & t2 & H1 & H2 & ->).
  assert (Hd : save_dir (w_args w) = save_dir a0) by exact (f_equal save_dir Ha).
  assert (Hi : save_interval (w_args w) = save_interval a0)
    by exact (f_equal save_interval Ha).
  assert (S := epoch_body_summary train_loader val_loader e0 best w). cbv zeta in S.
  assert (A := epoch_body_args train_loader val_loader e0 best w).
  rewrite H1, ?trace_run, ?result_run, ?world_run, ?Hd, ?Hi, ?Ha in *.
  destruct (mean_losses t1) as [|v [|v' l]]; [| |destruct S].
  { destruct S as (_ & _ & _ & x & Hx). discriminate. }
  destruct S as (_ & Hs & Hr).
  destruct (save_interval a0 =? 0) eqn:H0; [discriminate|].
  apply Z.eqb_neq in H0. split; [exact H0|]. intros Hm.
  rewrite saved_paths_app. apply in_or_app.
  destruct He as [<-|He].
  - left. rewrite Hs, Hm. cbn [Z.eqb]. apply in_or_app. right. left. reflexivity.
  - right. exact (proj2 (IH b1 w1 best' w' t2 A H2 e He) Hm).
Qed.

(** X8: a run of [main] that returns has completed exactly
    [num_epochs] validations (none when [num_epochs <= 0]), has written
    the periodic checkpoint of every epoch of the run that is a
    multiple of [save_interval], and ends with the log record
    'done'. *)
Theorem main_normal_end argv save_dir_exists train_loader val_loader :
  let run := main argv save_dir_exists train_loader val_loader in
  result run = Ok tt ->
  List.length (mean_losses (trace run)) = Z.to_nat (num_epochs (get_args argv)) /\
  (forall e, 1 <= e <= num_epochs (get_args argv) ->
             (save_interval (get_args argv) | e) ->
             In (save_dir (get_args argv) ++ "/model_checkpoint_" ++
                 py_str_of_Z e ++ ".pth")%string
                (saved_paths (trace run))) /\
  exists t, trace run = t ++ [ELog LogDone].
Proof.
  cbv zeta. rewrite main_unfold. cbv zeta.
  destruct (setup_events_quiet (get_args argv) save_dir_exists) as (_ & _ & Q3).
  destruct (0 <=? lr (get_args argv))%float; [|rewrite result_run; discriminate].
  destruct (epoch_loop train_loader val_loader
              (py_range 1 (num_epochs (get_args argv) + 1)) py_inf
              (initial_world (get_args argv))) as [[[b|x] w1] t1] eqn:Hl;
    rewrite !result_run; cbv iota; rewrite ?result_run, ?trace_run;
    [intros _ | discriminate].
  split; [|split].
  - rewrite !mean_losses_app, Q3. cbn [app].
    change (mean_losses [ELog LogDone]) with (@nil float). rewrite app_nil_r.
    destruct (epoch_loop_ok_inv _ _ _ _ _ _ _ _ Hl) as (_ & ->).
    rewrite py_range_length. f_equal. lia.
  - intros e He Hdiv.
    assert (Hin : In e (py_range 1 (num_epochs (get_args argv) + 1)))
      by (apply py_range_In_iff; lia).
    destruct (epoch_loop_ok_checkpoints _ _ (get_args argv) _ py_inf
                (initial_world (get_args argv)) b w1 t1 eq_refl Hl e Hin)
      as (H0 & Hc).
    rewrite !saved_paths_app. apply in_or_app. right. apply in_or_app. left.
    apply Hc. apply Z.mod_divide; assumption.
  - exists (setup_events (get_args argv) save_dir_exists ++ t1).
    rewrite app_assoc. reflexivity.
Qed.




(** ** Names of the checkpoint files *)

Lemma string_length_append (s t : string) :
  String.length (s ++ t) = (String.length s + String.length t)%nat.
Proof. induction s as [|c s IH]; simpl; [reflexivity | rewrite IH; reflexivity]. Qed.

Lemma string_append_inv_head (s t1 t2 : string) :
  (s ++ t1 = s ++ t2)%string -> t1 = t2.
Proof.
  induction s as [|c s IH]; simpl; intros H; [exact H|].
  injection H as H. exact (IH H).
Qed.

Lemma string_append_inv_tail (t : string) : forall s1 s2 : string,
  (s1 ++ t = s2 ++ t)%string -> s1 = s2.
Proof.
  induction s1 as [|c s1 IH]; intros s2 H.
  - destruct s2 as [|c2 s2]; [reflexivity|].
    apply (f_equal String.length) in H.
    change ((String c2 s2 ++ t)%string) with (String c2 (s2 ++ t)) in H.
    cbn [append String.length] in H. rewrite string_length_append in H. lia.
  - destruct s2 as [|c2 s2].
    + apply (f_equal String.length) in H.
      cbn [append String.length] in H. rewrite string_length_append in H. lia.
    + simpl in H. injection H as -> H. f_equal. exact (IH _ H).
Qed.

Lemma py_str_of_Z_inj a b : py_str_of_Z a = py_str_of_Z b -> a = b.
Proof.
  unfold py_str_of_Z. intros H. apply DecimalZ.to_int_inj.
  assert (P : forall z, NilZero.int_of_string (NilZero.string_of_int (Z.to_int z)) =
                        Some (Z.to_int z)).
  { intros z. apply NilZero.isi; destruct z; simpl; try discriminate;
      intros E; injection E as E; exact (DecimalPos.Unsigned.to_uint_nonnil _ E). }
  apply (f_equal NilZero.int_of_string) in H. rewrite !P in H.
  injection H as H. exact H.
Qed.

(** X10: the periodic checkpoints of two different epochs have
    different file names, and none of them is the file name of the
    best-model checkpoint: a periodic checkpoint overwrites neither
    another one nor [model_best.pth]. *)
Theorem checkpoint_names_distinct dir e1 e2 :
  (checkpoint_path dir e1 = checkpoint_path dir e2 -> e1 = e2) /\
  best_path dir <> checkpoint_path dir e1.
Proof.
  split; [|apply best_path_not_checkpoint_path].
  unfold checkpoint_path. intros H.
  apply string_append_inv_head in H.
  apply string_append_inv_head in H.
  apply string_append_inv_tail in H.
  exact (py_str_of_Z_inj _ _ H).
Qed.

(** ** A validation loss that is not a number *)

Lemma ltb_nan_l (v b : float) : (v =? v)%float = false -> (v <? b)%float = false.
Proof.
  rewrite eqb_spec, ltb_spec. unfold SFeqb, SFltb, SFcompare.
  destruct (Prim2SF v) as [s|s| |s m e]; try destruct s; try discriminate;
    try reflexivity;
    rewrite Z.compare_refl, Pos.compare_cont_refl; discriminate.
Qed.

(** X11: an epoch whose mean validation loss is NaN never writes the
    best-model checkpoint, whatever the best loss so far, and leaves
    the best loss as it was. *)
Theorem nan_validation_loss_never_best train_loader val_loader epoch best w v :
  (v =? v)%float = false ->
  In (ELog (LogMeanLoss v))
    (trace (epoch_body train_loader val_loader epoch best w)) ->
  ~ In (save_dir (w_args w) ++ "/model_best.pth")%string
       (saved_paths (trace (epoch_body train_loader val_loader epoch best w))) /\
  (save_interval (w_args w) <> 0 ->
   result (epoch_body train_loader val_loader epoch best w) = Ok best).
Proof.
  intros Hnan Hv.
  assert (S := epoch_body_summary train_loader val_loader epoch best w).
  cbv zeta in S. apply In_mean_losses in Hv.
  destruct (mean_losses (trace (epoch_body train_loader val_loader epoch best w)))
    as [|v1 [|v2 l]]; [destruct Hv | | destruct S].
  destruct Hv as [->|[]]. destruct S as (_ & Hs & Hr).
  rewrite Hs, Hr, (ltb_nan_l v best Hnan). cbn [app]. split.
  - change (save_dir (w_args w) ++ "/model_best.pth")%string
      with (best_path (save_dir (w_args w))).
    destruct (save_interval (w_args w) =? 0); [intros []|].
    destruct (epoch mod save_interval (w_args w) =? 0); [|intros []].
    intros [H|[]]. symmetry in H. exact (best_path_not_checkpoint_path _ _ H).
  - intros H0. apply Z.eqb_neq in H0. rewrite H0. reflexivity.
Qed.

(** ** The argument parser *)

(** X12: the flags declared with [type=bool] are true for every
    non-empty text, the text ['False'] included, and false only for
    the empty text: no value on the command line other than the empty
    one switches [result_fig] off, and any other switches [transform]
    and [multi_gpu] on. *)
Theorem bool_flags_read_any_text_as_true argv s :
  let on := negb (s =? "")%string in
  result_fig (get_args (argv ++ [Opt_result_fig s])) = on /\
  transform (get_args (argv ++ [Opt_transform s])) = on /\
  multi_gpu (get_args (argv ++ [Opt_multi_gpu s])) = on.
Proof.
  cbv zeta. unfold get_args; cbn [result_fig transform multi_gpu].
  repeat split; (erewrite flag_value_last; [|reflexivity]);
    destruct s; reflexivity.
Qed.

(** ** Modes of the network *)

Lemma val_batch_events_no_switch t :
  Forall val_batch_event t -> no_grad_switches t = [].
Proof.
  intros H. apply extract_none. eapply Forall_impl; [|exact H].
  intros e He. destruct e; simpl in *; tauto.
Qed.

(** X13: however [val] ends, by a return or by an exception, it has
    entered and left [torch.no_grad()] exactly once and the autograd
    switch is as it was before the call; the model is left in
    evaluation mode, and the gradients, the optimizer state, the
    learning rate and the scheduler are untouched. *)
Theorem val_leaves_eval_mode dataloader epoch w :
  world (val dataloader epoch w) =
    {| w_args := set_device "cpu" (w_args w); w_params := w_params w;
       w_training := false; w_grads := w_grads w; w_opt := w_opt w;
       w_lr := w_lr w; w_sched := w_sched w;
       w_grad_enabled := w_grad_enabled w |} /\
  no_grad_switches (trace (val dataloader epoch w)) = [true; false].
Proof.
  split; [apply val_frame|].
  rewrite val_unfold. cbv zeta.
  destruct (keeps_for_enumerate _ _ _ dataloader
              (fun i b s => val_body_keeps (val_entry w) epoch (len dataloader) i b s
                              eq_refl eq_refl)
              0 None (0, 0, 0)%float (val_entry w) eq_refl) as [_ HE].
  apply val_batch_events_no_switch in HE.
  destruct (for_enumerate _ _ _ _ _ _) as [[[[[[tl tp] top] bi]|e] w1] t1];
    rewrite trace_run in HE;
    [destruct (len dataloader =? 0)|];
    rewrite trace_run; unfold no_grad_switches in *;
    rewrite !extract_app, HE; reflexivity.
Qed.

Lemma train_body_mode g epoch n i b tl :
  keeps (fun w => w_training w = true /\ w_grad_enabled w = g)
    (forward_in_training g) (train_body epoch n i b tl).
Proof.
  destruct b as [[inp gt] id]. unfold train_body.
  apply keeps_bind_args; intros w0 _.
  unfold tensor_to, call_model, loss_func, optimizer_zero_grad,
    loss_backward, optimizer_step, logger_info.
  apply keeps_bind.
  { destruct (py_truthy (patch_size (w_args w0))); repeat keeps_step; exact I. }
  intros [inp' gt'].
  repeat keeps_step; try exact I;
    try (match goal with H : _ /\ _ |- _ => exact H end).
  - destruct (adam_step _ _ _ _). assumption.
  - match goal with |- keeps _ _ (if ?c then _ else _) => destruct c end;
      repeat keeps_step; exact I.
Qed.

Lemma train_mode dataloader epoch w :
  w_training (world (train dataloader epoch w)) = true /\
  Forall (forward_in_training (w_grad_enabled w))
    (trace (train dataloader epoch w)).
Proof.
  rewrite train_unfold.
  destruct (keeps_for_enumerate _ _ _ dataloader
              (train_body_mode (w_grad_enabled w) epoch (len dataloader))
              0 None 0%float (train_entry w)) as [[HT _] HF].
  { split; reflexivity. }
  destruct (for_enumerate _ _ _ _ _ _) as [[[[tl bi]|e] w1] t1];
    rewrite ?world_run, ?trace_run in *.
  - destruct bi as [i|]; [destruct (i + 1 =? 0)|];
      rewrite world_run, trace_run; (split; [exact HT|]);
      (apply Forall_cons; [exact I|]); (apply Forall_app; split; [exact HF|]);
      repeat constructor.
  - split; [exact HT|]. apply Forall_cons; [exact I | exact HF].
Qed.

(** X14: [train] runs the network only in training mode, with the
    autograd switch as it found it, and leaves the model in training
    mode; it neither changes the learning rate, the scheduler or the
    autograd switch, nor writes a checkpoint, nor steps the scheduler,
    however it ends. *)
Theorem train_effects dataloader epoch w :
  let run := train dataloader epoch w in
  w_training (world run) = true /\
  w_grad_enabled (world run) = w_grad_enabled w /\
  w_lr (world run) = w_lr w /\
  w_sched (world run) = w_sched w /\
  saved_paths (trace run) = [] /\
  sched_metrics (trace run) = [] /\
  (forall training grad,
     In (EForward training grad) (trace run) ->
     training = true /\ grad = w_grad_enabled w).
Proof.
  cbv zeta.
  destruct (train_frame dataloader epoch w) as [(_ & HL & HS & HG) HE].
  destruct (train_trace_silent _ _ HE) as (_ & S1 & _ & P1).
  assert (M := train_mode dataloader epoch w).
  destruct M as [HT HF]. rewrite Forall_forall in HF.
  repeat split; try assumption; apply (HF _ H).
Qed.

Lemma train_event_mode_consistent g e :
  forward_in_training g e -> g = true -> forward_mode_consistent e.
Proof. destruct e; simpl; try tauto. intros [-> ->] ->. reflexivity. Qed.

Lemma val_event_mode_consistent e : val_event e -> forward_mode_consistent e.
Proof. destruct e as [| | | | | | | | | | | | [|] [|] | | | | | | |]; simpl; tauto. Qed.

(** X15: whenever [main] runs the network, either the model is in
    training mode and gradients are tracked, or it is in evaluation
    mode and they are not: the [training] flag and the autograd switch
    always agree. *)
Theorem main_forward_modes argv save_dir_exists train_loader val_loader training grad :
  In (EForward training grad)
    (trace (main argv save_dir_exists train_loader val_loader)) ->
  training = grad.
Proof.
  assert (L : forall epochs best w, w_grad_enabled w = true ->
            Forall forward_mode_consistent
              (trace (epoch_loop train_loader val_loader epochs best w))).
  { intros epochs best w Hw.
    apply (epoch_loop_keeps (fun w => w_grad_enabled w = true)
             forward_mode_consistent); [|exact Hw].
    intros epoch b. apply epoch_body_keeps; try (intros; exact I);
      try (intros; assumption).
    - intros dl ep w0 H0.
      destruct (train_frame dl ep w0) as [(_ & _ & _ & HG) _].
      destruct (train_mode dl ep w0) as [_ HF].
      split; [rewrite HG; exact H0|].
      eapply Forall_impl; [|exact HF]. intros e He.
      exact (train_event_mode_consistent _ e He H0).
    - intros dl ep w0 H0.
      destruct (val_frame dl ep w0) as (HW & HE & _).
      split; [rewrite HW; exact H0|].
      eapply Forall_impl; [apply val_event_mode_consistent | exact HE]. }
  intros Hin.
  assert (F : Forall forward_mode_consistent
                (trace (main argv save_dir_exists train_loader val_loader))).
  { apply main_trace_forall; [|apply L; reflexivity | exact I].
    unfold setup_events.
    destruct save_dir_exists, (pretrained (get_args argv) =? "")%string;
      repeat constructor. }
  rewrite Forall_forall in F. exact (F _ Hin).
Qed.

(** ** The log of a training epoch *)

Lemma train_body_logs epoch n i b tl w :
  print_iters (w_args w) <> 0 -> i + 1 <> 0 ->
  train_reshapes (patch_size (w_args w)) b = true ->
  exists L w' t,
    train_body epoch n i b tl w = (Ok (tl + item L)%float, w', t) /\
    loss_values t = [L] /\
    w_args w' = w_args w /\ w_lr w' = w_lr w /\
    train_logs t =
      if i mod print_iters (w_args w) =? 0
      then [(epoch, i + 1, n, item L,
             ((tl + item L) / float_of_Z (i + 1))%float, w_lr w)]
      else [].
Proof.
  intros Hp Hi Hv. destruct b as [[inp gt] id].
  apply Z.eqb_neq in Hp, Hi.
  unfold train_body.
  unfold the_args. unfold bind at 1 2. cbn [get ret fst snd app].
  unfold bind at 1. rewrite (train_reshape_run _ _ _ _ w Hv).
  unfold tensor_to, call_model, loss_func, optimizer_zero_grad, loss_backward,
    optimizer_step, py_mod, py_truediv, logger_info.
  cbn. rewrite Hp, Hi.
  destruct (patch_size (w_args w) =? 0) eqn:Hps; cbn;
    destruct (adam_step _ _ _ _) as [o p] eqn:Ha;
    destruct (i mod print_iters (w_args w) =? 0); cbn; rewrite ?Ha; cbn;
    eexists _, _, _; repeat split; reflexivity.
Qed.

Lemma train_body_zero_no_log epoch n i b tl w :
  print_iters (w_args w) = 0 ->
  exists x w' t,
    train_body epoch n i b tl w = (Raise x, w', t) /\
    train_logs t = [].
Proof.
  intros Hp.
  destruct (train_reshapes (patch_size (w_args w)) b) eqn:Hv.
  - destruct b as [[inp gt] id].
    unfold train_body.
    unfold the_args. unfold bind at 1 2. cbn [get ret fst snd app].
    unfold bind at 1. rewrite (train_reshape_run _ _ _ _ w Hv).
    unfold tensor_to, call_model, loss_func, optimizer_zero_grad, loss_backward,
      optimizer_step, py_mod, py_truediv, logger_info.
    cbn. rewrite Hp.
    destruct (patch_size (w_args w) =? 0) eqn:Hps; cbn;
      destruct (adam_step _ _ _ _) as [o p] eqn:Ha; cbn;
      eexists _, _, _; split; reflexivity.
  - destruct (train_body_bad_reshape epoch n i b tl w Hv) as (t & Hrun & Ht).
    exists RuntimeError, w, t. split; [exact Hrun | apply (views_silent _ _ Ht)].
Qed.

Lemma train_log_ok_shift epoch n every rate i tl x losses rec :
  0 <= i ->
  train_log_ok epoch n every rate (i + 1) (tl + x)%float losses rec ->
  train_log_ok epoch n every rate i tl (x :: losses) rec.
Proof.
  destruct rec as [[[[[e k] n'] l] m] r]. unfold train_log_ok.
  intros Hi (He & Hn & Hk & Hm & Hr & Hl & Hmean).
  rewrite length_cons, Nat2Z.inj_succ.
  repeat split; try assumption; try lia.
  - replace (Z.to_nat (k - 1 - i)) with (S (Z.to_nat (k - 1 - (i + 1)))) by lia.
    exact Hl.
  - replace (Z.to_nat (k - i)) with (S (Z.to_nat (k - (i + 1)))) by lia.
    exact Hmean.
Qed.

Lemma train_loop_logs epoch n bs : forall i last tl w,
  0 <= i -> print_iters (w_args w) <> 0 ->
  let run := for_enumerate (train_body epoch n) i last bs tl w in
  (List.length (loss_values (trace run)) <= List.length bs)%nat /\
  Forall (train_log_ok epoch n (print_iters (w_args w)) (w_lr w) i tl
            (map item (loss_values (trace run))))
    (train_logs (trace run)) /\
  (forallb (train_reshapes (patch_size (w_args w))) bs = true ->
   (exists s, result run = Ok s) /\
   List.length (loss_values (trace run)) = List.length bs /\
   map (fun rec => snd (fst (fst (fst (fst rec))))) (train_logs (trace run)) =
     filter (fun k => (k - 1) mod print_iters (w_args w) =? 0)
       (py_range (i + 1) (i + 1 + len bs))).
Proof.
  induction bs as [|b bs IH]; intros i last tl w Hi Hp; cbv zeta.
  - simpl for_enumerate. unfold ret. rewrite result_run, trace_run.
    rewrite py_range_nil by (unfold len; simpl; lia).
    split; [simpl; lia|]. split; [constructor|].
    intros _. split; [eauto|]. split; reflexivity.
  - destruct (train_reshapes (patch_size (w_args w)) b) eqn:Hv.
    2:{ destruct (train_body_bad_reshape epoch n i b tl w Hv) as (t & Hrun & Ht).
        destruct (views_silent _ _ Ht) as (HL & HT & _).
        simpl for_enumerate. rewrite (bind_raise _ _ _ _ _ _ Hrun), trace_run.
        rewrite HL, HT. split; [simpl; lia|]. split; [constructor|].
        cbn [forallb]. rewrite Hv. discriminate. }
    destruct (train_body_logs epoch n i b tl w Hp ltac:(lia) Hv)
      as (L & w1 & t1 & Hrun & HL & HA & HR & Hlog).
    specialize (IH (i + 1) (Some i) (tl + item L)%float w1 ltac:(lia)
                  ltac:(rewrite HA; exact Hp)).
    cbv zeta in IH. rewrite HA, HR in IH.
    simpl for_enumerate. rewrite (bind_ok _ _ _ _ _ _ Hrun).
    set (rest := for_enumerate (train_body epoch n) (i + 1) (Some i) bs
                   (tl + item L)%float w1) in *.
    destruct IH as (Hlen & Hok & Hall).
    rewrite result_run, trace_run.
    unfold train_logs in *. rewrite loss_values_app, extract_app, HL, Hlog.
    split; [rewrite length_app; simpl; lia|].
    cbn [app map].
    assert (Hshift : Forall (train_log_ok epoch n (print_iters (w_args w)) (w_lr w) i tl
                               (item L :: map item (loss_values (trace rest))))
                       (extract
                          (fun e => match e with
                                    | ELog (LogTrainBatch e0 k n0 l m r) =>
                                        Some (e0, k, n0, l, m, r)
                                    | _ => None
                                    end) (trace rest))).
    { eapply Forall_impl; [|exact Hok]. intros rec.
      apply train_log_ok_shift. exact Hi. }
    split.
    + destruct (i mod print_iters (w_args w) =? 0) eqn:Hmod; [|exact Hshift].
      apply Forall_cons; [|exact Hshift].
      apply Z.eqb_eq in Hmod. unfold train_log_ok.
      rewrite length_cons, Nat2Z.inj_succ.
      replace (i + 1 - 1 - i) with 0 by lia.
      replace (i + 1 - i) with 1 by lia.
      replace (i + 1 - 1) with i by lia.
      repeat split; try lia; try reflexivity.
    + cbn [forallb]. rewrite Hv. cbn [andb]. intros Hvs.
      destruct (Hall Hvs) as (Hs & Hlen' & Hk).
      split; [exact Hs|].
      split; [cbn [List.length]; f_equal; exact Hlen'|].
      rewrite py_range_cons by (unfold len; rewrite length_cons, Nat2Z.inj_succ; lia).
      cbn [filter]. replace (i + 1 - 1) with i by lia.
      replace (i + 1 + len (b :: bs)) with (i + 1 + 1 + len bs)
        by (unfold len; rewrite length_cons, Nat2Z.inj_succ; lia).
      destruct (i mod print_iters (w_args w) =? 0);
        [cbn [app map fst snd]; f_equal; exact Hk | exact Hk].
Qed.

Lemma train_loop_zero_no_log epoch n b bs i last tl w :
  print_iters (w_args w) = 0 ->
  train_logs (trace (for_enumerate (train_body epoch n) i last (b :: bs) tl w)) = [].
Proof.
  intros Hp.
  destruct (train_body_zero_no_log epoch n i b tl w Hp) as (x & w1 & t1 & Hrun & HL).
  simpl for_enumerate. rewrite (bind_raise _ _ _ _ _ _ Hrun), trace_run. exact HL.
Qed.

Lemma train_logs_of_train dataloader epoch w :
  train_logs (trace (train dataloader epoch w)) =
  train_logs
    (trace (for_enumerate (train_body epoch (len dataloader)) 0 None dataloader
              0%float (train_entry w))) /\
  loss_values (trace (train dataloader epoch w)) =
  loss_values
    (trace (for_enumerate (train_body epoch (len dataloader)) 0 None dataloader
              0%float (train_entry w))).
Proof.
  rewrite train_unfold.
  destruct (for_enumerate _ _ _ _ _ _) as [[[[tl bi]|e] w1] t1]; rewrite ?trace_run.
  - assert (H : forall r : res float,
              train_logs (trace (r, w1, EModelTrain :: t1 ++ [EPrint ""])) = train_logs t1 /\
              loss_values (trace (r, w1, EModelTrain :: t1 ++ [EPrint ""])) =
                loss_values t1).
    { intros r. rewrite trace_run.
      change (EModelTrain :: t1 ++ [EPrint ""]) with ([EModelTrain] ++ t1 ++ [EPrint ""]).
      unfold train_logs, loss_values. rewrite !extract_app. cbn [extract app].
      rewrite !app_nil_r. split; reflexivity. }
    destruct bi as [i|]; [destruct (i + 1 =? 0)|]; apply H.
  - split; reflexivity.
Qed.

(** X16: every record that [train] logs for a batch carries the epoch,
    the 1-based number [k] of the batch, the number of batches, the
    loss of the [k]-th batch, the mean of the losses of the first [k]
    batches and the learning rate of the optimizer; it is logged only
    for a batch whose 0-based index is a multiple of a non-zero
    [print_iters]. *)
Theorem train_log_records dataloader epoch w e k n l m r :
  In (ELog (LogTrainBatch e k n l m r)) (trace (train dataloader epoch w)) ->
  let losses := map item (loss_values (trace (train dataloader epoch w))) in
  e = epoch /\ n = len dataloader /\ 1 <= k <= len dataloader /\
  print_iters (w_args w) <> 0 /\ (k - 1) mod print_iters (w_args w) = 0 /\
  r = w_lr w /\
  nth_error losses (Z.to_nat (k - 1)) = Some l /\
  m = (fsum (firstn (Z.to_nat k) losses) / float_of_Z k)%float.
Proof.
  intros Hin. cbv zeta.
  assert (Hrec : In (e, k, n, l, m, r) (train_logs (trace (train dataloader epoch w)))).
  { apply extract_In. eexists. split; [exact Hin | reflexivity]. }
  destruct (train_logs_of_train dataloader epoch w) as (E1 & E2).
  rewrite E1 in Hrec. rewrite E2. clear E1 E2 Hin.
  destruct (Z.eq_dec (print_iters (w_args w)) 0) as [Hp|Hp].
  - destruct dataloader as [|b bs]; [destruct Hrec|].
    rewrite (train_loop_zero_no_log epoch _ b bs 0 None 0%float (train_entry w) Hp)
      in Hrec. destruct Hrec.
  - destruct (train_loop_logs epoch (len dataloader) dataloader 0 None 0%float
                (train_entry w) ltac:(lia) Hp) as (Hlen & Hok & _).
    rewrite Forall_forall in Hok. specialize (Hok _ Hrec).
    unfold train_log_ok in Hok. cbn [train_entry w_args w_lr with_training with_args
      set_device print_iters] in Hok.
    destruct Hok as (He & Hn & Hk & Hm & Hr & Hl & Hmean).
    rewrite length_map in Hk.
    replace (k - 1 - 0) with (k - 1) in Hl by lia.
    replace (k - 0) with k in Hmean by lia.
    unfold len. repeat split; try assumption; lia.
Qed.

(** X17: when [print_iters] is non-zero and every batch can be
    reshaped, [train] logs one record for each batch whose 0-based
    index is a multiple of [print_iters], in order, and for no other
    batch: the batch numbers logged are the numbers [k] of
    [1 .. len(dataloader)] with [(k - 1) % print_iters = 0]. *)
Theorem train_logged_batches dataloader epoch w :
  print_iters (w_args w) <> 0 ->
  forallb (train_reshapes (patch_size (w_args w))) dataloader = true ->
  map (fun rec => snd (fst (fst (fst (fst rec)))))
    (train_logs (trace (train dataloader epoch w))) =
  filter (fun k => (k - 1) mod print_iters (w_args w) =? 0)
    (py_range 1 (1 + len dataloader)).
Proof.
  intros Hp Hv.
  destruct (train_logs_of_train dataloader epoch w) as (E1 & _). rewrite E1.
  destruct (train_loop_logs epoch (len dataloader) dataloader 0 None 0%float
              (train_entry w) ltac:(lia) Hp) as (_ & _ & Hall).
  exact (proj2 (proj2 (Hall Hv))).
Qed.

(** ** The log of a validation epoch *)

Lemma val_body_logs epoch n i b tl tp top w :
  print_iters (w_args w) <> 0 -> i + 1 <> 0 -> w_training w = false ->
  reshapes (patch_size (w_args w)) b = true ->
  let ps := patch_size (w_args w) in
  let l := item (val_loss ps (w_params w) b) in
  let p := psnr_of (val_loss ps (w_params w) b) in
  let op := psnr_of (val_org_mse ps b) in
  exists t,
    val_body epoch n i b (tl, tp, top) w =
      (Ok (tl + l, tp + p, top + op)%float, w, t) /\
    val_logs t =
      if i mod print_iters (w_args w) =? 0
      then [LogValBatch epoch (i + 1) n l ((tl + l) / float_of_Z (i + 1))%float
              p ((tp + p) / float_of_Z (i + 1))%float
              op ((top + op) / float_of_Z (i + 1))%float]
      else [].
Proof.
  intros Hp Hi Ht Hv. cbv zeta. destruct b as [[inp gt] id].
  apply Z.eqb_neq in Hp, Hi.
  unfold reshapes in Hv. apply andb_prop in Hv. destruct Hv as [Hv1 Hv2].
  unfold val_body, val_loss, val_org_mse, psnr_of. unfold_calls.
  unfold bind at 1. cbn -[float_of_Z]. rewrite Hv1. cbn -[float_of_Z].
  rewrite Hv2. cbn -[float_of_Z]. rewrite Hp, Hi, Ht. cbn -[float_of_Z].
  destruct (i mod print_iters (w_args w) =? 0); cbn -[float_of_Z];
    eexists; split; reflexivity.
Qed.

Lemma val_body_zero_no_log epoch n i b totals w :
  print_iters (w_args w) = 0 ->
  exists x t, val_body epoch n i b totals w = (Raise x, w, t) /\
              val_logs t = [].
Proof.
  intros Hp. destruct (reshapes (patch_size (w_args w)) b) eqn:Hv.
  - destruct (val_body_zero_print_iters epoch n i b totals w Hp Hv) as (t & Hrun & Ht).
    exists ZeroDivisionError, t. split; assumption.
  - destruct (val_body_bad_reshape epoch n i b totals w Hv) as (t & Hrun & Ht).
    exists RuntimeError, t. split; [exact Hrun | apply (views_silent _ _ Ht)].
Qed.

Lemma val_log_ok_shift epoch n every ps params i tl tp top b bs rec :
  0 <= i ->
  val_log_ok epoch n every ps params (i + 1)
    (tl + item (val_loss ps params b))%float
    (tp + psnr_of (val_loss ps params b))%float
    (top + psnr_of (val_org_mse ps b))%float bs rec ->
  val_log_ok epoch n every ps params i tl tp top (b :: bs) rec.
Proof.
  destruct rec; try (intros _ H; exact (False_ind _ H)). unfold val_log_ok, len.
  intros Hi (He & Hn & Hk & Hm & (b0 & Hb & Hl) & H1 & H2 & H3).
  rewrite length_cons, Nat2Z.inj_succ.
  replace (Z.to_nat (batch - 1 - i)) with (S (Z.to_nat (batch - 1 - (i + 1)))) by lia.
  replace (Z.to_nat (batch - i)) with (S (Z.to_nat (batch - (i + 1)))) by lia.
  cbn [nth_error firstn map fold_left].
  repeat split; try assumption; try lia.
  exists b0. split; assumption.
Qed.

Lemma val_loop_logs epoch n bs : forall i last tl tp top w,
  0 <= i -> print_iters (w_args w) <> 0 -> w_training w = false ->
  Forall (val_log_ok epoch n (print_iters (w_args w)) (patch_size (w_args w))
            (w_params w) i tl tp top bs)
    (val_logs (trace (for_enumerate (val_body epoch n) i last bs (tl, tp, top) w))).
Proof.
  induction bs as [|b bs IH]; intros i last tl tp top w Hi Hp Ht.
  - simpl. constructor.
  - destruct (reshapes (patch_size (w_args w)) b) eqn:Hv.
    2:{ destruct (val_body_bad_reshape epoch n i b (tl, tp, top) w Hv)
          as (t & Hrun & Hviews).
        simpl for_enumerate. rewrite (bind_raise _ _ _ _ _ _ Hrun), trace_run.
        rewrite (proj2 (proj2 (views_silent _ _ Hviews))). constructor. }
    destruct (val_body_logs epoch n i b tl tp top w Hp ltac:(lia) Ht Hv)
      as (t1 & Hrun & Hlog).
    specialize (IH (i + 1) (Some i)
                  (tl + item (val_loss (patch_size (w_args w)) (w_params w) b))%float
                  (tp + psnr_of (val_loss (patch_size (w_args w)) (w_params w) b))%float
                  (top + psnr_of (val_org_mse (patch_size (w_args w)) b))%float
                  w ltac:(lia) Hp Ht).
    simpl for_enumerate. rewrite (bind_ok _ _ _ _ _ _ Hrun), trace_run.
    unfold val_logs in *. rewrite extract_app, Hlog.
    apply Forall_app. split.
    + destruct (i mod print_iters (w_args w) =? 0) eqn:Hmod; [|constructor].
      apply Z.eqb_eq in Hmod. constructor; [|constructor].
      unfold val_log_ok, len. rewrite length_cons, Nat2Z.inj_succ.
      replace (i + 1 - 1 - i) with 0 by lia.
      replace (i + 1 - i) with 1 by lia.
      replace (i + 1 - 1) with i by lia.
      cbn [Z.to_nat Pos.to_nat Pos.iter_op Nat.add nth_error firstn map fold_left].
      repeat split; try lia; try reflexivity.
      exists b. repeat split; reflexivity.
    + eapply Forall_impl; [|exact IH]. intros rec.
      apply val_log_ok_shift. exact Hi.
Qed.

Lemma val_logs_of_val dataloader epoch w :
  val_logs (trace (val dataloader epoch w)) =
  val_logs
    (trace (for_enumerate (val_body epoch (len dataloader)) 0 None dataloader
              (0, 0, 0)%float (val_entry w))).
Proof.
  rewrite val_unfold. cbv zeta.
  destruct (for_enumerate _ _ _ _ _ _) as [[[[[[tl tp] top] bi]|e] w1] t1];
    [destruct (len dataloader =? 0)|];
    rewrite !trace_run; unfold val_logs; rewrite !extract_app; cbn [extract app];
    rewrite ?app_nil_r; reflexivity.
Qed.

(** X18: every record that [val] logs for a batch carries the epoch,
    the 1-based number [k] of the batch, the number of batches, the
    MSE loss of the [k]-th batch with its PSNR [10 * log10(1 / mse)],
    the PSNR of the raw noisy input of that batch, and the means of
    the three over the first [k] batches; it is logged only for a
    batch whose 0-based index is a multiple of a non-zero
    [print_iters]. *)
Theorem val_log_records dataloader epoch w e k n l m p mp op mop :
  In (ELog (LogValBatch e k n l m p mp op mop)) (trace (val dataloader epoch w)) ->
  let ps := patch_size (w_args w) in
  let first_k := firstn (Z.to_nat k) dataloader in
  e = epoch /\ n = len dataloader /\ 1 <= k <= len dataloader /\
  print_iters (w_args w) <> 0 /\ (k - 1) mod print_iters (w_args w) = 0 /\
  (exists b, nth_error dataloader (Z.to_nat (k - 1)) = Some b /\
             l = item (val_loss ps (w_params w) b) /\
             p = (float_of_Z 10 * item (log10 (rtruediv 1 (val_loss ps (w_params w) b))))%float /\
             op = (float_of_Z 10 * item (log10 (rtruediv 1 (val_org_mse ps b))))%float) /\
  m = (fsum (map (fun b => item (val_loss ps (w_params w) b)) first_k) /
       float_of_Z k)%float /\
  mp = (fsum (map (fun b => psnr_of (val_loss ps (w_params w) b)) first_k) /
        float_of_Z k)%float /\
  mop = (fsum (map (fun b => psnr_of (val_org_mse ps b)) first_k) /
         float_of_Z k)%float.
Proof.
  intros Hin. cbv zeta.
  assert (Hrec : In (LogValBatch e k n l m p mp op mop)
                   (val_logs (trace (val dataloader epoch w)))).
  { apply extract_In. eexists. split; [exact Hin | reflexivity]. }
  rewrite val_logs_of_val in Hrec. clear Hin.
  destruct (Z.eq_dec (print_iters (w_args w)) 0) as [Hp|Hp].
  - destruct dataloader as [|b bs]; [destruct Hrec|].
    simpl for_enumerate in Hrec.
    destruct (val_body_zero_no_log epoch (len (b :: bs)) 0 b (0, 0, 0)%float
                (val_entry w) Hp) as (x & t1 & Hrun & Hlog).
    rewrite (bind_raise _ _ _ _ _ _ Hrun), trace_run, Hlog in Hrec. destruct Hrec.
  - assert (Hok := val_loop_logs epoch (len dataloader) dataloader 0 None
                     0%float 0%float 0%float (val_entry w) ltac:(lia) Hp eq_refl).
    rewrite Forall_forall in Hok. specialize (Hok _ Hrec).
    unfold val_log_ok in Hok.
    cbn [val_entry w_args w_params with_grad_enabled with_training with_args
         set_device print_iters patch_size] in Hok.
    destruct Hok as (He & Hn & Hk & Hm & (b & Hb & Hl & Hps & Hop) & H1 & H2 & H3).
    replace (k - 1 - 0) with (k - 1) in Hb by lia.
    replace (k - 0) with k in H1, H2, H3 by lia.
    repeat split; try assumption; try lia.
    exists b. repeat split; assumption.
Qed.

(** ** Calls that the framework rejects *)

Lemma reshapes_nonpositive ps b : ps <= 0 -> reshapes ps b = false.
Proof.
  intros Hps. destruct b as [[inp gt] id]. unfold reshapes.
  destruct (view_ok ps inp) eqn:Hv; [|reflexivity].
  apply view_ok_positive in Hv. lia.
Qed.

Lemma train_reshapes_negative ps b : ps < 0 -> train_reshapes ps b = false.
Proof.
  intros Hps. unfold train_reshapes, py_truthy.
  destruct (ps =? 0) eqn:H0; [apply Z.eqb_eq in H0; lia|].
  apply reshapes_nonpositive. lia.
Qed.

(** X19: a patch size that is not positive makes the first reshape of
    [val] raise a [RuntimeError] on every non-empty dataloader, before
    any forward pass or loss; so does a negative patch size in
    [train], which leaves the parameters as they were ([train] makes no
    reshape when the patch size is zero). *)
Theorem nonpositive_patch_size_raises dataloader epoch w :
  dataloader <> [] ->
  (patch_size (w_args w) <= 0 ->
   result (val dataloader epoch w) = Raise RuntimeError /\
   loss_values (trace (val dataloader epoch w)) = []) /\
  (patch_size (w_args w) < 0 ->
   result (train dataloader epoch w) = Raise RuntimeError /\
   loss_values (trace (train dataloader epoch w)) = [] /\
   w_params (world (train dataloader epoch w)) = w_params w).
Proof.
  intros Hne. destruct dataloader as [|b bs]; [congruence|]. split; intros Hps.
  - rewrite val_unfold. cbv zeta. simpl for_enumerate.
    destruct (val_body_bad_reshape epoch (len (b :: bs)) 0 b (0, 0, 0)%float
                (val_entry w) (reshapes_nonpositive _ b Hps)) as (t & Hrun & Ht).
    rewrite (bind_raise _ _ _ _ _ _ Hrun), result_run, trace_run.
    split; [reflexivity|].
    rewrite !loss_values_app, (proj1 (views_silent _ _ Ht)). reflexivity.
  - rewrite train_unfold. simpl for_enumerate.
    destruct (train_body_bad_reshape epoch (len (b :: bs)) 0 b 0%float
                (train_entry w) (train_reshapes_negative _ b Hps)) as (t & Hrun & Ht).
    rewrite (bind_raise _ _ _ _ _ _ Hrun), result_run, trace_run, world_run.
    split; [reflexivity|]. split; [|reflexivity].
    change (EModelTrain :: t) with ([EModelTrain] ++ t).
    rewrite loss_values_app, (proj1 (views_silent _ _ Ht)). reflexivity.
Qed.


(** ** What the flags control *)

Lemma get_args_fold_from argv : forall a0 : Args,
  {| mode := flag_value (fun o => match o with Opt_mode s => Some s | _ => None end)
               (mode a0) argv;
     pretrained :=
       flag_value (fun o => match o with Opt_pretrained s => Some s | _ => None end)
         (pretrained a0) argv;
     train_path :=
       flag_value (fun o => match o with Opt_train_path s => Some s | _ => None end)
         (train_path a0) argv;
     val_path :=
       flag_value (fun o => match o with Opt_val_path s => Some s | _ => None end)
         (val_path a0) argv;
     save_dir :=
       flag_value (fun o => match o with Opt_save_dir s => Some s | _ => None end)
         (save_dir a0) argv;
     result_fig :=
       flag_value
         (fun o => match o with Opt_result_fig s => Some (py_bool_of_str s) | _ => None end)
         (result_fig a0) argv;
     transform :=
       flag_value
         (fun o => match o with Opt_transform s => Some (py_bool_of_str s) | _ => None end)
         (transform a0) argv;
     patch_n := flag_value (fun o => match o with Opt_patch_n z => Some z | _ => None end)
                  (patch_n a0) argv;
     patch_size :=
       flag_value (fun o => match o with Opt_patch_size z => Some z | _ => None end)
         (patch_size a0) argv;
     batch_size :=
       flag_value (fun o => match o with Opt_batch_size z => Some z | _ => None end)
         (batch_size a0) argv;
     num_epochs :=
       flag_value (fun o => match o with Opt_num_epochs z => Some z | _ => None end)
         (num_epochs a0) argv;
     print_iters :=
       flag_value (fun o => match o with Opt_print_iters z => Some z | _ => None end)
         (print_iters a0) argv;
     decay_iters :=
       flag_value (fun o => match o with Opt_decay_iters z => Some z | _ => None end)
         (decay_iters a0) argv;
     save_interval :=
       flag_value (fun o => match o with Opt_save_interval z => Some z | _ => None end)
         (save_interval a0) argv;
     test_interval :=
       flag_value (fun o => match o with Opt_test_interval z => Some z | _ => None end)
         (test_interval a0) argv;
     lr := flag_value (fun o => match o with Opt_lr x => Some x | _ => None end)
             (lr a0) argv;
     device := flag_value (fun o => match o with Opt_device s => Some s | _ => None end)
                 (device a0) argv;
     num_workers :=
       flag_value (fun o => match o with Opt_num_workers z => Some z | _ => None end)
         (num_workers a0) argv;
     multi_gpu :=
       flag_value
         (fun o => match o with Opt_multi_gpu s => Some (py_bool_of_str s) | _ => None end)
         (multi_gpu a0) argv |} =
  fold_left (fun a o => set_flag o a) argv a0.
Proof.
  induction argv as [|o argv IH]; intros a0.
  - destruct a0. reflexivity.
  - cbn [fold_left]. rewrite <- IH. destruct o; reflexivity.
Qed.

Lemma get_args_fold argv :
  get_args argv = fold_left (fun a o => set_flag o a) argv default_args.
Proof. rewrite <- get_args_fold_from. reflexivity. Qed.

(** ** Items of the configuration that are never read *)

Lemma read_items_fields a a' :
  read_items a = read_items a' ->
  pretrained a' = pretrained a /\ train_path a' = train_path a /\
  val_path a' = val_path a /\ save_dir a' = save_dir a /\
  patch_n a' = patch_n a /\ patch_size a' = patch_size a /\
  num_epochs a' = num_epochs a /\ print_iters a' = print_iters a /\
  save_interval a' = save_interval a /\ lr a' = lr a /\
  num_workers a' = num_workers a.
Proof.
  intros H. symmetry in H.
  split; [exact (f_equal pretrained H)|].
  split; [exact (f_equal train_path H)|].
  split; [exact (f_equal val_path H)|].
  split; [exact (f_equal save_dir H)|].
  split; [exact (f_equal patch_n H)|].
  split; [exact (f_equal patch_size H)|].
  split; [exact (f_equal num_epochs H)|].
  split; [exact (f_equal print_iters H)|].
  split; [exact (f_equal save_interval H)|].
  split; [exact (f_equal lr H) | exact (f_equal num_workers H)].
Qed.

Lemma same_read_fields w w' :
  same_read w w' ->
  read_items (w_args w) = read_items (w_args w') /\
  w_params w' = w_params w /\ w_training w' = w_training w /\
  w_grads w' = w_grads w /\ w_opt w' = w_opt w /\ w_lr w' = w_lr w /\
  w_sched w' = w_sched w /\ w_grad_enabled w' = w_grad_enabled w.
Proof.
  intros H. unfold same_read in H.
  split; [exact (f_equal w_args H)|]. symmetry in H.
  split; [exact (f_equal w_params H)|].
  split; [exact (f_equal w_training H)|].
  split; [exact (f_equal w_grads H)|].
  split; [exact (f_equal w_opt H)|].
  split; [exact (f_equal w_lr H)|].
  split; [exact (f_equal w_sched H) | exact (f_equal w_grad_enabled H)].
Qed.

Lemma same_read_intro w w' :
  read_items (w_args w) = read_items (w_args w') ->
  w_params w = w_params w' -> w_training w = w_training w' ->
  w_grads w = w_grads w' -> w_opt w = w_opt w' -> w_lr w = w_lr w' ->
  w_sched w = w_sched w' -> w_grad_enabled w = w_grad_enabled w' ->
  same_read w w'.
Proof.
  destruct w, w'. unfold same_read, blank_world, with_args.
  cbn [w_args w_params w_training w_grads w_opt w_lr w_sched w_grad_enabled].
  intros -> -> -> -> -> -> -> ->. reflexivity.
Qed.

Lemma same_device_same_read w w' : same_device w w' -> same_read w w'.
Proof. intros [H _]. exact H. Qed.

Lemma same_read_refl w : same_read w w.
Proof. reflexivity. Qed.

(** Bringing the fields of the second world of a related pair to those
    of the first. *)
Ltac align H :=
  let E := fresh "E" in
  first
    [ pose proof (proj2 H) as E; apply proj1 in H
    | idtac ];
  let F := fresh "F" in
  pose proof (same_read_fields _ _ H) as F;
  let A := fresh "A" in
  destruct F as (A & ?F1 & ?F2 & ?F3 & ?F4 & ?F5 & ?F6 & ?F7);
  let G := fresh "G" in
  pose proof (read_items_fields _ _ A) as G;
  destruct G as (?G1 & ?G2 & ?G3 & ?G4 & ?G5 & ?G6 & ?G7 & ?G8 & ?G9 & ?G10 & ?G11).

Ltac same_tac :=
  unfold same_device; unfold with_args, with_training, with_grads, with_opt_params,
    with_lr, with_sched, with_grad_enabled;
  cbn [w_args w_params w_training w_grads w_opt w_lr w_sched w_grad_enabled
       device set_device];
  try split; try (apply same_read_intro;
    cbn [w_args w_params w_training w_grads w_opt w_lr w_sched w_grad_enabled]);
  try congruence; try reflexivity.

(** *** Simulation of the monad's operations *)

Lemma sim_ret {A} (R : World -> World -> Prop) (a : A) : sim R R (ret a) (ret a).
Proof. intros w w' H. repeat split. exact H. Qed.

Lemma sim_raise {A} (R : World -> World -> Prop) e : sim R R (@raise _ A e) (raise e).
Proof. intros w w' H. repeat split. exact H. Qed.

Lemma sim_emit (R : World -> World -> Prop) e e' :
  blank_event e = blank_event e' -> sim R R (emit e) (emit e').
Proof. intros He w w' H. split; [reflexivity|]. split; [exact H|]. simpl. rewrite He. reflexivity. Qed.

Lemma sim_modify (R R' : World -> World -> Prop) f f' :
  (forall w w', R w w' -> R' (f w) (f' w')) -> sim R R' (modify f) (modify f').
Proof. intros Hf w w' H. split; [reflexivity|]. split; [apply Hf, H | reflexivity]. Qed.

Lemma sim_bind {A B} (R R1 R2 : World -> World -> Prop)
  (m m' : M A) (k k' : A -> M B) :
  sim R R1 m m' -> (forall w w', R1 w w' -> R2 w w') ->
  (forall a, sim R1 R2 (k a) (k' a)) ->
  sim R R2 (bind m k) (bind m' k').
Proof.
  intros Hm Hw Hk w w' H. destruct (Hm w w' H) as (H1 & H2 & H3).
  unfold bind.
  destruct (m w) as [[[a|e] w1] t1], (m' w') as [[[a'|e'] w1'] t1'];
    unfold result, world, trace in *; cbn [fst snd] in *; try discriminate.
  - injection H1 as <-. destruct (Hk a w1 w1' H2) as (K1 & K2 & K3).
    destruct (k a w1) as [[r w2] t2], (k' a w1') as [[r' w2'] t2'];
      unfold result, world, trace in *; cbn [fst snd] in *.
    split; [exact K1|]. split; [exact K2|]. rewrite !map_app, H3, K3. reflexivity.
  - injection H1 as <-. split; [reflexivity|]. split; [apply Hw, H2 | exact H3].
Qed.

Lemma sim_bind_get {B} (R R' : World -> World -> Prop) (k k' : World -> M B) :
  (forall w0 w0', R w0 w0' -> sim R R' (k w0) (k' w0')) ->
  sim R R' (bind get k) (bind get k').
Proof.
  intros Hk w w' H. destruct (Hk w w' H w w' H) as (H1 & H2 & H3).
  unfold bind, get.
  destruct (k w w) as [[r w2] t2], (k' w' w') as [[r' w2'] t2'];
    unfold result, world, trace in *; cbn [fst snd app] in *.
  repeat split; assumption.
Qed.

Lemma sim_bind_args {B} (R R' : World -> World -> Prop) (k k' : Args -> M B) :
  (forall w0 w0', R w0 w0' -> sim R R' (k (w_args w0)) (k' (w_args w0'))) ->
  sim R R' (bind the_args k) (bind the_args k').
Proof.
  intros Hk w w' H. destruct (Hk w w' H w w' H) as (H1 & H2 & H3).
  unfold the_args, bind, get, ret.
  destruct (k (w_args w) w) as [[r w2] t2], (k' (w_args w') w') as [[r' w2'] t2'];
    unfold result, world, trace in *; cbn [fst snd app] in *.
  repeat split; assumption.
Qed.

Lemma sim_weaken {A} (R R' Q Q' : World -> World -> Prop) (m m' : M A) :
  (forall w w', Q w w' -> R w w') -> (forall w w', R' w w' -> Q' w w') ->
  sim R R' m m' -> sim Q Q' m m'.
Proof.
  intros H1 H2 Hm w w' H. destruct (Hm w w' (H1 _ _ H)) as (K1 & K2 & K3).
  repeat split; auto.
Qed.

Lemma sim_for_enumerate {X S} (R : World -> World -> Prop)
  (body body' : Z -> X -> S -> M S) xs :
  (forall i x s, sim R R (body i x s) (body' i x s)) ->
  forall i last s, sim R R (for_enumerate body i last xs s)
                     (for_enumerate body' i last xs s).
Proof.
  intros Hb. induction xs as [|x xs IH]; intros i last s; simpl.
  - apply sim_ret.
  - apply (sim_bind R R R); [apply Hb | auto | intros s'; apply IH].
Qed.

Lemma sim_py_mod (R : World -> World -> Prop) a b : sim R R (py_mod a b) (py_mod a b).
Proof. unfold py_mod. destruct (b =? 0); [apply sim_raise | apply sim_ret]. Qed.

Lemma sim_py_truediv (R : World -> World -> Prop) x n :
  sim R R (py_truediv x n) (py_truediv x n).
Proof. unfold py_truediv. destruct (n =? 0); [apply sim_raise | apply sim_ret]. Qed.

Lemma sim_tensor_view (R : World -> World -> Prop) p x :
  sim R R (tensor_view p x) (tensor_view p x).
Proof.
  unfold tensor_view.
  apply (sim_bind R R R); [apply sim_emit; reflexivity | auto | intros _].
  destruct (view_ok p x); [apply sim_ret | apply sim_raise].
Qed.

Lemma sim_tensor_to (R : World -> World -> Prop) d x :
  sim R R (tensor_to d x) (tensor_to d x).
Proof.
  unfold tensor_to.
  apply (sim_bind R R R); [apply sim_emit; reflexivity | auto | intros _; apply sim_ret].
Qed.

Lemma sim_loss_func (R : World -> World -> Prop) p g :
  sim R R (loss_func p g) (loss_func p g).
Proof.
  unfold loss_func.
  apply (sim_bind R R R); [apply sim_emit; reflexivity | auto | intros _; apply sim_ret].
Qed.

Lemma sim_call_model x : sim same_device same_device (call_model x) (call_model x).
Proof.
  unfold call_model. apply sim_bind_get. intros w0 w0' H0. align H0.
  rewrite F1, F2, F7.
  apply (sim_bind _ same_device); [apply sim_emit; reflexivity | auto | intros _].
  apply sim_ret.
Qed.

Lemma sim_emit_then_modify (R : World -> World -> Prop) e f :
  (forall w w', R w w' -> R (f w) (f w')) ->
  sim R R (bind (emit e) (fun _ => modify f)) (bind (emit e) (fun _ => modify f)).
Proof.
  intros Hf.
  apply (sim_bind R R R); [apply sim_emit; reflexivity | auto | intros _].
  apply sim_modify, Hf.
Qed.

Lemma sim_optimizer_zero_grad :
  sim same_device same_device optimizer_zero_grad optimizer_zero_grad.
Proof.
  apply sim_emit_then_modify. intros w w' H. align H. same_tac.
Qed.

Lemma sim_loss_backward l :
  sim same_device same_device (loss_backward l) (loss_backward l).
Proof.
  apply sim_emit_then_modify. intros w w' H. align H. same_tac.
Qed.

Lemma sim_optimizer_step :
  sim same_device same_device optimizer_step optimizer_step.
Proof.
  apply sim_emit_then_modify. intros w w' H. align H.
  rewrite F1, F3, F4, F5.
  destruct (adam_step _ _ _ _) as [o p]. same_tac.
Qed.

(** *** Simulation of the driver *)

Lemma sim_train_body epoch n i b tl :
  sim same_device same_device (train_body epoch n i b tl) (train_body epoch n i b tl).
Proof.
  destruct b as [[inp gt] id]. unfold train_body.
  apply sim_bind_args. intros w0 w0' H0. align H0.
  rewrite G6, G8, <- E. clear.
  set (a := w_args w0).
  apply (sim_bind _ same_device); [|auto|].
  { destruct (py_truthy (patch_size a)); [|apply sim_ret].
    apply (sim_bind _ same_device); [apply sim_tensor_view | auto | intros inp'].
    apply (sim_bind _ same_device); [apply sim_tensor_view | auto | intros gt'].
    apply sim_ret. }
  intros [inp' gt'].
  apply (sim_bind _ same_device); [apply sim_tensor_to | auto | intros inp2].
  apply (sim_bind _ same_device); [apply sim_tensor_to | auto | intros gt2].
  apply (sim_bind _ same_device); [apply sim_call_model | auto | intros pred].
  apply (sim_bind _ same_device); [apply sim_loss_func | auto | intros loss].
  apply (sim_bind _ same_device); [apply sim_optimizer_zero_grad | auto | intros _].
  apply (sim_bind _ same_device); [apply sim_loss_backward | auto | intros _].
  apply (sim_bind _ same_device); [apply sim_optimizer_step | auto | intros _].
  apply (sim_bind _ same_device); [apply sim_py_mod | auto | intros r].
  apply (sim_bind _ same_device); [|auto | intros _; apply sim_ret].
  destruct (r =? 0); [|apply sim_ret].
  apply (sim_bind _ same_device); [apply sim_py_truediv | auto | intros mean].
  apply sim_bind_get. intros w1 w1' H1. align H1. rewrite F5.
  apply sim_emit. reflexivity.
Qed.

Lemma sim_read_local {A} (R : World -> World -> Prop) (v : option A) :
  sim R R (read_local v) (read_local v).
Proof. destruct v; [apply sim_ret | apply sim_raise]. Qed.

Lemma sim_train dataloader epoch :
  sim same_read same_device (train dataloader epoch) (train dataloader epoch).
Proof.
  unfold train.
  apply (sim_bind _ same_device);
    [|intros w w' H; exact H|intros _].
  { apply sim_modify. intros w w' H. align H.
    split; [|reflexivity]. apply same_read_intro;
      unfold with_args;
      cbn [w_args w_params w_training w_grads w_opt w_lr w_sched w_grad_enabled];
      try (symmetry; assumption).
    exact A. }
  apply (sim_bind _ same_device); [|auto|intros _].
  { unfold model_train. apply sim_emit_then_modify.
    intros w w' H. align H. same_tac. }
  apply (sim_bind _ same_device);
    [apply sim_for_enumerate; intros; apply sim_train_body | auto |].
  intros [total_loss batch_i].
  apply (sim_bind _ same_device); [apply sim_emit; reflexivity | auto | intros _].
  apply (sim_bind _ same_device); [apply sim_read_local | auto | intros bi].
  apply sim_py_truediv.
Qed.

Lemma sim_val_body epoch n i b totals :
  sim same_device same_device (val_body epoch n i b totals) (val_body epoch n i b totals).
Proof.
  destruct b as [[inp gt] id]. destruct totals as [[tl tp] top]. unfold val_body.
  apply sim_bind_args. intros w0 w0' H0. align H0.
  rewrite G6, G8. clear.
  set (a := w_args w0).
  apply (sim_bind _ same_device); [apply sim_tensor_view | auto | intros inp'].
  apply (sim_bind _ same_device); [apply sim_tensor_view | auto | intros gt'].
  apply (sim_bind _ same_device); [apply sim_call_model | auto | intros pred].
  apply (sim_bind _ same_device); [apply sim_loss_func | auto | intros loss].
  apply (sim_bind _ same_device); [apply sim_loss_func | auto | intros org].
  apply (sim_bind _ same_device); [apply sim_py_mod | auto | intros r].
  apply (sim_bind _ same_device); [|auto | intros _; apply sim_ret].
  destruct (r =? 0); [|apply sim_ret].
  apply (sim_bind _ same_device); [apply sim_py_truediv | auto | intros m1].
  apply (sim_bind _ same_device); [apply sim_py_truediv | auto | intros m2].
  apply (sim_bind _ same_device); [apply sim_py_truediv | auto | intros m3].
  apply sim_emit. reflexivity.
Qed.

Lemma sim_with_no_grad {A} (body : M A) :
  sim same_device same_device body body ->
  sim same_device same_device (with_no_grad body) (with_no_grad body).
Proof.
  intros Hb. unfold with_no_grad. apply sim_bind_get. intros w0 w0' H0.
  align H0. rewrite F7. clear - Hb.
  assert (Hm : sim same_device same_device
                 (bind (emit (ENoGrad true))
                    (fun _ => bind (modify (with_grad_enabled false)) (fun _ => body)))
                 (bind (emit (ENoGrad true))
                    (fun _ => bind (modify (with_grad_enabled false)) (fun _ => body)))).
  { apply (sim_bind _ same_device); [apply sim_emit; reflexivity | auto | intros _].
    apply (sim_bind _ same_device); [|auto | intros _; exact Hb].
    apply sim_modify. intros w w' H. align H. same_tac. }
  intros w w' H. destruct (Hm w w' H) as (H1 & H2 & H3).
  unfold finally.
  destruct (bind _ _ w) as [[r w1] t1], (bind _ _ w') as [[r' w1'] t1'];
    unfold result, world, trace in *; cbn [fst snd] in *.
  split; [exact H1|]. split.
  - align H2. same_tac.
  - rewrite !map_app, H3. reflexivity.
Qed.

Lemma sim_val dataloader epoch :
  sim same_read same_device (val dataloader epoch) (val dataloader epoch).
Proof.
  unfold val.
  apply (sim_bind _ same_device);
    [|intros w w' H; exact H|intros _].
  { apply sim_modify. intros w w' H. align H.
    split; [|reflexivity]. apply same_read_intro;
      unfold with_args;
      cbn [w_args w_params w_training w_grads w_opt w_lr w_sched w_grad_enabled];
      try (symmetry; assumption).
    exact A. }
  apply (sim_bind _ same_device); [|auto|intros _].
  { unfold model_eval. apply sim_emit_then_modify.
    intros w w' H. align H. same_tac. }
  apply (sim_bind _ same_device);
    [apply sim_with_no_grad, sim_for_enumerate; intros; apply sim_val_body | auto |].
  intros [[[total_loss total_psnr] total_org_psnr] batch_i].
  unfold logger_info.
  apply (sim_bind _ same_device); [apply sim_py_truediv | auto | intros m1].
  apply (sim_bind _ same_device); [apply sim_emit; reflexivity | auto | intros _].
  apply (sim_bind _ same_device); [apply sim_py_truediv | auto | intros m2].
  apply (sim_bind _ same_device); [apply sim_emit; reflexivity | auto | intros _].
  apply (sim_bind _ same_device); [apply sim_py_truediv | auto | intros m3].
  apply (sim_bind _ same_device); [apply sim_emit; reflexivity | auto | intros _].
  apply sim_py_truediv.
Qed.

Lemma sim_lr_scheduler_step v :
  sim same_read same_read (lr_scheduler_step v) (lr_scheduler_step v).
Proof.
  unfold lr_scheduler_step.
  apply (sim_bind _ same_read); [apply sim_emit; reflexivity | auto | intros _].
  apply sim_bind_get. intros w0 w0' H0. align H0. rewrite F5, F6.
  destruct (s_patience _ <? s_num_bad_epochs _).
  - apply (sim_bind _ same_read); [|auto|intros _].
    + destruct (reduced_lr _ _); [|apply sim_ret].
      apply (sim_bind _ same_read); [apply sim_emit; reflexivity | auto | intros _].
      apply sim_modify. intros w w' H. align H. same_tac.
    + apply sim_modify. intros w w' H. align H. same_tac.
  - apply sim_modify. intros w w' H. align H. same_tac.
Qed.

Lemma sim_torch_save path :
  sim same_read same_read (torch_save path) (torch_save path).
Proof.
  unfold torch_save. apply sim_bind_get. intros w0 w0' H0. align H0. rewrite F1.
  apply sim_emit. reflexivity.
Qed.

Lemma sim_epoch_body train_loader val_loader epoch best :
  sim same_read same_read (epoch_body train_loader val_loader epoch best)
    (epoch_body train_loader val_loader epoch best).
Proof.
  unfold epoch_body.
  apply sim_bind_args. intros w0 w0' H0. align H0. rewrite G7. clear.
  unfold logger_info.
  apply (sim_bind _ same_read); [apply sim_emit; reflexivity | auto | intros _].
  apply (sim_bind _ same_read);
    [eapply sim_weaken; [| |apply sim_train]; auto using same_device_same_read
    | auto | intros t_loss].
  apply (sim_bind _ same_read);
    [eapply sim_weaken; [| |apply sim_val]; auto using same_device_same_read
    | auto | intros v_loss].
  apply (sim_bind _ same_read); [apply sim_lr_scheduler_step | auto | intros _].
  apply (sim_bind _ same_read); [|auto|intros best'].
  { destruct (v_loss <? best)%float; [|apply sim_ret].
    apply sim_bind_args. intros w1 w1' H1. align H1. rewrite G4.
    apply (sim_bind _ same_read); [apply sim_torch_save | auto | intros _; apply sim_ret]. }
  apply sim_bind_args. intros w1 w1' H1. align H1. rewrite G9. clear.
  apply (sim_bind _ same_read); [apply sim_py_mod | auto | intros r].
  apply (sim_bind _ same_read); [|auto | intros _; apply sim_ret].
  destruct (r =? 0); [|apply sim_ret].
  apply sim_bind_args. intros w2 w2' H2. align H2. rewrite G4.
  apply sim_torch_save.
Qed.

Lemma sim_epoch_loop train_loader val_loader epochs : forall best,
  sim same_read same_read (epoch_loop train_loader val_loader epochs best)
    (epoch_loop train_loader val_loader epochs best).
Proof.
  induction epochs as [|e es IH]; intros best; simpl.
  - apply sim_ret.
  - apply (sim_bind _ same_read); [apply sim_epoch_body | auto | intros b; apply IH].
Qed.

Lemma sim_main_body save_dir_exists train_loader val_loader :
  sim same_read same_read (main_body save_dir_exists train_loader val_loader)
    (main_body save_dir_exists train_loader val_loader).
Proof.
  unfold main_body.
  apply sim_bind_args. intros w0 w0' H0. align H0.
  unfold logger_info.
  apply (sim_bind _ same_read); [|auto|intros _].
  { destruct save_dir_exists; [apply sim_ret|]. rewrite G4. apply sim_emit. reflexivity. }
  apply (sim_bind _ same_read); [apply sim_emit; reflexivity | auto | intros _].
  apply (sim_bind _ same_read);
    [apply sim_emit; simpl; rewrite A; reflexivity | auto | intros _].
  rewrite G1, G2, G3, G5, G6, G7, G10, G11.
  apply (sim_bind _ same_read); [apply sim_emit; reflexivity | auto | intros _].
  apply (sim_bind _ same_read); [apply sim_emit; reflexivity | auto | intros _].
  apply (sim_bind _ same_read); [apply sim_emit; reflexivity | auto | intros _].
  apply (sim_bind _ same_read); [apply sim_emit; reflexivity | auto | intros _].
  apply (sim_bind _ same_read); [|auto|intros _].
  { destruct (pretrained (w_args w0) =? "")%string;
      [apply sim_ret | apply sim_emit; reflexivity]. }
  apply (sim_bind _ same_read); [apply sim_emit; reflexivity | auto | intros _].
  apply (sim_bind _ same_read); [|auto|intros _].
  { unfold optim_Adam. destruct (0 <=? lr (w_args w0))%float;
      [apply sim_ret | apply sim_raise]. }
  apply (sim_bind _ same_read); [apply sim_epoch_loop | auto | intros _].
  apply sim_emit. reflexivity.
Qed.

Lemma initial_world_same_read a a' :
  read_items a = read_items a' -> same_read (initial_world a) (initial_world a').
Proof.
  intros H. destruct (read_items_fields _ _ H) as (G1 & _ & _ & _ & _ & _ & _ & _ & _ & G10 & _).
  apply same_read_intro; unfold initial_world;
    cbn [w_args w_params w_training w_grads w_opt w_lr w_sched w_grad_enabled];
    rewrite ?G1, ?G10; try reflexivity. exact H.
Qed.

Lemma epoch_loop_loader_batch_one train_loader val_loader epochs best w :
  Forall loader_batch_one (trace (epoch_loop train_loader val_loader epochs best w)).
Proof.
  apply (epoch_loop_keeps (fun _ => True) loader_batch_one); [|exact I].
  intros epoch b. apply epoch_body_keeps; try (intros; exact I).
  - intros dl ep w0 _. split; [exact I|].
    eapply Forall_impl; [|apply train_frame].
    intros e He. destruct e; simpl in *; tauto.
  - intros dl ep w0 _. split; [exact I|].
    eapply Forall_impl; [|apply val_frame].
    intros e He. destruct e; simpl in *; tauto.
Qed.

(** C3 (amended): every configuration item of the parsed arguments has
    the value given with its own CLI flag: the empty command line gives
    the defaults, and each option sets the item of its flag and no
    other, so that an item is the value of the last occurrence of its
    flag, else its default.  The run is not controlled by all the
    items: the model and the data are always placed on ['cpu'],
    whatever is passed to [--device], the two dataloaders are always
    built with batch size 1, whatever is passed to [--batch_size], and
    these two flags, like [--mode], [--result_fig], [--transform],
    [--decay_iters], [--test_interval] and [--multi_gpu], which are
    read nowhere, change nothing of a run but the record of the
    arguments that [main] logs and keeps. *)
Theorem flags_set_items_and_ignored_flags argv save_dir_exists train_loader val_loader :
  let run := main argv save_dir_exists train_loader val_loader in
  get_args [] = default_args /\
  (forall o, get_args (argv ++ [o]) = set_flag o (get_args argv)) /\
  get_args argv = fold_left (fun a o => set_flag o a) argv default_args /\
  (forall d, In (EModelTo d) (trace run) \/ In (ETo d) (trace run) -> d = "cpu") /\
  (forall path b shuffle workers,
     In (EDataLoader path b shuffle workers) (trace run) -> b = 1) /\
  (forall argv',
     read_items (get_args argv') = read_items (get_args argv) ->
     blank_run (main argv' save_dir_exists train_loader val_loader) = blank_run run).
Proof.
  cbv zeta.
  split; [reflexivity|].
  split; [intros o; rewrite !get_args_fold, fold_left_app; reflexivity|].
  split; [apply get_args_fold|].
  split; [|split].
  - assert (H : Forall placed_on_cpu
                  (trace (main argv save_dir_exists train_loader val_loader))).
    { apply main_trace_forall;
        [apply setup_events_on_cpu | apply epoch_loop_on_cpu | exact I]. }
    rewrite Forall_forall in H.
    intros d [Hd|Hd]; apply (H _ Hd).
  - assert (H : Forall loader_batch_one
                  (trace (main argv save_dir_exists train_loader val_loader))).
    { apply main_trace_forall;
        [|apply epoch_loop_loader_batch_one | exact I].
      unfold setup_events.
      destruct save_dir_exists, (pretrained (get_args argv) =? "")%string;
        repeat constructor. }
    rewrite Forall_forall in H.
    intros path b shuffle workers Hin. exact (H _ Hin).
  - intros argv' Hread.
    destruct (sim_main_body save_dir_exists train_loader val_loader
                (initial_world (get_args argv')) (initial_world (get_args argv))
                (initial_world_same_read _ _ Hread)) as (H1 & H2 & H3).
    unfold blank_run, main. rewrite H1, H3. unfold same_read in H2. rewrite H2.
    reflexivity.
Qed.


End Properties.

(** ** Closed instances on the scalar framework *)

Lemma train_returns_mean_loss_witness :
  result (train loader2 1 (scalar_world [Opt_print_iters 3])) =
    Ok (0x1.3efa1e3eaf684p+3)%float /\
  List.length (loss_values (trace (train loader2 1 (scalar_world [Opt_print_iters 3])))) = 2%nat.
Proof.
  assert (H := train_returns_mean_loss loader2 1 (scalar_world [Opt_print_iters 3])).
  cbv zeta in H.
  destruct H as [H1 H2]; [discriminate | vm_compute; discriminate | reflexivity |].
  split; [rewrite H1; vm_compute; reflexivity | exact H2].
Defined.

(** C4, as stated, fails: with [--print_iters 0] the first batch of a
    non-empty dataloader ends [train] in a [ZeroDivisionError], and
    with [--patch_size -5] its first reshape ends it in a
    [RuntimeError]. *)
Lemma train_raises_on_nonempty_dataloader :
  loader2 <> [] /\
  result (train loader2 1 (scalar_world [Opt_print_iters 0])) =
    Raise ZeroDivisionError /\
  result (train loader2 1 (scalar_world [Opt_patch_size (-5)])) =
    Raise RuntimeError.
Proof. split; [discriminate | vm_compute; split; reflexivity]. Qed.

Lemma val_psnr_and_mean_loss_witness :
  result (val loader2 1 (scalar_world [Opt_print_iters 3])) = Ok 10%float /\
  exists t,
    trace (val loader2 1 (scalar_world [Opt_print_iters 3])) =
      t ++ [ELog (LogMeanPsnr (-0x1.8151824c7587fp+2));
            ELog (LogMeanOrgPsnr 0);
            ELog (LogMeanLoss 10)].
Proof.
  assert (H := val_psnr_and_mean_loss loader2 1 (scalar_world [Opt_print_iters 3])).
  cbv zeta in H.
  destruct H as [H1 (t & H2)];
    [discriminate | vm_compute; discriminate | reflexivity |].
  split; [rewrite H1; vm_compute; reflexivity|].
  exists t. rewrite H2. f_equal.
Defined.

(** C6, as stated, fails: with [--print_iters 0] the first batch of a
    non-empty dataloader ends [val] in a [ZeroDivisionError], and with
    [--patch_size 0] its first reshape ends it in a [RuntimeError]. *)
Lemma val_raises_on_nonempty_dataloader :
  loader2 <> [] /\
  result (val loader2 1 (scalar_world [Opt_print_iters 0])) =
    Raise ZeroDivisionError /\
  result (val loader2 1 (scalar_world [Opt_patch_size 0])) =
    Raise RuntimeError.
Proof. split; [discriminate | vm_compute; split; reflexivity]. Qed.

(** C2, as stated, fails: [train] changes the [device] field of a
    configuration parsed from [--device cuda]. *)
Lemma train_overwrites_device :
  w_args (world (train loader2 1 (scalar_world [Opt_device "cuda"]))) <>
  w_args (scalar_world [Opt_device "cuda"]).
Proof. intros H. apply (f_equal device) in H. vm_compute in H. discriminate. Qed.

(** C3, as stated, fails: with [--device cuda] the model and the data
    are still placed on ['cpu'] and on no other device. *)
Lemma device_flag_is_ignored :
  device (get_args [Opt_device "cuda"; Opt_num_epochs 1]) = "cuda" /\
  In (EModelTo "cpu")
    (trace (main [Opt_device "cuda"; Opt_num_epochs 1] true (fun _ => loader2) loader2)) /\
  In (ETo "cpu")
    (trace (main [Opt_device "cuda"; Opt_num_epochs 1] true (fun _ => loader2) loader2)) /\
  ~ In (EModelTo "cuda")
    (trace (main [Opt_device "cuda"; Opt_num_epochs 1] true (fun _ => loader2) loader2)) /\
  ~ In (ETo "cuda")
    (trace (main [Opt_device "cuda"; Opt_num_epochs 1] true (fun _ => loader2) loader2)).
Proof.
  vm_compute. repeat split; try tauto;
    intros H; repeat (destruct H as [H|H]; [discriminate|]); exact H.
Qed.


Lemma best_checkpoint_iff_strict_improvement_witness :
  In "./ckpt/1/model_best.pth"
    (saved_paths
       (trace (epoch_body (fun _ => loader2) loader2 2 0x1.39a4632297603p+3
                 (world first_epoch)))) /\
  (0x1.33691cc7cd7f1p+3 <? running_best (mean_losses (trace first_epoch)))%float = true.
Proof.
  destruct (best_checkpoint_iff_strict_improvement
              (fun _ => loader2) loader2 [1] 2 (scalar_world [])
              0x1.39a4632297603p+3 (world first_epoch) (trace first_epoch)
              0x1.33691cc7cd7f1p+3) as (Hiff & _).
  - vm_compute. reflexivity.
  - vm_compute. repeat (first [left; reflexivity | right]).
  - split; [apply Hiff|]; vm_compute; reflexivity.
Defined.

Lemma periodic_checkpoint_every_save_interval_witness :
  In "./ckpt/1/model_checkpoint_4.pth"
    (saved_paths
       (trace (epoch_body (fun _ => loader2) loader2 4 py_inf
                 (scalar_world [Opt_save_interval 2])))).
Proof.
  refine (periodic_checkpoint_every_save_interval
            (fun _ => loader2) loader2 4 py_inf (scalar_world [Opt_save_interval 2])
            0x1.39a4632297603p+3 _ _ _).
  - vm_compute. repeat (first [left; reflexivity | right]).
  - lia.
  - exists 2. reflexivity.
Defined.

Lemma lr_reduced_only_on_plateau_witness :
  set_lrs (trace plateau_run) = [min_lr_1e_7] /\
  6 < stagnant_epochs (sched_metrics (firstn 341 (trace plateau_run))) /\
  (min_lr_1e_7 <? min_lr_1e_7)%float = false.
Proof.
  destruct (lr_reduced_only_on_plateau
              [Opt_lr 0x1.421f5f40d8376p-22; Opt_num_epochs 9] true
              (fun _ => loader2) loader2) as (_ & H & _).
  destruct (H (firstn 341 (trace plateau_run)) min_lr_1e_7
              (skipn 342 (trace plateau_run))) as (_ & H1 & H2).
  - vm_compute. reflexivity.
  - split; [vm_compute; reflexivity | split; assumption].
Defined.

Lemma train_zero_print_iters_one_step_witness :
  result (train loader2 1 (scalar_world [Opt_print_iters 0])) =
    Raise ZeroDivisionError /\
  call_kinds (trace (train loader2 1 (scalar_world [Opt_print_iters 0]))) =
    [KModelTrain; KView; KView; KTo; KTo; KForward; KLoss; KZeroGrad;
     KBackward; KOptStep].
Proof.
  apply (train_zero_print_iters_one_step loader2 1 (scalar_world [Opt_print_iters 0]));
    [discriminate | reflexivity | reflexivity].
Defined.

Lemma val_zero_print_iters_raises_witness :
  result (val loader2 1 (scalar_world [Opt_print_iters 0])) =
    Raise ZeroDivisionError /\
  mean_losses (trace (val loader2 1 (scalar_world [Opt_print_iters 0]))) = [] /\
  w_grad_enabled (world (val loader2 1 (scalar_world [Opt_print_iters 0]))) = true /\
  exists t, trace (val loader2 1 (scalar_world [Opt_print_iters 0])) =
            [EModelEval; ENoGrad true] ++ t ++ [ENoGrad false].
Proof.
  apply (val_zero_print_iters_raises loader2 1 (scalar_world [Opt_print_iters 0]));
    [discriminate | reflexivity | reflexivity].
Defined.



Lemma main_zero_save_interval_witness :
  result (main [Opt_save_interval 0] true (fun _ => loader2) loader2) =
    Raise ZeroDivisionError.
Proof.
  destruct (main_zero_save_interval [Opt_save_interval 0] true (fun _ => loader2) loader2)
    as (_ & _ & _ & H).
  - vm_compute. discriminate.
  - reflexivity.
  - apply H. vm_compute. discriminate.
Defined.

Lemma main_writes_only_checkpoints_witness :
  "./ckpt/1/model_checkpoint_2.pth" = "./ckpt/1/model_best.pth" \/
  exists e,
    1 <= e <= 2 /\ 2 <> 0 /\ e mod 2 = 0 /\
    "./ckpt/1/model_checkpoint_2.pth" =
      ("./ckpt/1" ++ "/model_checkpoint_" ++ py_str_of_Z e ++ ".pth")%string.
Proof.
  apply (main_writes_only_checkpoints
           [Opt_num_epochs 2; Opt_save_interval 2] true (fun _ => loader2) loader2).
  vm_compute. repeat (first [left; reflexivity | right]).
Defined.

Lemma checkpoints_hold_trained_parameters_witness :
  w_params (world (train loader2 1 (scalar_world []))) =
  w_params (world (epoch_body (fun _ => loader2) loader2 1 py_inf (scalar_world []))).
Proof.
  destruct (checkpoints_hold_trained_parameters
              (fun _ => loader2) loader2 1 py_inf (scalar_world [])
              (w_params (world (train loader2 1 (scalar_world []))))
              "./ckpt/1/model_best.pth") as (_ & H).
  - vm_compute. repeat (first [left; reflexivity | right]).
  - exact H.
Defined.

Lemma main_normal_end_witness :
  List.length
    (mean_losses
       (trace (main [Opt_num_epochs 2; Opt_save_interval 2] true
                 (fun _ => loader2) loader2))) = 2%nat /\
  In "./ckpt/1/model_checkpoint_2.pth"
    (saved_paths
       (trace (main [Opt_num_epochs 2; Opt_save_interval 2] true
                 (fun _ => loader2) loader2))).
Proof.
  destruct (main_normal_end [Opt_num_epochs 2; Opt_save_interval 2] true
              (fun _ => loader2) loader2) as (H1 & H2 & _).
  - vm_compute. reflexivity.
  - split; [exact H1|].
    apply (H2 2); [vm_compute; split; discriminate | exists 1; reflexivity].
Defined.

Lemma nan_validation_loss_never_best_witness :
  ~ In "./ckpt/1/model_best.pth"
       (saved_paths
          (trace (epoch_body (fun _ => loader2) nan_loader 1 py_inf (scalar_world [])))) /\
  result (epoch_body (fun _ => loader2) nan_loader 1 py_inf (scalar_world [])) =
    Ok py_inf.
Proof.
  destruct (nan_validation_loss_never_best
              (fun _ => loader2) nan_loader 1 py_inf (scalar_world []) nan) as (H1 & H2).
  - reflexivity.
  - vm_compute. repeat (first [left; reflexivity | right]).
  - split; [exact H1 | apply H2; vm_compute; discriminate].
Defined.

Lemma main_forward_modes_witness :
  In (EForward false false)
    (trace (main [Opt_num_epochs 1] true (fun _ => loader2) loader2)) /\
  false = false.
Proof.
  assert (H : In (EForward false false)
                (trace (main [Opt_num_epochs 1] true (fun _ => loader2) loader2))).
  { vm_compute. repeat (first [left; reflexivity | right]). }
  split; [exact H|].
  exact (main_forward_modes [Opt_num_epochs 1] true (fun _ => loader2) loader2
           false false H).
Defined.

Lemma train_log_records_witness :
  In (ELog (LogTrainBatch 1 2 2 0x1.fdf43c7d5ed07p+3 0x1.3efa1e3eaf684p+3
              0x1.0624dd2f1a9fcp-10))
    (trace (train loader2 1 (scalar_world [Opt_print_iters 1]))) /\
  nth_error
    (map item (loss_values (trace (train loader2 1 (scalar_world [Opt_print_iters 1])))))
    1 = Some 0x1.fdf43c7d5ed07p+3%float.
Proof.
  assert (H : In (ELog (LogTrainBatch 1 2 2 0x1.fdf43c7d5ed07p+3 0x1.3efa1e3eaf684p+3
                          0x1.0624dd2f1a9fcp-10))
                (trace (train loader2 1 (scalar_world [Opt_print_iters 1])))).
  { vm_compute. repeat (first [left; reflexivity | right]). }
  split; [exact H|].
  destruct (train_log_records loader2 1 (scalar_world [Opt_print_iters 1])
              1 2 2 _ _ _ H) as (_ & _ & _ & _ & _ & _ & Hl & _).
  exact Hl.
Defined.

Lemma train_logged_batches_witness :
  print_iters (w_args (scalar_world [Opt_print_iters 2])) <> 0 /\
  map (fun rec => snd (fst (fst (fst (fst rec)))))
    (train_logs (trace (train (loader2 ++ loader2) 1 (scalar_world [Opt_print_iters 2])))) =
  [1; 3].
Proof.
  assert (H : print_iters (w_args (scalar_world [Opt_print_iters 2])) <> 0).
  { vm_compute. discriminate. }
  split; [exact H|].
  rewrite (train_logged_batches (loader2 ++ loader2) 1
             (scalar_world [Opt_print_iters 2]) H eq_refl).
  vm_compute. reflexivity.
Defined.

Lemma val_log_records_witness :
  In (ELog (LogValBatch 1 1 2 0x1p+2 0x1p+2 (-0x1.8151824c7587fp+1)
              (-0x1.8151824c7587fp+1) 0x1.8151824c7587fp+1 0x1.8151824c7587fp+1))
    (trace (val loader2 1 (scalar_world []))) /\
  (1 - 1) mod print_iters (w_args (scalar_world [])) = 0.
Proof.
  assert (H : In (ELog (LogValBatch 1 1 2 0x1p+2 0x1p+2 (-0x1.8151824c7587fp+1)
                          (-0x1.8151824c7587fp+1) 0x1.8151824c7587fp+1
                          0x1.8151824c7587fp+1))
                (trace (val loader2 1 (scalar_world [])))).
  { vm_compute. repeat (first [left; reflexivity | right]). }
  split; [exact H|].
  destruct (val_log_records loader2 1 (scalar_world []) 1 1 2 _ _ _ _ _ _ H)
    as (_ & _ & _ & _ & Hm & _).
  exact Hm.
Defined.


Lemma nonpositive_patch_size_raises_witness :
  result (val loader2 1 (scalar_world [Opt_patch_size 0])) = Raise RuntimeError /\
  result (train loader2 1 (scalar_world [Opt_patch_size (-5)])) = Raise RuntimeError.
Proof.
  split.
  - apply (nonpositive_patch_size_raises loader2 1 (scalar_world [Opt_patch_size 0]));
      [discriminate | vm_compute; discriminate].
  - apply (nonpositive_patch_size_raises loader2 1 (scalar_world [Opt_patch_size (-5)]));
      [discriminate | reflexivity].
Defined.


(** C5, as stated, fails: in the run [plateau_run] the mean validation
    loss is strictly lower in each of the first eight epochs than in
    the epoch before, yet the scheduler reduces the learning rate at
    its eighth step: the decreases are smaller than the relative
    threshold 1e-4 below which the scheduler sees no improvement. *)
Lemma lr_reduced_while_loss_falls :
  nth_error (trace plateau_run) 341 = Some (ESetLr min_lr_1e_7) /\
  List.length (sched_metrics (firstn 341 (trace plateau_run))) = 8%nat /\
  strictly_falling py_inf (sched_metrics (firstn 341 (trace plateau_run))) = true.
Proof. vm_compute. repeat split. Qed.
